(** * toggl-asana-sync: the synchronisation script, embedded and verified

    The repository is one Node.js script kept in several evolutions.  The
    development below embeds the workspace-wide variant (the one with the
    two session caches and the duplicate detector) and, next to it, the
    older [sync.js], which shares the ledger and the loop but posts every
    unledgered entry without looking at Asana first.

    JavaScript values are kept as the script meets them: a JSON field is
    absent, [null] or a number; arithmetic yields a number or [NaN]; the
    ledger is an object used as a map; the session caches are [Map]s; the
    remote services are an explicit world that every request steps. *)

From Stdlib Require Import ZArith QArith Qround String Ascii List Bool Lia.
From stdpp Require Import gmap strings list.

Local Close Scope Q_scope.
Local Open Scope Z_scope.

(** ** JavaScript values *)

(** What a numeric JSON field of an API record can hold. *)
Inductive jsval : Type :=
  | undefined
  | null
  | number (n : Z).

#[export] Instance jsval_eq_dec : EqDecision jsval.
Proof. solve_decision. Defined.

(** The outcome of arithmetic on such a field. *)
Inductive num : Type :=
  | NaN
  | Fin (q : Q).

(** ToBoolean on a field: only a non-zero number is truthy. *)
Definition truthy (v : jsval) : bool :=
  match v with
  | number n => negb (n =? 0)
  | _ => false
  end.

(** [a || b] *)
Definition js_or (a b : jsval) : jsval := if truthy a then a else b.

(** ToNumber: [undefined] is NaN, [null] is 0. *)
Definition ToNumber (v : jsval) : num :=
  match v with
  | undefined => NaN
  | null => Fin (inject_Z 0)
  | number n => Fin (inject_Z n)
  end.

(** [v / d] for a literal divisor [d], as the exact rational quotient.
    JavaScript yields the double nearest to it; for the divisor 60 and an
    integer below 2^53 in size the two round to the same integer under
    [Math.round], and beyond that bound they need not: both facts are
    proved in the section on doubles, and the statement about the rounding
    rule carries the bound. *)
Definition js_div (v : jsval) (d : Z) : num :=
  match ToNumber v with
  | NaN => NaN
  | Fin q => Fin (q / inject_Z d)%Q
  end.

(** [Math.round]: the nearest integer, a tie going towards +infinity,
    which is [floor (x + 1/2)]; NaN stays NaN.  For an integer [n] below
    2^53 in size the double [n / 60] is a half-integer exactly when the
    rational is, and otherwise lies on the same side of the nearest
    half-integer (the rational is at least 1/60 away from it, the double
    less than 1/60 away from the rational), so [Math.round] gives the same
    integer on both. *)
Definition Math_round (x : num) : num :=
  match x with
  | NaN => NaN
  | Fin q => Fin (inject_Z (Qfloor (q + (1 # 2))%Q))
  end.

(** [v === x] between a JSON field and a computed number: NaN equals
    nothing, [null] and [undefined] are not numbers. *)
Definition strict_eq (v : jsval) (x : num) : bool :=
  match v, x with
  | number n, Fin q => Qeq_bool (inject_Z n) q
  | _, _ => false
  end.

(** [s.split("T")[0]]: the characters before the first ["T"], the whole
    string when there is none. *)
Fixpoint split_T_0 (s : string) : string :=
  match s with
  | EmptyString => EmptyString
  | String c rest =>
      if Ascii.eqb c "T"%char then EmptyString else String c (split_T_0 rest)
  end.

(** ** Records of the two services *)

(** A leaf of the Reports API answer. *)
Record Leaf : Type := mkLeaf {
  leaf_id : Z;
  leaf_seconds : jsval;
  leaf_duration : jsval;
  leaf_start : string
}.

(** A group of the Reports API answer; [time_entries] may be missing. *)
Record Group : Type := mkGroup {
  g_task_id : jsval;
  g_project_id : jsval;
  g_user_id : jsval;
  g_description : string;
  g_billable : bool;
  time_entries : option (list Leaf)
}.

(** A flattened time entry, as the orchestrator handles it.  [id] is the
    number Toggl gives the entry; [start] is an ISO-8601 string in every
    answer of the two listing endpoints. *)
Record Entry : Type := mkEntry {
  id : Z;
  seconds : jsval;
  duration : jsval;
  start : string;
  task_id : jsval;
  project_id : jsval;
  user_id : jsval;
  description : string;
  billable : bool
}.

(** The task detail Toggl returns. *)
Record TogglTask : Type := mkTogglTask {
  integration_provider : string;
  integration_ext_id : string;
  name : string
}.

(** A time-tracking entry already on an Asana task. *)
Record AsanaEntry : Type := mkAsanaEntry {
  entered_on : string;
  duration_minutes : jsval
}.

(** One record of the ledger [synced-entries.json].  [already_existed]
    is [true] or absent, [rec_user_id] is [None] when the key is absent. *)
Record LedgerRecord : Type := mkLedgerRecord {
  synced_at : string;
  asana_task_gid : string;
  rec_duration_minutes : num;
  rec_entered_on : string;
  already_existed : bool;
  rec_user_id : option jsval
}.

(** ** The per-entry computations of the send loop *)

(** [Math.round((entry.seconds || entry.duration) / 60)] *)
Definition durationMinutes (entry : Entry) : num :=
  Math_round (js_div (js_or (seconds entry) (duration entry)) 60).

(** [entry.start.split("T")[0]] *)
Definition enteredOn (entry : Entry) : string := split_T_0 (start entry).

(** [existing.entered_on === enteredOn &&
    existing.duration_minutes === durationMinutes] *)
Definition matches (entry : Entry) (existing : AsanaEntry) : bool :=
  String.eqb (entered_on existing) (enteredOn entry)
  && strict_eq (duration_minutes existing) (durationMinutes entry).

(** [existingEntries.some((existing) => ...)] *)
Definition alreadyExists (existingEntries : list AsanaEntry) (entry : Entry) : bool :=
  existsb (matches entry) existingEntries.

(** ** The outside world *)

(** A request either answers or throws ([!response.ok], a network error,
    a file that cannot be read). *)
Inductive result (A : Type) : Type :=
  | Ok (a : A)
  | Failed (message : string).
Arguments Ok {A} a.
Arguments Failed {A} message.

(** The ledger object: Toggl entry id to its record.  A record is an
    object, hence truthy: [!syncState[entry.id]] holds exactly when the
    key is missing. *)
Abbreviation Ledger := (gmap Z LedgerRecord).

(** Toggl, Asana, the ledger file and the clock.  Every request may
    depend on, and change, the state of the world. *)
Record Services (World : Type) : Type := mkServices {
  (* fs.readFile(SYNC_STATE_FILE, "utf-8") *)
  readFile : World -> result string * World;
  (* JSON.parse *)
  JSON_parse : string -> result Ledger;
  (* fs.writeFile(SYNC_STATE_FILE, JSON.stringify(state, null, 2)) *)
  writeFile : Ledger -> World -> result unit * World;
  (* POST reports/api/v3/workspace/:id/search/time_entries *)
  searchTimeEntries : string -> string -> World -> result (list Group) * World;
  (* GET /me/time_entries?start_date=..&end_date=.. (sync.js only) *)
  getMyTimeEntries : string -> string -> World -> result (list Entry) * World;
  (* GET /workspaces/:id/projects/:project_id/tasks/:taskId *)
  getTask : jsval -> jsval -> World -> result TogglTask * World;
  (* GET /tasks/:gid/time_tracking_entries, the [data] field of the answer *)
  getTimeTrackingEntries : string -> World -> result (option (list AsanaEntry)) * World;
  (* POST /tasks/:gid/time_tracking_entries *)
  postTimeTrackingEntry : string -> num -> string -> World -> result unit * World;
  (* new Date().toISOString() *)
  toISOString_now : World -> string
}.
Arguments readFile {World} _ _.
Arguments JSON_parse {World} _ _.
Arguments writeFile {World} _ _ _.
Arguments searchTimeEntries {World} _ _ _ _.
Arguments getMyTimeEntries {World} _ _ _ _.
Arguments getTask {World} _ _ _ _.
Arguments getTimeTrackingEntries {World} _ _ _.
Arguments postTimeTrackingEntry {World} _ _ _ _ _.
Arguments toISOString_now {World} _ _.

(** What an observer of a run sees, in order.  [PostTimeEntry] carries,
    besides the request, the id of the Toggl entry the request is made
    for; the id is a label of the trace and is not sent to Asana. *)
Inductive Event : Type :=
  | ReadLedger
  | SearchEntries (startDate endDate : string)
  | GetTask (projectId taskId : jsval)
  | GetTimeEntries (taskGid : string)
  | PostTimeEntry (taskGid : string) (minutes : num) (date : string) (entryId : Z)
  | WarnFetch (taskGid : string)
  | TaskError (taskId : jsval)
  | WriteLedger (state : Ledger).

#[export] Instance jsval_countable : Countable jsval.
Proof.
  refine (inj_countable'
    (fun v => match v with
              | undefined => inl true | null => inl false | number n => inr n
              end)
    (fun x => match x with
              | inl true => undefined | inl false => null | inr n => number n
              end) _).
  intros []; reflexivity.
Defined.

(** ** The state of one run and its monad *)

(** A statement returns a value or throws. *)
Inductive outcome (A : Type) : Type :=
  | Return (a : A)
  | Throw (message : string).
Arguments Return {A} a.
Arguments Throw {A} message.

Section Run.
Context {World : Type}.

(** Everything the script mutates while it runs. *)
Record St : Type := mkSt {
  world : World;
  trace : list Event;
  syncState : Ledger;
  togglTaskCache : gmap jsval TogglTask;
  asanaTaskCache : gmap string (list AsanaEntry);
  synced : nat;
  skipped : nat;
  alreadySynced : nat
}.

Definition init (w : World) : St := mkSt w [] ∅ ∅ ∅ 0 0 0.

(** The state a statement reached is kept whether it returns or throws. *)
Definition M (A : Type) : Type := St -> outcome A * St.

Definition ret {A} (a : A) : M A := fun s => (Return a, s).

Definition bind {A B} (m : M A) (f : A -> M B) : M B :=
  fun s =>
    match m s with
    | (Return a, s') => f a s'
    | (Throw e, s') => (Throw e, s')
    end.

(** [try { body } catch (error) { handler }] *)
Definition try_catch {A} (body : M A) (handler : string -> M A) : M A :=
  fun s =>
    match body s with
    | (Return a, s') => (Return a, s')
    | (Throw e, s') => handler e s'
    end.

Definition gets {A} (f : St -> A) : M A := fun s => (Return (f s), s).

Definition modify (f : St -> St) : M unit := fun s => (Return tt, f s).

(** An awaited request: steps the world, throws when it fails. *)
Definition request {A} (op : World -> result A * World) : M A :=
  fun s =>
    let '(r, w) := op (world s) in
    let s' := mkSt w (trace s) (syncState s) (togglTaskCache s)
                   (asanaTaskCache s) (synced s) (skipped s) (alreadySynced s) in
    match r with
    | Ok a => (Return a, s')
    | Failed e => (Throw e, s')
    end.

Definition emit (ev : Event) : M unit :=
  modify (fun s => mkSt (world s) (trace s ++ [ev]) (syncState s) (togglTaskCache s)
                        (asanaTaskCache s) (synced s) (skipped s) (alreadySynced s)).

Definition set_syncState (l : Ledger) : M unit :=
  modify (fun s => mkSt (world s) (trace s) l (togglTaskCache s)
                        (asanaTaskCache s) (synced s) (skipped s) (alreadySynced s)).

(** [syncState[key] = rec] *)
Definition syncState_set (key : Z) (rec : LedgerRecord) : M unit :=
  modify (fun s => mkSt (world s) (trace s) (<[key := rec]> (syncState s)) (togglTaskCache s)
                        (asanaTaskCache s) (synced s) (skipped s) (alreadySynced s)).

Definition togglTaskCache_set (key : jsval) (t : TogglTask) : M unit :=
  modify (fun s => mkSt (world s) (trace s) (syncState s) (<[key := t]> (togglTaskCache s))
                        (asanaTaskCache s) (synced s) (skipped s) (alreadySynced s)).

Definition asanaTaskCache_set (key : string) (l : list AsanaEntry) : M unit :=
  modify (fun s => mkSt (world s) (trace s) (syncState s) (togglTaskCache s)
                        (<[key := l]> (asanaTaskCache s)) (synced s) (skipped s) (alreadySynced s)).

Definition incr_synced : M unit :=
  modify (fun s => mkSt (world s) (trace s) (syncState s) (togglTaskCache s)
                        (asanaTaskCache s) (S (synced s)) (skipped s) (alreadySynced s)).

Definition incr_skipped : M unit :=
  modify (fun s => mkSt (world s) (trace s) (syncState s) (togglTaskCache s)
                        (asanaTaskCache s) (synced s) (S (skipped s)) (alreadySynced s)).

Definition incr_alreadySynced : M unit :=
  modify (fun s => mkSt (world s) (trace s) (syncState s) (togglTaskCache s)
                        (asanaTaskCache s) (synced s) (skipped s) (S (alreadySynced s))).

(** A synchronous call that returns or throws. *)
Definition of_result {A} (r : result A) : M A :=
  fun s =>
    match r with
    | Ok a => (Return a, s)
    | Failed e => (Throw e, s)
    end.

Definition throw {A} (e : string) : M A := fun s => (Throw e, s).

(** [for (const x of l) { body }]: in order, a throw leaves the loop. *)
Fixpoint for_of {A} (l : list A) (body : A -> M unit) : M unit :=
  match l with
  | [] => ret tt
  | x :: rest => bind (body x) (fun _ => for_of rest body)
  end.

End Run.

Arguments St World : clear implicits.
Arguments M World A : clear implicits.
Arguments ret {World A} a _.
Arguments bind {World A B} m f _.
Arguments try_catch {World A} body handler _.
Arguments gets {World A} f _.
Arguments modify {World} f _.
Arguments request {World A} op _.
Arguments emit {World} ev _.
Arguments for_of {World A} l body _.
Arguments of_result {World A} r _.
Arguments throw {World A} e _.
Arguments init {World} w.

Notation "'let!' x ':=' m 'in' k" := (bind m (fun x => k))
  (at level 10, x name, m at level 100, k at level 200, only parsing).
Notation "m '>>' k" := (bind m (fun _ => k))
  (at level 90, right associativity, only parsing).

(** ** The script *)

(** The grouping [Map]: keys in insertion order, each with its array. *)
Fixpoint taskMap_push (taskMap : list (jsval * list Entry)) (entry : Entry)
  : list (jsval * list Entry) :=
  match taskMap with
  | [] => [(task_id entry, [entry])]
  | (k, entries) :: rest =>
      if decide (k = task_id entry)
      then (k, entries ++ [entry]) :: rest
      else (k, entries) :: taskMap_push rest entry
  end.

(** [for (const entry of entriesWithTasks) { ... taskMap.get(entry.task_id).push(entry) }] *)
Definition groupByTask (entriesWithTasks : list Entry) : list (jsval * list Entry) :=
  fold_left taskMap_push entriesWithTasks [].

(** The flattening loop of [getWorkspaceTimeEntries]:
    [{...entry, task_id: group.task_id, ...}] for every leaf of every group
    that has [time_entries]. *)
Definition flattenGroup (group : Group) : list Entry :=
  match time_entries group with
  | None => []
  | Some leaves =>
      map (fun entry =>
             mkEntry (leaf_id entry) (leaf_seconds entry) (leaf_duration entry)
                     (leaf_start entry)
                     (g_task_id group) (g_project_id group) (g_user_id group)
                     (g_description group) (g_billable group))
          leaves
  end.

Definition flatten (data : list Group) : list Entry := concat (map flattenGroup data).

(** [entries.filter((entry) => !syncState[entry.id])] *)
Definition entriesToSync_of (syncState : Ledger) (entries : list Entry) : list Entry :=
  List.filter (fun entry => negb (bool_decide (is_Some (syncState !! id entry)))) entries.

Section Script.
Context {World : Type} (svc : Services World).

Local Abbreviation M := (M World).

(** [loadSyncState]: any failure of the read or of the parse gives [{}]. *)
Definition loadSyncState : M Ledger :=
  try_catch
    (emit ReadLedger >>
     let! data := request (readFile svc) in
     of_result (JSON_parse svc data))
    (fun _ => ret ∅).

(** [saveSyncState(state)] *)
Definition saveSyncState (state : Ledger) : M unit :=
  emit (WriteLedger state) >>
  request (writeFile svc state).

(** [getWorkspaceTimeEntries(startDate, endDate)] *)
Definition getWorkspaceTimeEntries (startDate endDate : string) : M (list Entry) :=
  emit (SearchEntries startDate endDate) >>
  let! data := request (searchTimeEntries svc startDate endDate) in
  ret (flatten data).

(** [getAsanaTimeEntries(taskGid, cache)], the cache being the run's
    [asanaTaskCache]. *)
Definition getAsanaTimeEntries (taskGid : string) : M (list AsanaEntry) :=
  let! cache := gets asanaTaskCache in
  match cache !! taskGid with
  | Some entries => ret entries
  | None =>
      try_catch
        (emit (GetTimeEntries taskGid) >>
         let! data := request (getTimeTrackingEntries svc taskGid) in
         let entries := default [] data in
         asanaTaskCache_set taskGid entries >>
         ret entries)
        (fun _ =>
           emit (WarnFetch taskGid) >>
           asanaTaskCache_set taskGid [] >>
           ret [])
  end.

(** The body of the send loop for one entry. *)
Definition sendEntry (asanaTaskGid : string) (existingEntries : list AsanaEntry)
           (entry : Entry) : M unit :=
  let durationMinutes := durationMinutes entry in
  let enteredOn := enteredOn entry in
  if alreadyExists existingEntries entry then
    let! now := gets (fun s => toISOString_now svc (world s)) in
    syncState_set (id entry)
      (mkLedgerRecord now asanaTaskGid durationMinutes enteredOn true None)
  else
    emit (PostTimeEntry asanaTaskGid durationMinutes enteredOn (id entry)) >>
    request (postTimeTrackingEntry svc asanaTaskGid durationMinutes enteredOn) >>
    let! now := gets (fun s => toISOString_now svc (world s)) in
    syncState_set (id entry)
      (mkLedgerRecord now asanaTaskGid durationMinutes enteredOn false
                      (Some (user_id entry))).

(** The first statement of the [try] block: the task detail, from the
    session cache or from Toggl.  [entries[0]] of an empty array is
    [undefined], whose [project_id] cannot be read. *)
Definition resolveTask (taskId : jsval) (entries : list Entry) : M TogglTask :=
  let! cache := gets togglTaskCache in
  match cache !! taskId with
  | Some t => ret t
  | None =>
      match entries with
      | [] => throw "TypeError: Cannot read properties of undefined"
      | first :: _ =>
          emit (GetTask (project_id first) taskId) >>
          let! t := request (getTask svc (project_id first) taskId) in
          togglTaskCache_set taskId t >>
          ret t
      end
  end.

(** The rest of the [try] block, once the task detail is known. *)
Definition syncTask (togglTask : TogglTask) (entries : list Entry) : M unit :=
  if String.eqb (integration_provider togglTask) "asana" then
    let asanaTaskGid := integration_ext_id togglTask in
    let! state := gets syncState in
    let entriesToSync := entriesToSync_of state entries in
    if (length entriesToSync =? 0)%nat then
      incr_alreadySynced
    else
      let! existingEntries := getAsanaTimeEntries asanaTaskGid in
      for_of entriesToSync (sendEntry asanaTaskGid existingEntries) >>
      incr_synced
  else
    incr_skipped.

(** The [try] block of the task loop. *)
Definition processTask (taskId : jsval) (entries : list Entry) : M unit :=
  let! togglTask := resolveTask taskId entries in
  syncTask togglTask entries.

(** One iteration of [for (const [taskId, entries] of taskMap)]. *)
Definition taskStep (group : jsval * list Entry) : M unit :=
  try_catch (processTask (fst group) (snd group))
            (fun _ => emit (TaskError (fst group))).

(** Everything after the entries were listed. *)
Definition processEntries (timeEntries : list Entry) : M unit :=
  let entriesWithTasks := List.filter (fun entry => truthy (task_id entry)) timeEntries in
  let taskMap := groupByTask entriesWithTasks in
  for_of taskMap taskStep >>
  let! state := gets syncState in
  saveSyncState state.

(** [syncTogglToAsana(startDate, endDate)] *)
Definition syncTogglToAsana (startDate endDate : string) : M unit :=
  let! loaded := loadSyncState in
  set_syncState loaded >>
  let! timeEntries := getWorkspaceTimeEntries startDate endDate in
  processEntries timeEntries.

End Script.

(** ** The older script, [sync.js]

    It lists the current user's entries, keeps no session cache, does not
    look at what Asana holds, and reads the duration from [duration]
    alone.  The ledger, the grouping and the shape of the task loop are
    those of the script above. *)

Module SyncJs.
Section Script.
Context {World : Type} (svc : Services World).

Local Abbreviation M := (M World).

(** [Math.round(entry.duration / 60)] *)
Definition durationMinutes (entry : Entry) : num :=
  Math_round (js_div (duration entry) 60).

(** The body of the send loop for one entry. *)
Definition sendEntry (asanaTaskGid : string) (entry : Entry) : M unit :=
  let durationMinutes := durationMinutes entry in
  let enteredOn := enteredOn entry in
  emit (PostTimeEntry asanaTaskGid durationMinutes enteredOn (id entry)) >>
  request (postTimeTrackingEntry svc asanaTaskGid durationMinutes enteredOn) >>
  let! now := gets (fun s => toISOString_now svc (world s)) in
  syncState_set (id entry)
    (mkLedgerRecord now asanaTaskGid durationMinutes enteredOn false None).

(** The [try] block of the task loop. *)
Definition processTask (taskId : jsval) (entries : list Entry) : M unit :=
  let! togglTask :=
    match entries with
    | [] => throw "TypeError: Cannot read properties of undefined"
    | first :: _ =>
        emit (GetTask (project_id first) taskId) >>
        request (getTask svc (project_id first) taskId)
    end in
  if String.eqb (integration_provider togglTask) "asana" then
    let asanaTaskGid := integration_ext_id togglTask in
    let! state := gets syncState in
    let entriesToSync := entriesToSync_of state entries in
    if (length entriesToSync =? 0)%nat then
      incr_alreadySynced
    else
      for_of entriesToSync (sendEntry asanaTaskGid) >>
      incr_synced
  else
    incr_skipped.

(** One iteration of [for (const [taskId, entries] of taskMap)]. *)
Definition taskStep (group : jsval * list Entry) : M unit :=
  try_catch (processTask (fst group) (snd group))
            (fun _ => emit (TaskError (fst group))).

(** [syncTogglToAsana(startDate, endDate)] *)
Definition syncTogglToAsana (startDate endDate : string) : M unit :=
  let! loaded := loadSyncState svc in
  set_syncState loaded >>
  emit (SearchEntries startDate endDate) >>
  let! timeEntries := request (getMyTimeEntries svc startDate endDate) in
  let entriesWithTasks := List.filter (fun entry => truthy (task_id entry)) timeEntries in
  let taskMap := groupByTask entriesWithTasks in
  for_of taskMap taskStep >>
  let! state := gets syncState in
  saveSyncState svc state.

End Script.
End SyncJs.

(** ** The script in between

    The second script of the same file stands between [sync.js] and the
    workspace-wide one: it lists the current user's entries and reads
    [duration] alone, like [sync.js], and it has the duplicate detector,
    but without a cache: Asana is asked at every call. *)

Module SyncMe.
Section Script.
Context {World : Type} (svc : Services World).

Local Abbreviation M := (M World).

(** [getAsanaTimeEntries(taskGid)] *)
Definition getAsanaTimeEntries (taskGid : string) : M (list AsanaEntry) :=
  try_catch
    (emit (GetTimeEntries taskGid) >>
     let! data := request (getTimeTrackingEntries svc taskGid) in
     ret (default [] data))
    (fun _ =>
       emit (WarnFetch taskGid) >>
       ret []).

(** [existingEntries.some((existing) => ...)], the minutes being those of
    [duration]. *)
Definition alreadyExists (existingEntries : list AsanaEntry) (entry : Entry) : bool :=
  existsb (fun existing =>
             String.eqb (entered_on existing) (enteredOn entry)
             && strict_eq (duration_minutes existing) (SyncJs.durationMinutes entry))
          existingEntries.

(** The body of the send loop for one entry. *)
Definition sendEntry (asanaTaskGid : string) (existingEntries : list AsanaEntry)
           (entry : Entry) : M unit :=
  let durationMinutes := SyncJs.durationMinutes entry in
  let enteredOn := enteredOn entry in
  if alreadyExists existingEntries entry then
    let! now := gets (fun s => toISOString_now svc (world s)) in
    syncState_set (id entry)
      (mkLedgerRecord now asanaTaskGid durationMinutes enteredOn true None)
  else
    emit (PostTimeEntry asanaTaskGid durationMinutes enteredOn (id entry)) >>
    request (postTimeTrackingEntry svc asanaTaskGid durationMinutes enteredOn) >>
    let! now := gets (fun s => toISOString_now svc (world s)) in
    syncState_set (id entry)
      (mkLedgerRecord now asanaTaskGid durationMinutes enteredOn false None).

(** The [try] block of the task loop. *)
Definition processTask (taskId : jsval) (entries : list Entry) : M unit :=
  let! togglTask :=
    match entries with
    | [] => throw "TypeError: Cannot read properties of undefined"
    | first :: _ =>
        emit (GetTask (project_id first) taskId) >>
        request (getTask svc (project_id first) taskId)
    end in
  if String.eqb (integration_provider togglTask) "asana" then
    let asanaTaskGid := integration_ext_id togglTask in
    let! state := gets syncState in
    let entriesToSync := entriesToSync_of state entries in
    if (length entriesToSync =? 0)%nat then
      incr_alreadySynced
    else
      let! existingEntries := getAsanaTimeEntries asanaTaskGid in
      for_of entriesToSync (sendEntry asanaTaskGid existingEntries) >>
      incr_synced
  else
    incr_skipped.

(** One iteration of [for (const [taskId, entries] of taskMap)]. *)
Definition taskStep (group : jsval * list Entry) : M unit :=
  try_catch (processTask (fst group) (snd group))
            (fun _ => emit (TaskError (fst group))).

(** [syncTogglToAsana(startDate, endDate)] *)
Definition syncTogglToAsana (startDate endDate : string) : M unit :=
  let! loaded := loadSyncState svc in
  set_syncState loaded >>
  emit (SearchEntries startDate endDate) >>
  let! timeEntries := request (getMyTimeEntries svc startDate endDate) in
  let entriesWithTasks := List.filter (fun entry => truthy (task_id entry)) timeEntries in
  let taskMap := groupByTask entriesWithTasks in
  for_of taskMap taskStep >>
  let! state := gets syncState in
  saveSyncState svc state.

End Script.
End SyncMe.

(** ** Vocabulary of the statements *)

(** The creation request the send loop makes for an entry. *)
Definition post_event (taskGid : string) (entry : Entry) : Event :=
  PostTimeEntry taskGid (durationMinutes entry) (enteredOn entry) (id entry).

Definition is_post (ev : Event) : bool :=
  match ev with PostTimeEntry _ _ _ _ => true | _ => false end.

Definition is_write (ev : Event) : bool :=
  match ev with WriteLedger _ => true | _ => false end.

Definition is_task_error (ev : Event) : bool :=
  match ev with TaskError _ => true | _ => false end.

(** The creation requests of a trace, and its ledger writes. *)
Definition creation_calls (t : list Event) : list Event := List.filter is_post t.
Definition persists (t : list Event) : list Event := List.filter is_write t.

(** The per-task errors a trace logs. *)
Definition errors (t : list Event) : list Event := List.filter is_task_error t.

(** The entries of a list that have no match among [existing]. *)
Definition unmatched (existing : list AsanaEntry) (l : list Entry) : list Entry :=
  List.filter (fun entry => negb (alreadyExists existing entry)) l.

(** The ledger record written for a suppressed entry and for a created one. *)
Definition dupRecord {World} (svc : Services World) (taskGid : string)
           (entry : Entry) (w : World) : LedgerRecord :=
  mkLedgerRecord (toISOString_now svc w) taskGid (durationMinutes entry)
                 (enteredOn entry) true None.

Definition newRecord {World} (svc : Services World) (taskGid : string)
           (entry : Entry) (w : World) : LedgerRecord :=
  mkLedgerRecord (toISOString_now svc w) taskGid (durationMinutes entry)
                 (enteredOn entry) false (Some (user_id entry)).

(** What is left untouched by the send loop and by the duplicate detector. *)
Definition same_counters {World} (s s' : St World) : Prop :=
  synced s' = synced s /\ skipped s' = skipped s /\ alreadySynced s' = alreadySynced s.

(** The entries [done] went through the send loop between [s] and [s']:
    their creation requests are in the trace, followed by [extra], and only
    their keys changed in the ledger. *)
Definition sent {World} (taskGid : string) (existing : list AsanaEntry)
           (done : list Entry) (extra : list Event) (s s' : St World) : Prop :=
  trace s' = trace s ++ map (post_event taskGid) (unmatched existing done) ++ extra
  /\ (forall k, k ∉ map id done -> syncState s' !! k = syncState s !! k)
  /\ (forall entry, entry ∈ done -> is_Some (syncState s' !! id entry))
  /\ togglTaskCache s' = togglTaskCache s
  /\ asanaTaskCache s' = asanaTaskCache s
  /\ same_counters s s'.

(** The events an iteration of the task loop may add when it starts with
    ledger [L]: requests to the two services, the two log lines, and
    creation requests for entries that [L] does not key. *)
Definition task_event (L : Ledger) (ev : Event) : Prop :=
  match ev with
  | PostTimeEntry _ _ _ k => L !! k = None
  | GetTask _ _ | GetTimeEntries _ | WarnFetch _ | TaskError _ => True
  | ReadLedger | SearchEntries _ _ | WriteLedger _ => False
  end.

(** No key leaves the ledger. *)
Definition ledger_grows {World} (s s' : St World) : Prop :=
  forall k, is_Some (syncState s !! k) -> is_Some (syncState s' !! k).

(** ** The ways one iteration of the task loop can go *)

Section Outcomes.
Context {World : Type} (svc : Services World).

(** The state after [console.error] of the [catch] block. *)
Definition logged_error (taskId : jsval) (s : St World) : St World :=
  snd (emit (TaskError taskId) s).

(** [task_outcome group s s']: the iteration for [group] started in [s]
    ends in [s'], and this is how it went. *)
Inductive task_outcome (group : jsval * list Entry) (s s' : St World) : Prop :=
  | ResolutionFailed e s1 :
      resolveTask svc (fst group) (snd group) s = (Throw e, s1) ->
      s' = logged_error (fst group) s1 ->
      processTask svc (fst group) (snd group) s = (Throw e, s1) ->
      task_outcome group s s'
  | TaskSkipped t s1 :
      resolveTask svc (fst group) (snd group) s = (Return t, s1) ->
      integration_provider t <> "asana"%string ->
      s' = snd (incr_skipped s1) ->
      processTask svc (fst group) (snd group) s = (Return tt, s') ->
      task_outcome group s s'
  | TaskAlreadySynced t s1 :
      resolveTask svc (fst group) (snd group) s = (Return t, s1) ->
      integration_provider t = "asana"%string ->
      entriesToSync_of (syncState s1) (snd group) = [] ->
      s' = snd (incr_alreadySynced s1) ->
      processTask svc (fst group) (snd group) s = (Return tt, s') ->
      task_outcome group s s'
  | TaskSynced t s1 existing s2 s3 :
      resolveTask svc (fst group) (snd group) s = (Return t, s1) ->
      integration_provider t = "asana"%string ->
      entriesToSync_of (syncState s1) (snd group) <> [] ->
      getAsanaTimeEntries svc (integration_ext_id t) s1 = (Return existing, s2) ->
      for_of (entriesToSync_of (syncState s1) (snd group))
             (sendEntry svc (integration_ext_id t) existing) s2 = (Return tt, s3) ->
      s' = snd (incr_synced s3) ->
      processTask svc (fst group) (snd group) s = (Return tt, s') ->
      task_outcome group s s'
  | CreationFailed t s1 existing s2 e s3 :
      resolveTask svc (fst group) (snd group) s = (Return t, s1) ->
      integration_provider t = "asana"%string ->
      entriesToSync_of (syncState s1) (snd group) <> [] ->
      getAsanaTimeEntries svc (integration_ext_id t) s1 = (Return existing, s2) ->
      for_of (entriesToSync_of (syncState s1) (snd group))
             (sendEntry svc (integration_ext_id t) existing) s2 = (Throw e, s3) ->
      s' = logged_error (fst group) s3 ->
      processTask svc (fst group) (snd group) s = (Throw e, s3) ->
      task_outcome group s s'.

End Outcomes.

(** ** The two halves of a run *)

(** The statements of [syncTogglToAsana] up to and including the listing:
    the ledger is loaded and the entries are fetched.  A throw here is
    fatal to the run. *)
Definition startRun {World} (svc : Services World) (startDate endDate : string)
  : M World (list Entry) :=
  let! loaded := loadSyncState svc in
  set_syncState loaded >>
  getWorkspaceTimeEntries svc startDate endDate.

(** The task map the run iterates over. *)
Definition taskMap_of (timeEntries : list Entry) : list (jsval * list Entry) :=
  groupByTask (List.filter (fun entry => truthy (task_id entry)) timeEntries).

(** ** Task links *)

(** [entries[0].project_id], the project the task is looked up under. *)
Definition first_project (entries : list Entry) : jsval :=
  match entries with
  | first :: _ => project_id first
  | [] => undefined
  end.

(** Toggl answers the lookup of the group's task with [t]. *)
Definition linked {World} (svc : Services World) (group : jsval * list Entry)
           (t : TogglTask) : Prop :=
  exists w, fst (getTask svc (first_project (snd group)) (fst group) w) = Ok t.


(** ** A small world to run the script in *)

(** [JSON.stringify] of a posted duration: NaN is written as [null]. *)
Definition json_of_num (x : num) : jsval :=
  match x with
  | NaN => null
  | Fin q => number (Qfloor q)
  end.

(** The world of the test double: what reading the ledger file gives, and
    the time-tracking entries posted so far, which Asana adds to what it
    held before the run. *)
Record MockWorld : Type := mkWorld {
  disk : result string;
  posted : list (string * AsanaEntry)
}.

(** A test double of the two services and of the ledger file. *)
Record Mock : Type := mkMock {
  m_parse : string -> result Ledger;
  m_stringify : Ledger -> string;
  m_groups : result (list Group);
  m_task : jsval -> result TogglTask;
  m_existing : string -> result (option (list AsanaEntry));
  m_post_ok : string -> bool
}.

Definition posted_on (taskGid : string) (w : MockWorld) : list AsanaEntry :=
  map snd (List.filter (fun p => String.eqb (fst p) taskGid) (posted w)).

Definition mockServices (m : Mock) : Services MockWorld :=
  {| readFile := fun w => (disk w, w);
     JSON_parse := m_parse m;
     writeFile := fun state w => (Ok tt, mkWorld (Ok (m_stringify m state)) (posted w));
     searchTimeEntries := fun _ _ w => (m_groups m, w);
     getMyTimeEntries := fun _ _ w =>
       (match m_groups m with
        | Ok groups => Ok (flatten groups)
        | Failed e => Failed e
        end, w);
     getTask := fun _ taskId w => (m_task m taskId, w);
     getTimeTrackingEntries := fun taskGid w =>
       (match m_existing m taskGid with
        | Ok data => Ok (Some (default [] data ++ posted_on taskGid w))
        | Failed e => Failed e
        end, w);
     postTimeTrackingEntry := fun taskGid minutes date w =>
       if m_post_ok m taskGid
       then (Ok tt, mkWorld (disk w)
                            (posted w ++ [(taskGid, mkAsanaEntry date (json_of_num minutes))]))
       else (Failed "Asana API error: 500", w);
     toISOString_now := fun _ => "2026-02-02T09:00:00.000Z"%string |}.

(** No ledger file yet, nothing posted. *)
Definition firstWorld : MockWorld := mkWorld (Failed "ENOENT") [].

(** The state a first run starts in. *)
Definition mockInit : St MockWorld := init firstWorld.

(** Sample data: one Asana-linked task, one task linked elsewhere. *)
Definition asanaTask : TogglTask := mkTogglTask "asana" "1200" "Write report".
Definition githubTask : TogglTask := mkTogglTask "github" "77" "Fix build".

Definition sampleTasks (taskId : jsval) : result TogglTask :=
  if decide (taskId = number 501) then Ok asanaTask
  else if decide (taskId = number 502) then Ok githubTask
  else Failed "Toggl API error: 404".

Definition sampleEntry (i : Z) (secs dur : jsval) (startTime : string) (task : Z) : Entry :=
  mkEntry i secs dur startTime (number task) (number 9) (number 3) EmptyString false.

Definition sampleLeaf (i : Z) (secs : jsval) (startTime : string) : Leaf :=
  mkLeaf i secs undefined startTime.

Definition sampleGroup (task : Z) (leaves : list Leaf) : Group :=
  mkGroup (number task) (number 9) (number 3) EmptyString false (Some leaves).

(** A parser that knows no file content, nothing on Asana before the
    run, every request answered. *)
Definition freshMock (groups : list Group) : Mock :=
  mkMock (fun _ => Failed "SyntaxError") (fun _ => "{}"%string) (Ok groups) sampleTasks
         (fun _ => Ok (Some [])) (fun _ => true).

(** The same, with Asana refusing to list the entries of a task. *)
Definition blindMock (groups : list Group) : Mock :=
  mkMock (fun _ => Failed "SyntaxError") (fun _ => "{}"%string) (Ok groups) sampleTasks
         (fun _ => Failed "Asana API error: 403") (fun _ => true).

(** *** Two runs over the same week *)

(** Two entries on the Asana-linked task, one on the other task. *)
Definition weekGroups : list Group :=
  [sampleGroup 501 [sampleLeaf 1 (number 1800) "2026-02-01T10:00:00Z";
                    sampleLeaf 2 (number 3600) "2026-02-01T14:00:00Z"];
   sampleGroup 502 [sampleLeaf 3 (number 600) "2026-02-01T16:00:00Z"]].

(** The ledger a first run over [weekGroups] leaves. *)
Definition weekLedger : Ledger :=
  <[1 := mkLedgerRecord "2026-02-02T09:00:00.000Z" "1200" (Fin (inject_Z 30))
                        "2026-02-01" false (Some (number 3))]>
  (<[2 := mkLedgerRecord "2026-02-02T09:00:00.000Z" "1200" (Fin (inject_Z 60))
                         "2026-02-01" false (Some (number 3))]> ∅).

(** The file written by the first run parses back to that ledger; any
    other content does not parse. *)
Definition weekMock : Mock :=
  mkMock (fun data => if String.eqb data "week.json" then Ok weekLedger
                      else Failed "SyntaxError")
         (fun _ => "week.json"%string) (Ok weekGroups) sampleTasks
         (fun _ => Ok (Some [])) (fun _ => true).

Definition weekRun (w : MockWorld) : outcome unit * St MockWorld :=
  syncTogglToAsana (mockServices weekMock) "2026-02-01" "2026-02-07" (init w).

(** The world the first run leaves, and the same world after the ledger
    file was truncated. *)
Definition secondWorld : MockWorld := world (snd (weekRun firstWorld)).

Definition corruptedWorld : MockWorld := mkWorld (Ok "{ 1: {") (posted secondWorld).

(** The same week with Asana refusing to list a task's entries, so that
    the duplicate detector has nothing to compare against. *)
Definition blindWeekMock : Mock :=
  mkMock (m_parse weekMock) (m_stringify weekMock) (Ok weekGroups) sampleTasks
         (fun _ => Failed "Asana API error: 403") (fun _ => true).

Definition blindWeekRun (w : MockWorld) : outcome unit * St MockWorld :=
  syncTogglToAsana (mockServices blindWeekMock) "2026-02-01" "2026-02-07" (init w).

(** *** A task that cannot be resolved, followed by one that can *)



(** *** Two entries of one task with the same date and duration *)

Definition twinGroups : list Group :=
  [sampleGroup 501 [sampleLeaf 11 (number 1800) "2026-02-03T09:00:00Z";
                    sampleLeaf 12 (number 1800) "2026-02-03T15:00:00Z"]].

(** ** Vocabulary of the further properties *)

Definition is_get_task (ev : Event) : bool :=
  match ev with GetTask _ _ => true | _ => false end.

(** The task lookups of a trace. *)
Definition resolutions (t : list Event) : list Event := List.filter is_get_task t.

(** The lookup the task loop makes for a group. *)
Definition resolution_of (group : jsval * list Entry) : Event :=
  GetTask (first_project (snd group)) (fst group).

(** The Asana tasks whose entries a trace asks for, in order. *)
Definition fetches (t : list Event) : list string :=
  omap (fun ev => match ev with GetTimeEntries taskGid => Some taskGid | _ => None end) t.

(** The entries of a list that belong to task [k], in order. *)
Definition entries_of_task (k : jsval) (l : list Entry) : list Entry :=
  List.filter (fun entry => bool_decide (task_id entry = k)) l.

(** What the three counters and the error log account for together. *)
Definition tasks_accounted {World} (s : St World) : nat :=
  (synced s + skipped s + alreadySynced s + length (errors (trace s)))%nat.


(** Every Asana task asked about is asked about once and is in the cache. *)
Definition fetched_once {World} (s : St World) : Prop :=
  NoDup (fetches (trace s))
  /\ forall taskGid, taskGid ∈ fetches (trace s) -> is_Some (asanaTaskCache s !! taskGid).

(** *** Further sample worlds *)

(** Toggl's report endpoint is down. *)
Definition downMock : Mock :=
  mkMock (fun _ => Failed "SyntaxError") (fun _ => "{}"%string)
         (Failed "Toggl Reports API error: 503") sampleTasks
         (fun _ => Ok (Some [])) (fun _ => true).

(** The services of the week, and the state the week's first run is in
    once its entries are listed. *)
Definition weekServices : Services MockWorld := mockServices weekMock.

Definition weekListed : St MockWorld :=
  snd (startRun weekServices "2026-02-01" "2026-02-07" (init firstWorld)).

(** ** The ledger file, as the world sees it *)

(** [writes w] lists the ledgers handed to [fs.writeFile] so far, oldest
    first.  A world keeps such a journal when every call of [writeFile]
    adds the ledger it was handed, whether the write then succeeds or
    fails, and no other request of the scripts changes it. *)
Definition keeps_journal {World} (svc : Services World)
           (writes : World -> list Ledger) : Prop :=
  (forall state w, writes (snd (writeFile svc state w)) = writes w ++ [state])
  /\ (forall w, writes (snd (readFile svc w)) = writes w)
  /\ (forall startDate endDate w,
        writes (snd (searchTimeEntries svc startDate endDate w)) = writes w)
  /\ (forall startDate endDate w,
        writes (snd (getMyTimeEntries svc startDate endDate w)) = writes w)
  /\ (forall projectId taskId w, writes (snd (getTask svc projectId taskId w)) = writes w)
  /\ (forall taskGid w, writes (snd (getTimeTrackingEntries svc taskGid w)) = writes w)
  /\ (forall taskGid minutes date w,
        writes (snd (postTimeTrackingEntry svc taskGid minutes date w)) = writes w).

(** A statement that, run in a world with a journal, leaves the journal as
    it found it. *)
Definition writes_nothing {World A} (writes : World -> list Ledger) (m : M World A) : Prop :=
  forall s, writes (world (snd (m s))) = writes (world s).

(** Any world can be given a journal: the services act on the first
    component as before, and [writeFile] itself appends to the second. *)
Definition journaled {World} (svc : Services World) : Services (World * list Ledger) :=
  {| readFile := fun wj =>
       let '(r, w) := readFile svc (fst wj) in (r, (w, snd wj));
     JSON_parse := JSON_parse svc;
     writeFile := fun state wj =>
       let '(r, w) := writeFile svc state (fst wj) in (r, (w, snd wj ++ [state]));
     searchTimeEntries := fun startDate endDate wj =>
       let '(r, w) := searchTimeEntries svc startDate endDate (fst wj) in (r, (w, snd wj));
     getMyTimeEntries := fun startDate endDate wj =>
       let '(r, w) := getMyTimeEntries svc startDate endDate (fst wj) in (r, (w, snd wj));
     getTask := fun projectId taskId wj =>
       let '(r, w) := getTask svc projectId taskId (fst wj) in (r, (w, snd wj));
     getTimeTrackingEntries := fun taskGid wj =>
       let '(r, w) := getTimeTrackingEntries svc taskGid (fst wj) in (r, (w, snd wj));
     postTimeTrackingEntry := fun taskGid minutes date wj =>
       let '(r, w) := postTimeTrackingEntry svc taskGid minutes date (fst wj) in
       (r, (w, snd wj));
     toISOString_now := fun wj => toISOString_now svc (fst wj) |}.

(** The opening statements of the two scripts that list the current
    user's entries, up to and including the listing. *)
Definition startMyRun {World} (svc : Services World) (startDate endDate : string)
  : M World (list Entry) :=
  let! loaded := loadSyncState svc in
  set_syncState loaded >>
  emit (SearchEntries startDate endDate) >>
  request (getMyTimeEntries svc startDate endDate).

(** The sample services with a journal, a disk on which [fs.writeFile]
    fails, and the world of a first run. *)
Definition weekJournal : Services (MockWorld * list Ledger) := journaled weekServices.

Definition fullDisk : Services (MockWorld * list Ledger) :=
  journaled
    {| readFile := readFile weekServices;
       JSON_parse := JSON_parse weekServices;
       writeFile := fun _ w => (Failed "ENOSPC", w);
       searchTimeEntries := searchTimeEntries weekServices;
       getMyTimeEntries := getMyTimeEntries weekServices;
       getTask := getTask weekServices;
       getTimeTrackingEntries := getTimeTrackingEntries weekServices;
       postTimeTrackingEntry := postTimeTrackingEntry weekServices;
       toISOString_now := toISOString_now weekServices |}.

Definition firstJournal : MockWorld * list Ledger := (firstWorld, []).

(** *** An Asana that refuses every creation request *)



(** ** The quotient as JavaScript computes it

    [n / d] on two integers that are doubles is the double nearest to the
    exact quotient, a tie going to the even significand (IEEE 754
    round-to-nearest-even).  The definitions below compute that double for
    [d > 0] in the normal range, which the quotients of the scripts do not
    leave; they serve to delimit where the exact quotient of [js_div] and
    the double give the same minutes. *)

(** The integer nearest to [a / b], a tie going to the even one. *)
Definition nearest_even (a b : Z) : Z :=
  let f := a / b in
  match 2 * (a mod b) ?= b with
  | Lt => f
  | Gt => f + 1
  | Eq => if Z.even f then f else f + 1
  end.

(** The exponent [e] with [2^e <= |n| / d < 2^(e+1)], for [n <> 0]: the
    quotient is scaled by [2^s > d] so that its integer part is 1 at
    least and has the same binary logarithm. *)
Definition binade (n d : Z) : Z :=
  let s := Z.log2 d + 1 in
  Z.log2 (Z.abs n * 2 ^ s / d) - s.

(** The double [n / d]: the doubles of the binade [e] are the multiples of
    [2^(e-52)]. *)
Definition double_div (n d : Z) : Q :=
  if n =? 0 then inject_Z 0
  else
    let k := 52 - binade n d in
    if 0 <=? k
    then (inject_Z (nearest_even (n * 2 ^ k) d) / inject_Z (2 ^ k))%Q
    else inject_Z (nearest_even n (d * 2 ^ (- k)) * 2 ^ (- k)).

(** * Properties *)

(** ** Rounding and the duration fields *)

Lemma Math_round_div_60 (n : Z) :
  Math_round (js_div (number n) 60) = Fin (inject_Z ((n + 30) / 60)).
Proof.
  unfold Math_round, js_div, ToNumber. do 2 f_equal.
  assert (E : (inject_Z n / inject_Z 60 + (1 # 2) == (n + 30) # 60)%Q).
  { unfold Qeq, Qdiv, Qmult, Qplus, Qinv, inject_Z. simpl. lia. }
  rewrite (Qfloor_comp _ _ E). reflexivity.
Qed.

Lemma durationMinutes_number (entry : Entry) (n : Z) :
  js_or (seconds entry) (duration entry) = number n ->
  durationMinutes entry = Fin (inject_Z ((n + 30) / 60)).
Proof. intros H. unfold durationMinutes. rewrite H. apply Math_round_div_60. Qed.

Lemma durationMinutes_undefined (entry : Entry) :
  js_or (seconds entry) (duration entry) = undefined ->
  durationMinutes entry = NaN.
Proof. intros H. unfold durationMinutes. rewrite H. reflexivity. Qed.

Lemma nearest_minute (n m : Z) :
  (n + 30) / 60 = m <-> 60 * m - 30 <= n < 60 * m + 30.
Proof.
  split.
  - intros <-. pose proof (Z.mul_div_le (n + 30) 60 ltac:(lia)).
    pose proof (Z.mul_succ_div_gt (n + 30) 60 ltac:(lia)). lia.
  - intros H. symmetry. apply (Z.div_unique (n + 30) 60 m (n + 30 - 60 * m)); lia.
Qed.

(** ** The primitive statements *)

Ltac unfold_monad :=
  unfold bind, ret, gets, modify, emit, request, try_catch, of_result, throw,
    set_syncState, syncState_set, togglTaskCache_set, asanaTaskCache_set,
    incr_synced, incr_skipped, incr_alreadySynced in *.

Section Statements.
Context {World : Type} (svc : Services World).

Implicit Types (s : St World) (entry : Entry) (ev : Event).

Lemma for_of_cons {A} (x : A) (l : list A) (body : A -> M World unit) s :
  for_of (x :: l) body s =
    match body x s with
    | (Return _, s') => for_of l body s'
    | (Throw e, s') => (Throw e, s')
    end.
Proof. reflexivity. Qed.

Lemma for_of_app {A} (l1 l2 : list A) (body : A -> M World unit) s :
  for_of (l1 ++ l2) body s =
    match for_of l1 body s with
    | (Return _, s') => for_of l2 body s'
    | (Throw e, s') => (Throw e, s')
    end.
Proof.
  revert s. induction l1 as [|x l1 IH]; intros s; [reflexivity|].
  rewrite <- app_comm_cons, !for_of_cons.
  destruct (body x s) as [[[]|e] s1]; [apply IH | reflexivity].
Qed.

(** A loop whose body never throws runs to its end. *)
Lemma for_of_total {A} (l : list A) (body : A -> M World unit) :
  (forall x s, fst (body x s) = Return tt) ->
  forall s, fst (for_of l body s) = Return tt.
Proof.
  intros Hbody. induction l as [|x l IH]; intros s; [reflexivity|].
  rewrite for_of_cons. specialize (Hbody x s).
  destruct (body x s) as [[[]|e] s1]; simpl in Hbody; [apply IH | discriminate].
Qed.

(** *** The send loop body *)

Lemma sendEntry_duplicate taskGid existing entry s :
  alreadyExists existing entry = true ->
  sendEntry svc taskGid existing entry s =
    (Return tt,
     mkSt (world s) (trace s) (<[id entry := dupRecord svc taskGid entry (world s)]> (syncState s))
          (togglTaskCache s) (asanaTaskCache s) (synced s) (skipped s) (alreadySynced s)).
Proof. intros H. unfold sendEntry. rewrite H. reflexivity. Qed.

Lemma sendEntry_new taskGid existing entry s :
  alreadyExists existing entry = false ->
  sendEntry svc taskGid existing entry s =
    let post := PostTimeEntry taskGid (durationMinutes entry) (enteredOn entry) (id entry) in
    match postTimeTrackingEntry svc taskGid (durationMinutes entry) (enteredOn entry) (world s) with
    | (Ok _, w) =>
        (Return tt,
         mkSt w (trace s ++ [post]) (<[id entry := newRecord svc taskGid entry w]> (syncState s))
              (togglTaskCache s) (asanaTaskCache s) (synced s) (skipped s) (alreadySynced s))
    | (Failed e, w) =>
        (Throw e,
         mkSt w (trace s ++ [post]) (syncState s)
              (togglTaskCache s) (asanaTaskCache s) (synced s) (skipped s) (alreadySynced s))
    end.
Proof.
  intros H. unfold sendEntry. rewrite H. unfold_monad. simpl.
  destruct (postTimeTrackingEntry svc _ _ _ (world s)) as [[[]|e] w]; reflexivity.
Qed.

End Statements.

Section SendLoop.
Context {World : Type} (svc : Services World).

Implicit Types (s : St World) (entry : Entry) (ev : Event).

Lemma sent_nil taskGid existing s : sent taskGid existing [] [] s s.
Proof.
  unfold sent, same_counters. simpl. rewrite app_nil_r. repeat split; try done.
  intros entry H. by apply elem_of_nil in H.
Qed.

(** One more entry in front of a stretch already accounted for. *)
Lemma sent_cons taskGid existing entry done extra s s1 s' r :
  trace s1 = trace s ++ map (post_event taskGid) (unmatched existing [entry]) ->
  syncState s1 = <[id entry := r]> (syncState s) ->
  togglTaskCache s1 = togglTaskCache s ->
  asanaTaskCache s1 = asanaTaskCache s ->
  same_counters s s1 ->
  sent taskGid existing done extra s1 s' ->
  sent taskGid existing (entry :: done) extra s s'.
Proof.
  intros Ht1 Hl1 Hc1 Hc2 (Hn1 & Hn2 & Hn3) (Ht & Hk & Hd & Hc1' & Hc2' & Hn1' & Hn2' & Hn3').
  unfold sent, same_counters. repeat split; try congruence.
  - rewrite Ht, Ht1. unfold unmatched. simpl.
    destruct (alreadyExists existing entry); simpl; by rewrite <- ?app_assoc.
  - intros k Hk'. simpl in Hk'. apply not_elem_of_cons in Hk' as [Hne Hk'].
    rewrite Hk by done. rewrite Hl1. by rewrite lookup_insert_ne.
  - intros e' He'. apply elem_of_cons in He' as [-> | He']; [|by apply Hd].
    destruct (decide (id entry ∈ map id done)) as [Hin | Hnin].
    + apply list_elem_of_fmap in Hin as (e2 & He2 & Hin). rewrite He2. by apply Hd.
    + rewrite Hk by done. rewrite Hl1, lookup_insert_eq. by eexists.
Qed.

(** The loop either finishes, having sent everything, or stops at the
    first creation request that fails, whose entry gets no record. *)
Lemma send_loop taskGid existing (l : list Entry) s :
  match for_of l (sendEntry svc taskGid existing) s with
  | (Return _, s') => sent taskGid existing l [] s s'
  | (Throw _, s') =>
      exists done failed rest,
        l = done ++ failed :: rest
        /\ alreadyExists existing failed = false
        /\ sent taskGid existing done [post_event taskGid failed] s s'
  end.
Proof.
  revert s. induction l as [|entry l IH]; intros s.
  - simpl. apply sent_nil.
  - rewrite for_of_cons.
    destruct (alreadyExists existing entry) eqn:Hdup.
    + rewrite (sendEntry_duplicate svc _ _ _ _ Hdup).
      match goal with |- context [for_of l _ ?s1] => specialize (IH s1); set (s1' := s1) in * end.
      destruct (for_of l _ s1') as [[[]|e] s'].
      * eapply (sent_cons _ _ _ _ _ s s1'); eauto; unfold unmatched, same_counters; simpl;
          rewrite ?Hdup, ?app_nil_r; done.
      * destruct IH as (done & failed & rest & -> & Hf & Hs).
        exists (entry :: done), failed, rest. split; [done|]. split; [done|].
        eapply (sent_cons _ _ _ _ _ s s1'); eauto; unfold unmatched, same_counters; simpl;
          rewrite ?Hdup, ?app_nil_r; done.
    + rewrite (sendEntry_new svc _ _ _ _ Hdup). cbv zeta.
      destruct (postTimeTrackingEntry svc _ _ _ (world s)) as [[[]|e] w].
      * match goal with |- context [for_of l _ ?s1] => specialize (IH s1); set (s1' := s1) in * end.
        destruct (for_of l _ s1') as [[[]|e] s'].
        -- eapply (sent_cons _ _ _ _ _ s s1'); eauto; unfold unmatched, same_counters; simpl;
             rewrite ?Hdup; done.
        -- destruct IH as (done & failed & rest & -> & Hf & Hs).
           exists (entry :: done), failed, rest. split; [done|]. split; [done|].
           eapply (sent_cons _ _ _ _ _ s s1'); eauto; unfold unmatched, same_counters; simpl;
             rewrite ?Hdup; done.
      * exists [], entry, l. split; [done|]. split; [done|].
        unfold sent, same_counters. simpl. repeat split; try done.
        intros e' He'. by apply elem_of_nil in He'.
Qed.

End SendLoop.

Section TaskLoop.
Context {World : Type} (svc : Services World).

Implicit Types (s : St World) (entry : Entry) (ev : Event) (group : jsval * list Entry).

(** *** The duplicate detector *)

Lemma getAsanaTimeEntries_hit taskGid s cached :
  asanaTaskCache s !! taskGid = Some cached ->
  getAsanaTimeEntries svc taskGid s = (Return cached, s).
Proof. intros H. unfold getAsanaTimeEntries. unfold_monad. by rewrite H. Qed.

Lemma getAsanaTimeEntries_miss taskGid s :
  asanaTaskCache s !! taskGid = None ->
  getAsanaTimeEntries svc taskGid s =
    match getTimeTrackingEntries svc taskGid (world s) with
    | (Ok data, w) =>
        (Return (default [] data),
         mkSt w (trace s ++ [GetTimeEntries taskGid]) (syncState s) (togglTaskCache s)
              (<[taskGid := default [] data]> (asanaTaskCache s))
              (synced s) (skipped s) (alreadySynced s))
    | (Failed _, w) =>
        (Return [],
         mkSt w ((trace s ++ [GetTimeEntries taskGid]) ++ [WarnFetch taskGid])
              (syncState s) (togglTaskCache s)
              (<[taskGid := []]> (asanaTaskCache s))
              (synced s) (skipped s) (alreadySynced s))
    end.
Proof.
  intros H. unfold getAsanaTimeEntries. unfold_monad. rewrite H. simpl.
  destruct (getTimeTrackingEntries svc taskGid (world s)) as [[data|e] w]; reflexivity.
Qed.

(** What the detector leaves alone, and the events it can add. *)
Lemma getAsanaTimeEntries_frame taskGid s :
  exists existing s' evs,
    getAsanaTimeEntries svc taskGid s = (Return existing, s')
    /\ trace s' = trace s ++ evs
    /\ (evs = [] \/ evs = [GetTimeEntries taskGid]
        \/ evs = [GetTimeEntries taskGid; WarnFetch taskGid])
    /\ syncState s' = syncState s
    /\ togglTaskCache s' = togglTaskCache s
    /\ asanaTaskCache s' !! taskGid = Some existing
    /\ same_counters s s'.
Proof.
  destruct (asanaTaskCache s !! taskGid) as [cached|] eqn:Hc.
  - exists cached, s, []. rewrite (getAsanaTimeEntries_hit _ _ _ Hc), app_nil_r.
    unfold same_counters. auto 10.
  - rewrite (getAsanaTimeEntries_miss _ _ Hc).
    destruct (getTimeTrackingEntries svc taskGid (world s)) as [[data|e] w].
    + eexists _, _, [GetTimeEntries taskGid]. split; [reflexivity|]. simpl.
      rewrite lookup_insert_eq. unfold same_counters. simpl. auto 10.
    + eexists _, _, [GetTimeEntries taskGid; WarnFetch taskGid]. split; [reflexivity|]. simpl.
      rewrite lookup_insert_eq, <- app_assoc. unfold same_counters. simpl. auto 10.
Qed.

(** *** Task resolution *)

Lemma resolveTask_hit taskId entries s t :
  togglTaskCache s !! taskId = Some t ->
  resolveTask svc taskId entries s = (Return t, s).
Proof. intros H. unfold resolveTask. unfold_monad. by rewrite H. Qed.

Lemma resolveTask_miss taskId first rest s :
  togglTaskCache s !! taskId = None ->
  resolveTask svc taskId (first :: rest) s =
    match getTask svc (project_id first) taskId (world s) with
    | (Ok t, w) =>
        (Return t,
         mkSt w (trace s ++ [GetTask (project_id first) taskId]) (syncState s)
              (<[taskId := t]> (togglTaskCache s)) (asanaTaskCache s)
              (synced s) (skipped s) (alreadySynced s))
    | (Failed e, w) =>
        (Throw e,
         mkSt w (trace s ++ [GetTask (project_id first) taskId]) (syncState s)
              (togglTaskCache s) (asanaTaskCache s)
              (synced s) (skipped s) (alreadySynced s))
    end.
Proof.
  intros H. unfold resolveTask. unfold_monad. rewrite H. simpl.
  destruct (getTask svc (project_id first) taskId (world s)) as [[t|e] w]; reflexivity.
Qed.

Lemma resolveTask_frame taskId entries s :
  let s' := snd (resolveTask svc taskId entries s) in
  (exists evs, trace s' = trace s ++ evs
               /\ (evs = [] \/ exists p, evs = [GetTask p taskId]))
  /\ syncState s' = syncState s
  /\ asanaTaskCache s' = asanaTaskCache s
  /\ same_counters s s'.
Proof.
  unfold same_counters.
  destruct (togglTaskCache s !! taskId) as [t|] eqn:Hc.
  - rewrite (resolveTask_hit _ _ _ _ Hc). simpl. split; [|done].
    exists []. rewrite app_nil_r. auto.
  - destruct entries as [|first rest].
    + unfold resolveTask. unfold_monad. rewrite Hc. simpl. split; [|done].
      exists []. rewrite app_nil_r. auto.
    + rewrite (resolveTask_miss _ _ _ _ Hc).
      destruct (getTask svc (project_id first) taskId (world s)) as [[t|e] w]; simpl;
        (split; [|done]); eexists; split; eauto.
Qed.

(** *** One iteration *)

(** The [catch] of the task loop swallows every throw, and the iteration
    went one of the five ways. *)
Lemma taskStep_outcome group s :
  exists s', taskStep svc group s = (Return tt, s') /\ task_outcome svc group s s'.
Proof.
  unfold taskStep, try_catch.
  destruct (processTask svc (fst group) (snd group) s) as [o sf] eqn:Hproc.
  pose proof Hproc as Hproc'. unfold processTask, bind in Hproc'.
  destruct (resolveTask svc (fst group) (snd group) s) as [[t|e] s1] eqn:Hres.
  2:{ injection Hproc' as <- <-. eexists. split; [reflexivity|].
      by eapply ResolutionFailed. }
  unfold syncTask in Hproc'.
  destruct (String.eqb (integration_provider t) "asana") eqn:Hprov.
  2:{ injection Hproc' as <- <-. eexists. split; [reflexivity|].
      eapply TaskSkipped; eauto. by apply String.eqb_neq. }
  apply String.eqb_eq in Hprov.
  unfold bind, gets in Hproc'.
  destruct (entriesToSync_of (syncState s1) (snd group)) as [|e0 l0] eqn:Hfilter.
  { injection Hproc' as <- <-. eexists. split; [reflexivity|].
    eapply TaskAlreadySynced; eauto. }
  cbn [length Nat.eqb] in Hproc'.
  destruct (getAsanaTimeEntries_frame (integration_ext_id t) s1)
    as (existing & s2 & evs & Hdet & _).
  rewrite Hdet in Hproc'.
  destruct (for_of (e0 :: l0) (sendEntry svc (integration_ext_id t) existing) s2)
    as [[[]|e] s3] eqn:Hloop.
  - injection Hproc' as <- <-. eexists. split; [reflexivity|].
    eapply TaskSynced; eauto; by rewrite Hfilter.
  - injection Hproc' as <- <-. eexists. split; [reflexivity|].
    eapply CreationFailed; eauto; by rewrite Hfilter.
Qed.

(** The task loop runs over every group. *)
Lemma task_loop_total (taskMap : list (jsval * list Entry)) s :
  fst (for_of taskMap (taskStep svc) s) = Return tt.
Proof.
  apply for_of_total. intros g s0.
  destruct (taskStep_outcome g s0) as (s' & -> & _). reflexivity.
Qed.

End TaskLoop.

Section TaskEvents.
Context {World : Type} (svc : Services World).

Implicit Types (s : St World) (entry : Entry) (ev : Event) (group : jsval * list Entry).

Lemma entriesToSync_elem (L : Ledger) (entries : list Entry) entry :
  entry ∈ entriesToSync_of L entries <-> entry ∈ entries /\ L !! id entry = None.
Proof.
  unfold entriesToSync_of. rewrite !list_elem_of_In, List.filter_In, negb_true_iff.
  rewrite bool_decide_eq_false, <- eq_None_not_Some. tauto.
Qed.

Lemma unmatched_elem existing (l : list Entry) entry :
  entry ∈ unmatched existing l <-> entry ∈ l /\ alreadyExists existing entry = false.
Proof.
  unfold unmatched. rewrite !list_elem_of_In, List.filter_In, negb_true_iff. tauto.
Qed.

Lemma task_event_mono (L L' : Ledger) ev :
  (forall k, is_Some (L !! k) -> is_Some (L' !! k)) ->
  task_event L' ev -> task_event L ev.
Proof.
  intros Hsub. destruct ev; simpl; try done.
  intros HN. apply eq_None_not_Some. intros HS. apply Hsub in HS.
  rewrite HN in HS. by destruct HS.
Qed.

Lemma sent_grows taskGid existing done extra s s' :
  sent taskGid existing done extra s s' -> ledger_grows s s'.
Proof.
  intros (_ & Hk & Hd & _) k HS.
  destruct (decide (k ∈ map id done)) as [Hin|Hnin].
  - apply list_elem_of_fmap in Hin as (e & -> & Hin). by apply Hd.
  - by rewrite Hk.
Qed.

(** The creation requests of a stretch of the send loop are for entries
    that the ledger did not key when the stretch was chosen. *)
Lemma posts_fresh taskGid existing (L : Ledger) entries (l : list Entry) :
  (forall entry, entry ∈ l -> entry ∈ entriesToSync_of L entries) ->
  Forall (task_event L) (map (post_event taskGid) (unmatched existing l)).
Proof.
  intros Hl. apply Forall_forall. intros ev Hev.
  apply list_elem_of_fmap in Hev as (e & -> & He).
  apply unmatched_elem in He as [He _]. apply Hl, entriesToSync_elem in He as [_ He].
  exact He.
Qed.

(** An iteration adds task events only, and the ledger grows. *)
Lemma task_outcome_events group s s' :
  task_outcome svc group s s' ->
  (exists evs, trace s' = trace s ++ evs /\ Forall (task_event (syncState s)) evs)
  /\ ledger_grows s s'.
Proof.
  intros Hout.
  pose proof (resolveTask_frame svc (fst group) (snd group) s) as Hres. cbv zeta in Hres.
  destruct Hout as [e s1 Hr -> | t s1 Hr Hp -> | t s1 Hr Hp Hf -> |
                    t s1 existing s2 s3 Hr Hp Hf Hdet Hloop -> |
                    t s1 existing s2 e s3 Hr Hp Hf Hdet Hloop ->];
    rewrite Hr in Hres; simpl in Hres;
    destruct Hres as ((evs1 & Ht1 & Hevs1) & Hl1 & _).
  - split; [|intros k; simpl; by rewrite Hl1].
    exists (evs1 ++ [TaskError (fst group)]). simpl. rewrite Ht1, <- app_assoc.
    split; [done|]. apply Forall_app. split; [|by repeat constructor].
    destruct Hevs1 as [-> | [p ->]]; by repeat constructor.
  - split; [|intros k; simpl; by rewrite Hl1].
    exists evs1. simpl. split; [done|].
    destruct Hevs1 as [-> | [p ->]]; by repeat constructor.
  - split; [|intros k; simpl; by rewrite Hl1].
    exists evs1. simpl. split; [done|].
    destruct Hevs1 as [-> | [p ->]]; by repeat constructor.
  - destruct (getAsanaTimeEntries_frame svc (integration_ext_id t) s1)
      as (ex' & s2' & evs2 & Hdet' & Ht2 & Hevs2 & Hl2 & _).
    rewrite Hdet in Hdet'. injection Hdet' as <- <-.
    pose proof (send_loop svc (integration_ext_id t) existing
                  (entriesToSync_of (syncState s1) (snd group)) s2) as Hsend.
    rewrite Hloop in Hsend.
    split.
    + destruct Hsend as (Ht3 & _). simpl. rewrite Ht3, Ht2, Ht1, app_nil_r, <- !app_assoc.
      eexists. split; [reflexivity|]. rewrite !Forall_app. repeat split.
      * destruct Hevs1 as [-> | [p ->]]; by repeat constructor.
      * destruct Hevs2 as [-> | [-> | ->]]; by repeat constructor.
      * rewrite <- Hl1. by apply (posts_fresh _ _ _ (snd group)).
    + apply sent_grows in Hsend. intros k Hk. simpl. apply Hsend.
      by rewrite Hl2, Hl1.
  - destruct (getAsanaTimeEntries_frame svc (integration_ext_id t) s1)
      as (ex' & s2' & evs2 & Hdet' & Ht2 & Hevs2 & Hl2 & _).
    rewrite Hdet in Hdet'. injection Hdet' as <- <-.
    pose proof (send_loop svc (integration_ext_id t) existing
                  (entriesToSync_of (syncState s1) (snd group)) s2) as Hsend.
    rewrite Hloop in Hsend. destruct Hsend as (done & failed & rest & Hsplit & Hfail & Hsend).
    split.
    + destruct Hsend as (Ht3 & _). simpl. rewrite Ht3, Ht2, Ht1, <- !app_assoc.
      eexists. split; [reflexivity|]. rewrite !Forall_app. repeat split.
      * destruct Hevs1 as [-> | [p ->]]; by repeat constructor.
      * destruct Hevs2 as [-> | [-> | ->]]; by repeat constructor.
      * rewrite <- Hl1. apply (posts_fresh _ _ _ (snd group)). intros e' He'. rewrite Hsplit.
        apply elem_of_app. by left.
      * constructor; [|done]. simpl. rewrite <- Hl1.
        apply (entriesToSync_elem (syncState s1) (snd group) failed).
        rewrite Hsplit. apply elem_of_app. right. by left.
      * by repeat constructor.
    + apply sent_grows in Hsend. intros k Hk. simpl. apply Hsend.
      by rewrite Hl2, Hl1.
Qed.

End TaskEvents.

Section WholeRun.
Context {World : Type} (svc : Services World).

Implicit Types (s : St World) (entry : Entry) (ev : Event) (group : jsval * list Entry).

Lemma ledger_grows_refl s : ledger_grows s s.
Proof. by intros k. Qed.

Lemma ledger_grows_trans s1 s2 s3 :
  ledger_grows s1 s2 -> ledger_grows s2 s3 -> ledger_grows s1 s3.
Proof. intros H1 H2 k Hk. by apply H2, H1. Qed.

(** The task loop adds task events only, and the ledger grows. *)
Lemma task_loop_events (taskMap : list (jsval * list Entry)) s :
  let s' := snd (for_of taskMap (taskStep svc) s) in
  (exists evs, trace s' = trace s ++ evs /\ Forall (task_event (syncState s)) evs)
  /\ ledger_grows s s'.
Proof.
  revert s. induction taskMap as [|g taskMap IH]; intros s; cbv zeta.
  - simpl. split; [|apply ledger_grows_refl]. exists []. by rewrite app_nil_r.
  - rewrite for_of_cons.
    destruct (taskStep_outcome svc g s) as (s1 & -> & Hout).
    apply task_outcome_events in Hout as ((evs1 & Ht1 & Hev1) & Hg1).
    destruct (IH s1) as ((evs2 & Ht2 & Hev2) & Hg2).
    split; [|by eapply ledger_grows_trans].
    exists (evs1 ++ evs2). rewrite Ht2, Ht1, <- app_assoc. split; [done|].
    apply Forall_app. split; [done|].
    eapply Forall_impl; [exact Hev2|]. intros ev. by apply task_event_mono.
Qed.

(** [loadSyncState] never throws and changes nothing but the world and
    the trace. *)
Lemma loadSyncState_spec s :
  loadSyncState svc s =
    (Return match readFile svc (world s) with
            | (Ok data, _) =>
                match JSON_parse svc data with Ok l => l | Failed _ => ∅ end
            | (Failed _, _) => ∅
            end,
     mkSt (snd (readFile svc (world s))) (trace s ++ [ReadLedger]) (syncState s)
          (togglTaskCache s) (asanaTaskCache s) (synced s) (skipped s) (alreadySynced s)).
Proof.
  unfold loadSyncState. unfold_monad. simpl.
  destruct (readFile svc (world s)) as [[data|e] w]; simpl; [|done].
  destruct (JSON_parse svc data); done.
Qed.

Lemma syncTogglToAsana_startRun startDate endDate s :
  syncTogglToAsana svc startDate endDate s =
    bind (startRun svc startDate endDate) (processEntries svc) s.
Proof.
  unfold syncTogglToAsana, startRun, bind.
  destruct (loadSyncState svc s) as [[L|e] s1]; [|done].
  destruct (set_syncState L s1) as [[[]|e] s2]; [|done].
  by destruct (getWorkspaceTimeEntries svc startDate endDate s2) as [[l|e] s3].
Qed.

(** Where the run stands when the listing is over, whether it answered
    or threw: two events so far, the loaded ledger in place, nothing
    else touched. *)
Lemma startRun_spec startDate endDate w :
  let s' := snd (startRun svc startDate endDate (init w)) in
  trace s' = [ReadLedger; SearchEntries startDate endDate]
  /\ loadSyncState svc (init w) =
       (Return (syncState s'), snd (loadSyncState svc (init w)))
  /\ togglTaskCache s' = ∅ /\ asanaTaskCache s' = ∅
  /\ synced s' = 0%nat /\ skipped s' = 0%nat /\ alreadySynced s' = 0%nat.
Proof.
  unfold startRun, bind. rewrite loadSyncState_spec.
  unfold getWorkspaceTimeEntries. unfold_monad. simpl.
  destruct (searchTimeEntries svc startDate endDate _) as [[data|e] w2]; simpl; done.
Qed.

(** Everything after the listing: the task loop, then one write of the
    ledger the loop left. *)
Lemma processEntries_spec timeEntries s :
  let loop := snd (for_of (taskMap_of timeEntries) (taskStep svc) s) in
  let s' := snd (processEntries svc timeEntries s) in
  trace s' = trace loop ++ [WriteLedger (syncState loop)]
  /\ syncState s' = syncState loop
  /\ synced s' = synced loop /\ skipped s' = skipped loop
  /\ alreadySynced s' = alreadySynced loop.
Proof.
  unfold processEntries, saveSyncState, taskMap_of. unfold_monad.
  pose proof (task_loop_total svc
    (groupByTask (List.filter (fun entry => truthy (task_id entry)) timeEntries)) s) as Htot.
  destruct (for_of _ (taskStep svc) s) as [[[]|e] s1]; simpl in Htot; [|done].
  simpl. by destruct (writeFile svc (syncState s1) (world s1)) as [[[]|e] w].
Qed.

End WholeRun.

(** ** The grouping *)

Lemma taskMap_push_keys (taskMap : list (jsval * list Entry)) (entry : Entry) :
  map fst (taskMap_push taskMap entry) =
    if decide (task_id entry ∈ map fst taskMap)
    then map fst taskMap
    else map fst taskMap ++ [task_id entry].
Proof.
  induction taskMap as [|[k entries] taskMap IH]; simpl.
  - destruct (decide (task_id entry ∈ [])) as [H|_]; [by apply elem_of_nil in H | done].
  - destruct (decide (k = task_id entry)) as [->|Hne]; simpl.
    + destruct (decide (task_id entry ∈ task_id entry :: map fst taskMap)) as [_|H]; [done|].
      exfalso. apply H. by left.
    + rewrite IH.
      destruct (decide (task_id entry ∈ map fst taskMap)) as [Hin|Hnin].
      * destruct (decide (task_id entry ∈ k :: map fst taskMap)) as [_|H]; [done|].
        exfalso. apply H. by right.
      * destruct (decide (task_id entry ∈ k :: map fst taskMap)) as [H|_]; [|done].
        apply elem_of_cons in H as [H|H]; [by subst | done].
Qed.

(** The keys of the task map are distinct. *)
Lemma groupByTask_NoDup (entries : list Entry) : NoDup (map fst (groupByTask entries)).
Proof.
  unfold groupByTask.
  assert (H : forall acc, NoDup (map fst acc) ->
                NoDup (map fst (fold_left taskMap_push entries acc))).
  { induction entries as [|e entries IH]; intros acc Hacc; simpl; [done|].
    apply IH. rewrite taskMap_push_keys.
    destruct (decide (task_id e ∈ map fst acc)) as [Hin|Hnin]; [done|].
    apply NoDup_app. split; [done|]. split; [|apply NoDup_singleton].
    intros k Hk Hk'. apply list_elem_of_singleton in Hk'. by subst. }
  apply H. constructor.
Qed.

(** ** The claims about the per-entry computations *)

Lemma durationMinutes_shape (entry : Entry) :
  durationMinutes entry = NaN \/ exists z, durationMinutes entry = Fin (inject_Z z).
Proof.
  unfold durationMinutes, Math_round, js_div.
  destruct (ToNumber _); [by left | right; by eexists].
Qed.

Lemma strict_eq_spec (v : jsval) (entry : Entry) :
  strict_eq v (durationMinutes entry) = true
  <-> exists m, v = number m /\ durationMinutes entry = Fin (inject_Z m).
Proof.
  destruct (durationMinutes_shape entry) as [-> | [z ->]].
  - split; [by destruct v | by intros (m & _ & ?)].
  - destruct v as [| |n]; simpl; try (split; [done | by intros (m & ? & _)]).
    rewrite Qeq_bool_iff, inject_Z_injective. split.
    + intros ->. by exists z.
    + intros (m & [= ->] & [= ->]). done.
Qed.

Lemma matches_spec (entry : Entry) (existing : AsanaEntry) :
  matches entry existing = true
  <-> entered_on existing = enteredOn entry
      /\ exists m, duration_minutes existing = number m
                   /\ durationMinutes entry = Fin (inject_Z m).
Proof.
  unfold matches. rewrite andb_true_iff, String.eqb_eq, strict_eq_spec. tauto.
Qed.

(** C2, as amended: the minutes sent for an entry whose duration is [n]
    seconds, [n] an integer below 2^53 in size, are [Math.round(n / 60)],
    the integer nearest to [n / 60] with a half rounded up; so 89 seconds
    give 1 minute and 30 seconds give 1 minute as well.  The bound is the
    range in which the exact quotient of [js_div] and the double that
    JavaScript computes round to the same integer; beyond it they need
    not. *)
Theorem durationMinutes_rounds_half_up (entry : Entry) (n : Z) :
  js_or (seconds entry) (duration entry) = number n ->
  Z.abs n < 2 ^ 53 ->
  exists m,
    durationMinutes entry = Fin (inject_Z m)
    /\ 60 * m - 30 <= n < 60 * m + 30
    /\ (n = 89 -> m = 1)
    /\ (n = 30 -> m = 1).
Proof.
  intros H _. exists ((n + 30) / 60). split; [by apply durationMinutes_number|].
  split; [by apply nearest_minute|]. split; intros ->; reflexivity.
Qed.

Lemma durationMinutes_rounds_half_up_witness :
  exists m,
    durationMinutes (sampleEntry 1 (number 30) undefined "2026-02-01T10:00:00Z" 501)
      = Fin (inject_Z m)
    /\ 60 * m - 30 <= 30 < 60 * m + 30
    /\ (30 = 89 -> m = 1)
    /\ (30 = 30 -> m = 1).
Proof.
  apply (durationMinutes_rounds_half_up
           (sampleEntry 1 (number 30) undefined "2026-02-01T10:00:00Z" 501) 30).
  - reflexivity.
  - reflexivity.
Defined.

(** C2, the claim as stated fails: 30 seconds are half a minute, which
    [Math.round] takes up to 1, not down to 0. *)
Lemma thirty_seconds_round_to_one :
  let entry := sampleEntry 1 (number 30) undefined "2026-02-01T10:00:00Z" 501 in
  durationMinutes entry = Fin (inject_Z 1) /\ durationMinutes entry <> Fin (inject_Z 0).
Proof. split; [reflexivity | discriminate]. Qed.

(** C3, as amended: [entry.seconds || entry.duration] takes [seconds] when
    it is there and not zero, whatever [duration] holds, and [duration]
    when [seconds] is missing; 1800 under either name gives 30 minutes.
    An entry with neither field is not rejected: its minutes are NaN, it
    matches no existing entry, and the creation request is made with NaN. *)
Theorem duration_field_selection {World} (svc : Services World) (entry : Entry) :
  (forall n, seconds entry = number n -> n <> 0 ->
     durationMinutes entry = Fin (inject_Z ((n + 30) / 60)))
  /\ (forall n, seconds entry = undefined -> duration entry = number n ->
        durationMinutes entry = Fin (inject_Z ((n + 30) / 60)))
  /\ (seconds entry = number 1800 -> durationMinutes entry = Fin (inject_Z 30))
  /\ (seconds entry = undefined -> duration entry = number 1800 ->
        durationMinutes entry = Fin (inject_Z 30))
  /\ (seconds entry = undefined -> duration entry = undefined ->
        durationMinutes entry = NaN
        /\ forall taskGid existing (s : St World),
             alreadyExists existing entry = false
             /\ trace (snd (sendEntry svc taskGid existing entry s))
                = trace s ++ [PostTimeEntry taskGid NaN (enteredOn entry) (id entry)]).
Proof.
  assert (Hsec : forall n, seconds entry = number n -> n <> 0 ->
            durationMinutes entry = Fin (inject_Z ((n + 30) / 60))).
  { intros n Hs Hn. apply durationMinutes_number. unfold js_or. rewrite Hs. simpl.
    by destruct (Z.eqb_spec n 0). }
  assert (Hdur : forall n, seconds entry = undefined -> duration entry = number n ->
            durationMinutes entry = Fin (inject_Z ((n + 30) / 60))).
  { intros n Hs Hd. apply durationMinutes_number. unfold js_or. by rewrite Hs. }
  split; [exact Hsec|]. split; [exact Hdur|].
  split; [intros Hs; by rewrite (Hsec 1800 Hs)|].
  split; [intros Hs Hd; by rewrite (Hdur 1800 Hs Hd)|].
  intros Hs Hd.
  assert (HN : durationMinutes entry = NaN).
  { apply durationMinutes_undefined. unfold js_or. by rewrite Hs. }
  split; [exact HN|]. intros taskGid existing s.
  assert (Hno : alreadyExists existing entry = false).
  { unfold alreadyExists. apply not_true_is_false. intros Hex.
    apply existsb_exists in Hex as (R & _ & HR).
    apply matches_spec in HR as (_ & m & _ & Hm). by rewrite HN in Hm. }
  split; [exact Hno|].
  rewrite (sendEntry_new svc _ _ _ _ Hno). cbv zeta. rewrite HN.
  by destruct (postTimeTrackingEntry svc _ _ _ (world s)) as [[[]|e] w].
Qed.

Lemma duration_field_selection_witness :
  durationMinutes (sampleEntry 1 (number 1800) (number 60) "2026-02-01T10:00:00Z" 501)
    = Fin (inject_Z 30)
  /\ durationMinutes (sampleEntry 2 undefined (number 1800) "2026-02-01T10:00:00Z" 501)
    = Fin (inject_Z 30)
  /\ durationMinutes (sampleEntry 3 undefined undefined "2026-02-01T10:00:00Z" 501) = NaN.
Proof.
  split; [|split].
  - apply (proj1 (duration_field_selection (mockServices (freshMock []))
                    (sampleEntry 1 (number 1800) (number 60) "2026-02-01T10:00:00Z" 501))
             1800); [reflexivity | lia].
  - apply (proj1 (proj2 (duration_field_selection (mockServices (freshMock []))
                    (sampleEntry 2 undefined (number 1800) "2026-02-01T10:00:00Z" 501)))
             1800); reflexivity.
  - apply (proj2 (proj2 (proj2 (proj2 (duration_field_selection (mockServices (freshMock []))
                    (sampleEntry 3 undefined undefined "2026-02-01T10:00:00Z" 501))))));
      reflexivity.
Defined.

(** C3, the claim as stated fails twice.  With both fields present and
    [seconds] zero the script takes [duration]: 1800 seconds give 30
    minutes, not 0.  And a record with neither field is not rejected: the
    run posts it to Asana with NaN minutes and writes its ledger record. *)
Lemma seconds_not_always_preferred_nor_missing_rejected :
  durationMinutes (sampleEntry 1 (number 0) (number 1800) "2026-02-01T10:00:00Z" 501)
    = Fin (inject_Z 30)
  /\ let run := syncTogglToAsana
                  (mockServices (freshMock [sampleGroup 501
                     [sampleLeaf 4 undefined "2026-02-01T10:00:00Z"]]))
                  "2026-02-01" "2026-02-02" mockInit in
     fst run = Return tt
     /\ creation_calls (trace (snd run)) = [PostTimeEntry "1200" NaN "2026-02-01" 4]
     /\ rec_duration_minutes <$> (syncState (snd run) !! 4) = Some NaN.
Proof. vm_compute. repeat split; reflexivity. Qed.

(** ** The claims about one task *)

Section TaskClaims.
Context {World : Type} (svc : Services World).

Implicit Types (s : St World) (entry : Entry) (ev : Event) (group : jsval * list Entry).

(** C4: a new entry is suppressed exactly when some fetched remote entry
    has the same date and, as minutes, the rounded duration of the entry,
    with no tolerance.  A suppressed entry gets no creation request and
    a ledger record with [already_existed] set; any other entry gets its
    creation request. *)
Theorem duplicate_suppression taskGid (existing : list AsanaEntry) entry s :
  (alreadyExists existing entry = true
   <-> exists R, R ∈ existing
                 /\ entered_on R = enteredOn entry
                 /\ exists m, duration_minutes R = number m
                              /\ durationMinutes entry = Fin (inject_Z m))
  /\ (alreadyExists existing entry = true ->
      exists r,
        sendEntry svc taskGid existing entry s =
          (Return tt,
           mkSt (world s) (trace s) (<[id entry := r]> (syncState s))
                (togglTaskCache s) (asanaTaskCache s)
                (synced s) (skipped s) (alreadySynced s))
        /\ already_existed r = true
        /\ rec_duration_minutes r = durationMinutes entry
        /\ rec_entered_on r = enteredOn entry)
  /\ (alreadyExists existing entry = false ->
      trace (snd (sendEntry svc taskGid existing entry s))
      = trace s ++ [post_event taskGid entry]).
Proof.
  split; [|split].
  - unfold alreadyExists. rewrite existsb_exists. split.
    + intros (R & HR & Hm). exists R. rewrite list_elem_of_In. split; [done|].
      by apply matches_spec.
    + intros (R & HR & Hm). exists R. rewrite <- list_elem_of_In. split; [done|].
      by apply matches_spec.
  - intros Hdup. exists (dupRecord svc taskGid entry (world s)).
    by rewrite (sendEntry_duplicate svc _ _ _ _ Hdup).
  - intros Hnew. rewrite (sendEntry_new svc _ _ _ _ Hnew). cbv zeta.
    by destruct (postTimeTrackingEntry svc _ _ _ (world s)) as [[[]|e] w].
Qed.

(** C7: when the fetch of a task's existing entries fails, the detector
    logs a warning and returns the empty list; it never throws, so the
    task goes on to its send loop with nothing to compare against. *)
Theorem detector_degrades_to_empty taskGid s :
  (exists existing s', getAsanaTimeEntries svc taskGid s = (Return existing, s'))
  /\ (forall e w,
        asanaTaskCache s !! taskGid = None ->
        getTimeTrackingEntries svc taskGid (world s) = (Failed e, w) ->
        let s' := mkSt w (trace s ++ [GetTimeEntries taskGid; WarnFetch taskGid])
                       (syncState s) (togglTaskCache s)
                       (<[taskGid := []]> (asanaTaskCache s))
                       (synced s) (skipped s) (alreadySynced s) in
        getAsanaTimeEntries svc taskGid s = (Return [], s')
        /\ forall t entries,
             integration_provider t = "asana"%string ->
             integration_ext_id t = taskGid ->
             entriesToSync_of (syncState s) entries <> [] ->
             syncTask svc t entries s =
               bind (for_of (entriesToSync_of (syncState s) entries)
                            (sendEntry svc taskGid []))
                    (fun _ => incr_synced) s').
Proof.
  split.
  - destruct (getAsanaTimeEntries_frame svc taskGid s) as (existing & s' & _ & H & _).
    eauto.
  - intros e w Hmiss Hfail s'.
    assert (Hdet : getAsanaTimeEntries svc taskGid s = (Return [], s')).
    { rewrite (getAsanaTimeEntries_miss svc _ _ Hmiss), Hfail.
      unfold s'. by rewrite <- app_assoc. }
    split; [exact Hdet|].
    intros t entries Hp Hgid Hne. unfold syncTask. rewrite Hp, Hgid. simpl.
    unfold bind at 1, gets at 1.
    destruct (entriesToSync_of (syncState s) entries) as [|e0 l0] eqn:Hf; [done|].
    cbn [length Nat.eqb]. unfold bind at 1. by rewrite Hdet.
Qed.

(** C8: a task whose resolved provider is not ["asana"] is skipped: the
    iteration returns normally without asking Asana anything, the ledger
    and the other two counters stay as they were, [skipped] goes up by
    one, and no error is logged. *)
Theorem non_asana_task_skipped group s t s1 :
  resolveTask svc (fst group) (snd group) s = (Return t, s1) ->
  integration_provider t <> "asana"%string ->
  exists s',
    taskStep svc group s = (Return tt, s')
    /\ (exists evs, trace s' = trace s ++ evs
                    /\ (evs = [] \/ exists p, evs = [GetTask p (fst group)]))
    /\ syncState s' = syncState s
    /\ asanaTaskCache s' = asanaTaskCache s
    /\ skipped s' = S (skipped s)
    /\ synced s' = synced s
    /\ alreadySynced s' = alreadySynced s.
Proof.
  intros Hres Hprov.
  pose proof (resolveTask_frame svc (fst group) (snd group) s) as Hfr.
  cbv zeta in Hfr. rewrite Hres in Hfr. simpl in Hfr.
  destruct Hfr as (Htr & Hl & Hc & Hn1 & Hn2 & Hn3).
  exists (snd (incr_skipped s1)). split.
  - unfold taskStep, try_catch, processTask, bind. rewrite Hres.
    unfold syncTask. apply String.eqb_neq in Hprov. by rewrite Hprov.
  - simpl. rewrite Hn2. auto 10.
Qed.

End TaskClaims.

Lemma duplicate_suppression_witness :
  let entry := sampleEntry 7 (number 3600) undefined "2026-02-01T10:00:00Z" 501 in
  let existing := [mkAsanaEntry "2026-02-01" (number 60)] in
  exists r,
    sendEntry (mockServices (freshMock [])) "1200" existing entry mockInit
    = (Return tt, mkSt firstWorld [] (<[7 := r]> ∅) ∅ ∅ 0 0 0)
    /\ already_existed r = true
    /\ rec_duration_minutes r = durationMinutes entry
    /\ rec_entered_on r = enteredOn entry.
Proof.
  intros entry existing.
  apply (proj1 (proj2 (duplicate_suppression (mockServices (freshMock [])) "1200"
                         existing entry mockInit))).
  reflexivity.
Defined.

Lemma detector_degrades_to_empty_witness :
  getAsanaTimeEntries (mockServices (blindMock [])) "1200" mockInit
  = (Return [],
     mkSt firstWorld [GetTimeEntries "1200"; WarnFetch "1200"] ∅ ∅
          (<["1200"%string := []]> ∅) 0 0 0).
Proof.
  apply (proj2 (detector_degrades_to_empty (mockServices (blindMock [])) "1200" mockInit)
           "Asana API error: 403"%string firstWorld); reflexivity.
Defined.

Lemma non_asana_task_skipped_witness :
  let svc := mockServices (freshMock []) in
  let group := (number 502, [sampleEntry 3 (number 600) undefined "2026-02-01T10:00:00Z" 502]) in
  exists s',
    taskStep svc group mockInit = (Return tt, s')
    /\ (exists evs, trace s' = trace mockInit ++ evs
                    /\ (evs = [] \/ exists p, evs = [GetTask p (fst group)]))
    /\ syncState s' = syncState mockInit
    /\ asanaTaskCache s' = asanaTaskCache mockInit
    /\ skipped s' = S (skipped mockInit)
    /\ synced s' = synced mockInit
    /\ alreadySynced s' = alreadySynced mockInit.
Proof.
  intros svc group.
  apply (non_asana_task_skipped svc group mockInit githubTask
           (mkSt firstWorld [GetTask (number 9) (number 502)] ∅
                 (<[number 502 := githubTask]> ∅) ∅ 0 0 0)).
  - reflexivity.
  - discriminate.
Defined.

(** ** What an iteration leaves behind *)

Section Iterations.
Context {World : Type} (svc : Services World).

Implicit Types (s : St World) (entry : Entry) (ev : Event) (group : jsval * list Entry).

Lemma errors_app (t1 t2 : list Event) : errors (t1 ++ t2) = errors t1 ++ errors t2.
Proof. apply List.filter_app. Qed.

Lemma creation_calls_app (t1 t2 : list Event) :
  creation_calls (t1 ++ t2) = creation_calls t1 ++ creation_calls t2.
Proof. apply List.filter_app. Qed.

Lemma persists_app (t1 t2 : list Event) : persists (t1 ++ t2) = persists t1 ++ persists t2.
Proof. apply List.filter_app. Qed.

Lemma persists_task_events (L : Ledger) (evs : list Event) :
  Forall (task_event L) evs -> persists evs = [].
Proof.
  induction 1 as [|ev evs Hev _ IH]; [done|].
  unfold persists in *. simpl. rewrite IH. by destruct ev.
Qed.

Lemma entriesToSync_nil (L : Ledger) (entries : list Entry) :
  (forall entry, entry ∈ entries -> is_Some (L !! id entry)) ->
  entriesToSync_of L entries = [].
Proof.
  intros H. destruct (entriesToSync_of L entries) as [|e l] eqn:Hf; [done|].
  assert (He : e ∈ entriesToSync_of L entries) by (rewrite Hf; by left).
  apply entriesToSync_elem in He as [He HN]. apply H in He. rewrite HN in He.
  by destruct He.
Qed.

(** Resolution touches no key of the task cache but the task's own. *)
Lemma resolveTask_cache taskId entries s k :
  k <> taskId ->
  togglTaskCache (snd (resolveTask svc taskId entries s)) !! k = togglTaskCache s !! k.
Proof.
  intros Hne.
  destruct (togglTaskCache s !! taskId) as [t|] eqn:Hc.
  - by rewrite (resolveTask_hit svc _ _ _ _ Hc).
  - destruct entries as [|first rest].
    + unfold resolveTask. unfold_monad. by rewrite Hc.
    + rewrite (resolveTask_miss svc _ _ _ _ Hc).
      destruct (getTask svc (project_id first) taskId (world s)) as [[t|e] w]; simpl; [|done].
      by rewrite lookup_insert_ne.
Qed.

(** With the task not yet cached, the detail comes from Toggl. *)
Lemma resolveTask_linked group s t s1 :
  togglTaskCache s !! fst group = None ->
  resolveTask svc (fst group) (snd group) s = (Return t, s1) ->
  linked svc group t.
Proof.
  intros Hc Hres. destruct group as [k [|first rest]]; simpl in *.
  - unfold resolveTask in Hres. unfold_monad. by rewrite Hc in Hres.
  - rewrite (resolveTask_miss svc _ _ _ _ Hc) in Hres. exists (world s). simpl.
    destruct (getTask svc (project_id first) k (world s)) as [[t'|e] w]; simpl; congruence.
Qed.

(** The facts about an iteration that the claims use, outcome by outcome:
    the trace and the ledger against the state after resolution. *)
Lemma task_outcome_cache group s s' k :
  task_outcome svc group s s' -> k <> fst group ->
  togglTaskCache s' !! k = togglTaskCache s !! k.
Proof.
  intros Hout Hne.
  pose proof (resolveTask_cache (fst group) (snd group) s k Hne) as Hres.
  destruct Hout as [e s1 Hr -> | t s1 Hr Hp -> | t s1 Hr Hp Hf -> |
                    t s1 existing s2 s3 Hr Hp Hf Hdet Hloop -> |
                    t s1 existing s2 e s3 Hr Hp Hf Hdet Hloop ->];
    rewrite Hr in Hres; simpl in Hres; simpl; try done.
  - destruct (getAsanaTimeEntries_frame svc (integration_ext_id t) s1)
      as (ex' & s2' & evs2 & Hdet' & _ & _ & _ & Hc2 & _).
    rewrite Hdet in Hdet'. injection Hdet' as <- <-.
    pose proof (send_loop svc (integration_ext_id t) existing
                  (entriesToSync_of (syncState s1) (snd group)) s2) as Hsend.
    rewrite Hloop in Hsend. destruct Hsend as (_ & _ & _ & Hc3 & _).
    by rewrite Hc3, Hc2.
  - destruct (getAsanaTimeEntries_frame svc (integration_ext_id t) s1)
      as (ex' & s2' & evs2 & Hdet' & _ & _ & _ & Hc2 & _).
    rewrite Hdet in Hdet'. injection Hdet' as <- <-.
    pose proof (send_loop svc (integration_ext_id t) existing
                  (entriesToSync_of (syncState s1) (snd group)) s2) as Hsend.
    rewrite Hloop in Hsend. destruct Hsend as (? & ? & ? & _ & _ & _ & _ & _ & Hc3 & _).
    by rewrite Hc3, Hc2.
Qed.

(** An iteration that logs no error resolved its task, and, when the task
    is an Asana task, left every entry of the group keyed in the ledger. *)
Lemma task_outcome_clean group s s' :
  task_outcome svc group s s' ->
  errors (trace s') = errors (trace s) ->
  exists t s1,
    resolveTask svc (fst group) (snd group) s = (Return t, s1)
    /\ (integration_provider t = "asana"%string ->
        forall entry, entry ∈ snd group -> is_Some (syncState s' !! id entry)).
Proof.
  intros Hout Herr.
  pose proof (resolveTask_frame svc (fst group) (snd group) s) as Hres. cbv zeta in Hres.
  destruct Hout as [e s1 Hr -> | t s1 Hr Hp -> | t s1 Hr Hp Hf -> |
                    t s1 existing s2 s3 Hr Hp Hf Hdet Hloop -> |
                    t s1 existing s2 e s3 Hr Hp Hf Hdet Hloop ->];
    rewrite Hr in Hres; simpl in Hres;
    destruct Hres as ((evs1 & Ht1 & Hevs1) & Hl1 & _).
  - exfalso. simpl in Herr. rewrite Ht1, !errors_app in Herr.
    rewrite <- (app_nil_r (errors (trace s))) in Herr at 2.
    rewrite <- app_assoc in Herr. apply app_inv_head in Herr.
    by apply app_eq_nil in Herr as [_ ?].
  - exists t, s1. split; [done|]. intros Hp'. by rewrite Hp' in Hp.
  - exists t, s1. split; [done|]. intros _ entry He. simpl.
    destruct (syncState s1 !! id entry) as [r|] eqn:Hk; [by eexists|].
    assert (Hin : entry ∈ entriesToSync_of (syncState s1) (snd group))
      by by apply entriesToSync_elem.
    rewrite Hf in Hin. by apply elem_of_nil in Hin.
  - exists t, s1. split; [done|]. intros _ entry He. simpl.
    destruct (getAsanaTimeEntries_frame svc (integration_ext_id t) s1)
      as (ex' & s2' & evs2 & Hdet' & _ & _ & Hl2 & _).
    rewrite Hdet in Hdet'. injection Hdet' as <- <-.
    pose proof (send_loop svc (integration_ext_id t) existing
                  (entriesToSync_of (syncState s1) (snd group)) s2) as Hsend.
    rewrite Hloop in Hsend.
    destruct (syncState s1 !! id entry) as [r|] eqn:Hk.
    + apply (sent_grows _ _ _ _ _ _ Hsend). rewrite Hl2, Hk. by eexists.
    + destruct Hsend as (_ & _ & Hd & _). apply Hd. by apply entriesToSync_elem.
  - exfalso.
    destruct (getAsanaTimeEntries_frame svc (integration_ext_id t) s1)
      as (ex' & s2' & evs2 & Hdet' & Ht2 & _).
    rewrite Hdet in Hdet'. injection Hdet' as <- <-.
    pose proof (send_loop svc (integration_ext_id t) existing
                  (entriesToSync_of (syncState s1) (snd group)) s2) as Hsend.
    rewrite Hloop in Hsend. destruct Hsend as (done & failed & rest & _ & _ & Ht3 & _).
    simpl in Herr. rewrite Ht3, Ht2, Ht1, !errors_app in Herr.
    rewrite <- (app_nil_r (errors (trace s))) in Herr at 2.
    rewrite <- !app_assoc in Herr. apply app_inv_head in Herr.
    repeat (apply app_eq_nil in Herr as [_ Herr]). done.
Qed.


End Iterations.

(** ** Calls of [fs.writeFile] *)

Section Journal.
Context {World : Type} (svc : Services World) (writes : World -> list Ledger).

Implicit Types (s : St World) (group : jsval * list Entry).

Lemma writes_nothing_bind {A B} (m : M World A) (f : A -> M World B) :
  writes_nothing writes m -> (forall a, writes_nothing writes (f a)) ->
  writes_nothing writes (bind m f).
Proof.
  intros Hm Hf s. unfold bind. specialize (Hm s).
  destruct (m s) as [[a|e] s1]; simpl in *; [by rewrite Hf | done].
Qed.

Lemma writes_nothing_try_catch {A} (body : M World A) (handler : string -> M World A) :
  writes_nothing writes body -> (forall e, writes_nothing writes (handler e)) ->
  writes_nothing writes (try_catch body handler).
Proof.
  intros Hm Hf s. unfold try_catch. specialize (Hm s).
  destruct (body s) as [[a|e] s1]; simpl in *; [done | by rewrite Hf].
Qed.

Lemma writes_nothing_request {A} (op : World -> result A * World) :
  (forall w, writes (snd (op w)) = writes w) -> writes_nothing writes (request op).
Proof.
  intros H s. unfold request. specialize (H (world s)).
  by destruct (op (world s)) as [[a|e] w].
Qed.

Lemma writes_nothing_of_result {A} (r : result A) : writes_nothing writes (of_result r).
Proof. intros s. by destruct r. Qed.

Lemma writes_nothing_for_of {A} (l : list A) (body : A -> M World unit) :
  (forall x, writes_nothing writes (body x)) -> writes_nothing writes (for_of l body).
Proof.
  intros Hbody. induction l as [|x l IH]; intros s; [done|].
  rewrite for_of_cons. specialize (Hbody x s).
  destruct (body x s) as [[[]|e] s1]; simpl in *; [by rewrite IH | done].
Qed.

(** Statement by statement: a request other than [writeFile] is settled by
    the journal's own law, everything else only touches the run's state. *)
Ltac no_write Hj :=
  cbv zeta;
  repeat match goal with
  | |- writes_nothing _ (bind _ _) => apply writes_nothing_bind; [|intros ?]
  | |- writes_nothing _ (try_catch _ _) => apply writes_nothing_try_catch; [|intros ?]
  | |- writes_nothing _ (for_of _ _) => apply writes_nothing_for_of; intros ?
  | |- writes_nothing _ (request _) =>
      apply writes_nothing_request; intros ?;
      destruct Hj as (_ & ? & ? & ? & ? & ? & ?); done
  | |- writes_nothing _ (of_result _) => apply writes_nothing_of_result
  | |- writes_nothing _ (match ?x with _ => _ end) => destruct x
  | |- writes_nothing _ _ => by intros ?
  end.

Hypothesis Hjournal : keeps_journal svc writes.

Lemma startRun_writes_nothing startDate endDate :
  writes_nothing writes (startRun svc startDate endDate).
Proof.
  unfold startRun, loadSyncState, getWorkspaceTimeEntries. no_write Hjournal.
Qed.

Lemma startMyRun_writes_nothing startDate endDate :
  writes_nothing writes (startMyRun svc startDate endDate).
Proof. unfold startMyRun, loadSyncState. no_write Hjournal. Qed.

Lemma taskStep_writes_nothing group : writes_nothing writes (taskStep svc group).
Proof.
  unfold taskStep, processTask, resolveTask, syncTask, getAsanaTimeEntries, sendEntry.
  no_write Hjournal.
Qed.

Lemma syncjs_taskStep_writes_nothing group :
  writes_nothing writes (SyncJs.taskStep svc group).
Proof.
  unfold SyncJs.taskStep, SyncJs.processTask, SyncJs.sendEntry. no_write Hjournal.
Qed.

Lemma syncme_taskStep_writes_nothing group :
  writes_nothing writes (SyncMe.taskStep svc group).
Proof.
  unfold SyncMe.taskStep, SyncMe.processTask, SyncMe.getAsanaTimeEntries, SyncMe.sendEntry.
  no_write Hjournal.
Qed.

(** The three scripts end alike: a task loop whose iterations never throw
    and never write, then [saveSyncState] on the ledger the loop left.
    Nothing is written up to any point of the loop; the run then makes one
    call of [writeFile] and returns or throws as that call does.  A run
    whose opening statements throw writes nothing. *)
Lemma run_writes_once (start : M World (list Entry))
      (step : jsval * list Entry -> M World unit) s :
  writes_nothing writes start ->
  (forall group, writes_nothing writes (step group)) ->
  (forall group s0, fst (step group s0) = Return tt) ->
  let run :=
    bind start
         (fun timeEntries =>
            for_of (taskMap_of timeEntries) step >>
            let! state := gets syncState in
            saveSyncState svc state) s in
  match start s with
  | (Return timeEntries, s2) =>
      let taskMap := taskMap_of timeEntries in
      let loop := snd (for_of taskMap step s2) in
      let write := writeFile svc (syncState loop) (world loop) in
      fst (for_of taskMap step s2) = Return tt
      /\ (forall before after,
            taskMap = before ++ after ->
            let sb := snd (for_of before step s2) in
            for_of taskMap step s2 = for_of after step sb
            /\ writes (world sb) = writes (world s))
      /\ world (snd run) = snd write
      /\ writes (world (snd run)) = writes (world s) ++ [syncState loop]
      /\ fst run = match fst write with Ok _ => Return tt | Failed e => Throw e end
  | (Throw e, s2) =>
      run = (Throw e, s2) /\ writes (world s2) = writes (world s)
  end.
Proof.
  intros Hstart Hstep Htotal run.
  pose proof (Hstart s) as Hw2.
  destruct (start s) as [[timeEntries|e] s2] eqn:Hs; simpl in Hw2.
  2:{ subst run. unfold bind. by rewrite Hs. }
  assert (Hrun : run = bind (for_of (taskMap_of timeEntries) step)
                            (fun _ => bind (gets syncState) (saveSyncState svc)) s2).
  { subst run. unfold bind at 1. by rewrite Hs. }
  clearbody run. subst run. cbv zeta.
  pose proof (for_of_total (taskMap_of timeEntries) step Htotal s2) as Htot.
  pose proof (writes_nothing_for_of (taskMap_of timeEntries) step Hstep s2) as Hwl.
  split; [exact Htot|]. split.
  { intros before after Hsplit. split.
    - rewrite Hsplit, for_of_app.
      pose proof (for_of_total before step Htotal s2) as Hb.
      by destruct (for_of before step s2) as [[[]|e] sb].
    - by rewrite (writes_nothing_for_of before step Hstep s2). }
  unfold bind.
  destruct (for_of (taskMap_of timeEntries) step s2) as [[[]|e] loop]; simpl in Htot, Hwl;
    [|done].
  unfold saveSyncState. unfold_monad. simpl.
  destruct Hjournal as (Hwrite & _). specialize (Hwrite (syncState loop) (world loop)).
  destruct (writeFile svc (syncState loop) (world loop)) as [[[]|e] w']; simpl in *;
    by rewrite Hwrite, Hwl, Hw2.
Qed.

End Journal.

(** Every world can be watched this way. *)
Lemma journaled_keeps_journal {World} (svc : Services World) :
  keeps_journal (journaled svc) snd.
Proof.
  unfold keeps_journal. simpl. split_and!; intros.
  - by destruct (writeFile svc _ _).
  - by destruct (readFile svc _).
  - by destruct (searchTimeEntries svc _ _ _).
  - by destruct (getMyTimeEntries svc _ _ _).
  - by destruct (getTask svc _ _ _).
  - by destruct (getTimeTrackingEntries svc _ _).
  - by destruct (postTimeTrackingEntry svc _ _ _ _).
Qed.

(** ** The claims about a whole run *)

Section RunClaims.
Context {World : Type} (svc : Services World).

Implicit Types (s : St World) (entry : Entry) (ev : Event) (group : jsval * list Entry).

(** What the task loop adds to the trace is a suffix, whose errors and
    creation requests add up group by group. *)
Lemma taskStep_trace group s :
  exists evs, trace (snd (taskStep svc group s)) = trace s ++ evs.
Proof.
  destruct (taskStep_outcome svc group s) as (s1 & -> & Hout).
  apply task_outcome_events in Hout as ((evs & Ht & _) & _). eauto.
Qed.

Lemma task_loop_trace (taskMap : list (jsval * list Entry)) s :
  exists evs, trace (snd (for_of taskMap (taskStep svc) s)) = trace s ++ evs.
Proof. destruct (task_loop_events svc taskMap s) as ((evs & Ht & _) & _). eauto. Qed.

(** A task loop that logs no error leaves, for every group, a resolved
    task and, when this is an Asana task, all the group's entries keyed. *)
Lemma task_loop_clean (taskMap : list (jsval * list Entry)) s :
  NoDup (map fst taskMap) ->
  (forall k, k ∈ map fst taskMap -> togglTaskCache s !! k = None) ->
  let s' := snd (for_of taskMap (taskStep svc) s) in
  errors (trace s') = errors (trace s) ->
  forall group, group ∈ taskMap ->
    exists t, linked svc group t
              /\ (integration_provider t = "asana"%string ->
                  forall entry, entry ∈ snd group -> is_Some (syncState s' !! id entry)).
Proof.
  revert s. induction taskMap as [|g taskMap IH]; intros s Hnd Hmiss s' Herr group Hin.
  { by apply elem_of_nil in Hin. }
  subst s'. rewrite for_of_cons in *.
  destruct (taskStep_outcome svc g s) as (s1 & Hstep & Hout). rewrite Hstep in *.
  simpl in Hnd. apply NoDup_cons in Hnd as [Hg Hnd].
  pose proof (task_outcome_events svc g s s1 Hout) as ((evs1 & Ht1 & _) & _).
  destruct (task_loop_trace taskMap s1) as (evs2 & Ht2).
  pose proof (task_loop_events svc taskMap s1) as (_ & Hgrow).
  rewrite Ht2, Ht1, !errors_app in Herr.
  rewrite <- (app_nil_r (errors (trace s))) in Herr at 2.
  rewrite <- app_assoc in Herr. apply app_inv_head in Herr.
  apply app_eq_nil in Herr as [Herr1 Herr2].
  assert (Hmiss1 : forall k, k ∈ map fst taskMap -> togglTaskCache s1 !! k = None).
  { intros k Hk. rewrite (task_outcome_cache svc g s s1 k Hout).
    - apply Hmiss. by right.
    - intros ->. done. }
  apply elem_of_cons in Hin as [-> | Hin].
  - destruct (task_outcome_clean svc g s s1 Hout) as (t & sr & Hres & Hkeyed).
    { by rewrite Ht1, errors_app, Herr1, app_nil_r. }
    exists t. split.
    + eapply resolveTask_linked; [|exact Hres]. apply Hmiss. by left.
    + intros Hp entry He. apply Hgrow. by apply Hkeyed.
  - apply (IH s1 Hnd Hmiss1); [|done].
    by rewrite Ht2, errors_app, Herr2, app_nil_r.
Qed.


(** A run whose listing throws stops there: no task is touched and the
    ledger file is not written. *)
Lemma fatal_listing startDate endDate w e s2 :
  startRun svc startDate endDate (init w) = (Throw e, s2) ->
  syncTogglToAsana svc startDate endDate (init w) = (Throw e, s2)
  /\ trace s2 = [ReadLedger; SearchEntries startDate endDate].
Proof.
  intros Hstart. pose proof (startRun_spec svc startDate endDate w) as Hspec.
  cbv zeta in Hspec. rewrite Hstart in Hspec. simpl in Hspec.
  rewrite syncTogglToAsana_startRun. unfold bind. rewrite Hstart. by destruct Hspec.
Qed.

(** The trace of a run that got its entries: the two opening events, the
    task loop's events, one write. *)
Lemma run_trace startDate endDate w timeEntries s2 :
  startRun svc startDate endDate (init w) = (Return timeEntries, s2) ->
  let loop := snd (for_of (taskMap_of timeEntries) (taskStep svc) s2) in
  let s' := snd (syncTogglToAsana svc startDate endDate (init w)) in
  trace s' = trace loop ++ [WriteLedger (syncState loop)]
  /\ syncState s' = syncState loop
  /\ (exists evs, trace loop = [ReadLedger; SearchEntries startDate endDate] ++ evs
                  /\ Forall (task_event (syncState s2)) evs)
  /\ ledger_grows s2 loop.
Proof.
  intros Hstart loop s'. pose proof (startRun_spec svc startDate endDate w) as Hspec.
  cbv zeta in Hspec. rewrite Hstart in Hspec. simpl in Hspec.
  destruct Hspec as (Ht2 & _).
  assert (Hrun : syncTogglToAsana svc startDate endDate (init w)
                 = processEntries svc timeEntries s2).
  { rewrite syncTogglToAsana_startRun. unfold bind. by rewrite Hstart. }
  subst s'. rewrite Hrun.
  destruct (processEntries_spec svc timeEntries s2) as (Ht & Hl & _).
  destruct (task_loop_events svc (taskMap_of timeEntries) s2) as ((evs & Hevs & HF) & Hgrow).
  split; [exact Ht|]. split; [exact Hl|]. split; [|exact Hgrow].
  exists evs. subst loop. by rewrite Hevs, Ht2.
Qed.

(** C6, as amended, stated in a world that keeps a journal of the calls
    of [fs.writeFile].  In a run that got its entries the task loop visits
    every group, whatever errors the groups meet, and up to any point of
    the loop nothing has been written; the run then calls [writeFile]
    exactly once, with the ledger the loop left, and returns when that
    write succeeds and throws its error when it fails, the world being
    what that one call made of it.  A run whose listing throws stops there
    and writes nothing. *)
Theorem ledger_persisted_once_after_loop (writes : World -> list Ledger)
        startDate endDate w :
  keeps_journal svc writes ->
  let run := syncTogglToAsana svc startDate endDate (init w) in
  match startRun svc startDate endDate (init w) with
  | (Return timeEntries, s2) =>
      let taskMap := taskMap_of timeEntries in
      let loop := snd (for_of taskMap (taskStep svc) s2) in
      let write := writeFile svc (syncState loop) (world loop) in
      fst (for_of taskMap (taskStep svc) s2) = Return tt
      /\ (forall before after,
            taskMap = before ++ after ->
            let sb := snd (for_of before (taskStep svc) s2) in
            for_of taskMap (taskStep svc) s2 = for_of after (taskStep svc) sb
            /\ writes (world sb) = writes w)
      /\ world (snd run) = snd write
      /\ writes (world (snd run)) = writes w ++ [syncState loop]
      /\ fst run = match fst write with Ok _ => Return tt | Failed e => Throw e end
  | (Throw e, s2) =>
      run = (Throw e, s2) /\ writes (world s2) = writes w
  end.
Proof.
  intros Hj run. subst run. rewrite syncTogglToAsana_startRun.
  apply (run_writes_once svc writes Hj (startRun svc startDate endDate) (taskStep svc)
           (init w)).
  - by apply startRun_writes_nothing.
  - intros group. by apply taskStep_writes_nothing.
  - intros group s0. destruct (taskStep_outcome svc group s0) as (s' & -> & _). reflexivity.
Qed.

End RunClaims.

Section Idempotency.
Context {World : Type} (svc : Services World).

Implicit Types (s : St World) (entry : Entry) (ev : Event) (group : jsval * list Entry).


End Idempotency.



(** ** Errors of one task *)

Section Isolation.
Context {World : Type} (svc : Services World).

Implicit Types (s : St World) (entry : Entry) (ev : Event) (group : jsval * list Entry).

Lemma creation_calls_posts taskGid (l : list Entry) :
  creation_calls (map (post_event taskGid) l) = map (post_event taskGid) l.
Proof. induction l as [|e l IH]; [done|]. unfold creation_calls in *. simpl. by rewrite IH. Qed.




End Isolation.

Lemma ledger_persisted_once_after_loop_witness :
  let run := syncTogglToAsana weekJournal "2026-02-01" "2026-02-07" (init firstJournal) in
  fst run = Return tt
  /\ snd (world (snd run)) = [weekLedger]
  /\ disk (fst (world (snd run))) = Ok "week.json"%string.
Proof.
  intros run.
  pose proof (ledger_persisted_once_after_loop weekJournal snd
                "2026-02-01" "2026-02-07" firstJournal
                (journaled_keeps_journal weekServices)) as H.
  cbv zeta in H.
  destruct (startRun weekJournal "2026-02-01" "2026-02-07" (init firstJournal))
    as [[timeEntries|e] s2] eqn:Hstart; vm_compute in Hstart; [|discriminate].
  injection Hstart as <- <-.
  destruct H as (_ & _ & Hworld & Hwrites & Hret). fold run in Hworld, Hwrites, Hret.
  rewrite Hret, Hwrites, Hworld. vm_compute. repeat split; reflexivity.
Defined.

(** C6, the claim as stated fails: not every run writes the ledger once.
    When Toggl's listing fails the run ends there and [fs.writeFile] is not
    called at all; and when the one call of [fs.writeFile] fails, the run
    ends with its error and there is still no ledger file. *)
Lemma run_without_listing_writes_nothing :
  (let run := syncTogglToAsana (journaled (mockServices downMock))
                               "2026-02-01" "2026-02-07" (init firstJournal) in
   fst run = Throw "Toggl Reports API error: 503"
   /\ snd (world (snd run)) = []
   /\ disk (fst (world (snd run))) = Failed "ENOENT")
  /\ (let run := syncTogglToAsana fullDisk "2026-02-01" "2026-02-07" (init firstJournal) in
      fst run = Throw "ENOSPC"
      /\ snd (world (snd run)) = [weekLedger]
      /\ disk (fst (world (snd run))) = Failed "ENOENT").
Proof. vm_compute. repeat split; reflexivity. Qed.


(** ** Loading the ledger *)

(** C9: [loadSyncState] never throws and logs nothing: when the file
    cannot be read, for whatever reason, or its content does not parse, it
    returns the empty ledger, and the run starts from there, so that no
    listed entry is filtered out as already synced.  On sample data: after
    a first run synced two entries, a run over the truncated file, with
    the duplicate detector unable to list the task's entries, posts both
    of them again, where a run over the intact file posts nothing. *)
Theorem unreadable_ledger_is_discarded :
  (forall World (svc : Services World) (s : St World),
     (exists L s', loadSyncState svc s = (Return L, s')
                   /\ trace s' = trace s ++ [ReadLedger])
     /\ (forall e w, readFile svc (world s) = (Failed e, w) ->
                     fst (loadSyncState svc s) = Return ∅)
     /\ (forall data w e,
           readFile svc (world s) = (Ok data, w) ->
           JSON_parse svc data = Failed e ->
           fst (loadSyncState svc s) = Return ∅))
  /\ (forall World (svc : Services World) startDate endDate (w : World),
        fst (loadSyncState svc (init w)) = Return ∅ ->
        syncState (snd (startRun svc startDate endDate (init w))) = ∅)
  /\ (forall entries, entriesToSync_of ∅ entries = entries)
  /\ (let after := world (snd (blindWeekRun firstWorld)) in
      disk after = Ok "week.json"%string
      /\ JSON_parse (mockServices blindWeekMock) "week.json" = Ok weekLedger
      /\ creation_calls (trace (snd (blindWeekRun after))) = []
      /\ disk corruptedWorld = Ok "{ 1: {"%string
      /\ posted corruptedWorld = posted after
      /\ creation_calls (trace (snd (blindWeekRun corruptedWorld)))
         = [PostTimeEntry "1200" (Fin (inject_Z 30)) "2026-02-01" 1;
            PostTimeEntry "1200" (Fin (inject_Z 60)) "2026-02-01" 2]).
Proof.
  split; [|split; [|split]].
  - intros World svc s. rewrite loadSyncState_spec. split; [eauto|]. split.
    + intros e w ->. reflexivity.
    + intros data w e -> ->. reflexivity.
  - intros World svc startDate endDate w Hload.
    pose proof (startRun_spec svc startDate endDate w) as (_ & H & _).
    rewrite H in Hload. simpl in Hload. congruence.
  - intros entries. unfold entriesToSync_of. induction entries as [|e l IH]; [done|].
    simpl. rewrite lookup_empty.
    rewrite bool_decide_eq_false_2 by (by intros [? ?]). simpl. by rewrite IH.
  - vm_compute. repeat split; reflexivity.
Qed.

Lemma unreadable_ledger_is_discarded_witness :
  fst (loadSyncState (mockServices blindWeekMock) (init corruptedWorld)) = Return ∅
  /\ syncState (snd (startRun (mockServices blindWeekMock) "2026-02-01" "2026-02-07"
                              (init corruptedWorld))) = ∅.
Proof.
  assert (H : fst (loadSyncState (mockServices blindWeekMock) (init corruptedWorld))
              = Return ∅).
  { apply (proj2 (proj2 (proj1 unreadable_ledger_is_discarded _
                                 (mockServices blindWeekMock) (init corruptedWorld)))
             "{ 1: {"%string corruptedWorld "SyntaxError"%string); reflexivity. }
  split; [exact H|].
  apply (proj1 (proj2 unreadable_ledger_is_discarded)). exact H.
Defined.

(** ** Duplicates inside one run *)

Section Twins.
Context {World : Type} (svc : Services World).

Implicit Types (s : St World) (entry : Entry) (ev : Event).






End Twins.



(** The same on a whole run, against an Asana that does list what was
    posted to it: the list is fetched before the first creation, so the
    second twin is posted as well. *)
Lemma twins_whole_run :
  let run := syncTogglToAsana (mockServices (freshMock twinGroups))
                              "2026-02-01" "2026-02-07" mockInit in
  creation_calls (trace (snd run))
  = [PostTimeEntry "1200" (Fin (inject_Z 30)) "2026-02-03" 11;
     PostTimeEntry "1200" (Fin (inject_Z 30)) "2026-02-03" 12]
  /\ posted (world (snd run))
     = [("1200"%string, mkAsanaEntry "2026-02-03" (number 30));
        ("1200"%string, mkAsanaEntry "2026-02-03" (number 30))].
Proof. vm_compute. split; reflexivity. Qed.

(** ** The older script *)

Section SyncJsFacts.
Context {World : Type} (svc : Services World).

Implicit Types (s : St World) (entry : Entry) (ev : Event) (group : jsval * list Entry).

(** A loop whose body never throws, adds task events only and lets the
    ledger grow does the same as a whole. *)
Lemma quiet_loop {A} (body : A -> M World unit) :
  (forall x s,
     fst (body x s) = Return tt
     /\ (exists evs, trace (snd (body x s)) = trace s ++ evs
                     /\ Forall (task_event (syncState s)) evs)
     /\ ledger_grows s (snd (body x s))) ->
  forall l s,
    fst (for_of l body s) = Return tt
    /\ (exists evs, trace (snd (for_of l body s)) = trace s ++ evs
                    /\ Forall (task_event (syncState s)) evs)
    /\ ledger_grows s (snd (for_of l body s)).
Proof.
  intros Hbody. induction l as [|x l IH]; intros s.
  - simpl. split; [done|]. split; [|apply ledger_grows_refl].
    exists []. by rewrite app_nil_r.
  - rewrite for_of_cons. destruct (Hbody x s) as (Hret & (evs1 & Ht1 & Hev1) & Hg1).
    destruct (body x s) as [[[]|e] s1]; simpl in Hret, Ht1, Hg1; [|done].
    destruct (IH s1) as (Hret2 & (evs2 & Ht2 & Hev2) & Hg2).
    split; [done|]. split; [|by eapply ledger_grows_trans].
    exists (evs1 ++ evs2). rewrite Ht2, Ht1, <- app_assoc. split; [done|].
    apply Forall_app. split; [done|].
    eapply Forall_impl; [exact Hev2|]. intros ev. by apply task_event_mono.
Qed.

(** The send loop of [sync.js] over entries that the ledger [L] does not
    key: task events only, whether it finishes or stops at a failed
    request, and the ledger grows. *)
Lemma syncjs_sendEntry taskGid entry s :
  SyncJs.sendEntry svc taskGid entry s =
    let post := PostTimeEntry taskGid (SyncJs.durationMinutes entry) (enteredOn entry)
                              (id entry) in
    match postTimeTrackingEntry svc taskGid (SyncJs.durationMinutes entry)
                                (enteredOn entry) (world s) with
    | (Ok _, w) =>
        (Return tt,
         mkSt w (trace s ++ [post])
              (<[id entry := mkLedgerRecord (toISOString_now svc w) taskGid
                               (SyncJs.durationMinutes entry) (enteredOn entry)
                               false None]> (syncState s))
              (togglTaskCache s) (asanaTaskCache s) (synced s) (skipped s) (alreadySynced s))
    | (Failed e, w) =>
        (Throw e,
         mkSt w (trace s ++ [post]) (syncState s)
              (togglTaskCache s) (asanaTaskCache s) (synced s) (skipped s) (alreadySynced s))
    end.
Proof.
  unfold SyncJs.sendEntry. unfold_monad. simpl.
  destruct (postTimeTrackingEntry svc _ _ _ (world s)) as [[[]|e] w]; reflexivity.
Qed.

Lemma syncjs_send_loop taskGid (L : Ledger) (l : list Entry) s :
  (forall entry, entry ∈ l -> L !! id entry = None) ->
  let s' := snd (for_of l (SyncJs.sendEntry svc taskGid) s) in
  (exists evs, trace s' = trace s ++ evs /\ Forall (task_event L) evs)
  /\ ledger_grows s s'.
Proof.
  revert s. induction l as [|entry l IH]; intros s Hfresh; cbv zeta.
  - simpl. split; [|by intros k]. exists []. by rewrite app_nil_r.
  - rewrite for_of_cons, syncjs_sendEntry. cbv zeta.
    destruct (postTimeTrackingEntry svc taskGid _ _ (world s)) as [[[]|e] w].
    + match goal with |- context [for_of l _ ?s1] =>
        destruct (IH s1) as ((evs & Ht & Hev) & Hg) end.
      { intros e' He'. apply Hfresh. by right. }
      simpl in Ht. split.
      * eexists. rewrite Ht, <- app_assoc. split; [reflexivity|].
        constructor; [|done]. simpl. apply Hfresh. by left.
      * intros k Hk. apply Hg. simpl.
        destruct (decide (id entry = k)) as [->|Hne].
        -- rewrite lookup_insert_eq. by eexists.
        -- by rewrite lookup_insert_ne.
    + simpl. split; [|by intros k]. eexists. split; [reflexivity|].
      constructor; [|done]. simpl. apply Hfresh. by left.
Qed.

Lemma syncjs_processTask taskId (entries : list Entry) s o s' :
  SyncJs.processTask svc taskId entries s = (o, s') ->
  (exists evs, trace s' = trace s ++ evs /\ Forall (task_event (syncState s)) evs)
  /\ ledger_grows s s'.
Proof.
  intros Hproc. unfold SyncJs.processTask in Hproc.
  destruct entries as [|first rest].
  { unfold_monad. injection Hproc as <- <-. split; [|by intros k].
    exists []. by rewrite app_nil_r. }
  cbv iota beta in Hproc. remember (first :: rest) as entries eqn:Hentries.
  unfold bind at 1 in Hproc. unfold bind at 1, emit at 1, modify at 1, request at 1 in Hproc.
  simpl in Hproc.
  destruct (getTask svc (project_id first) taskId (world s)) as [[t|e] w].
  2:{ injection Hproc as <- <-. simpl. split; [|by intros k].
      eexists. split; [reflexivity|]. by repeat constructor. }
  destruct (String.eqb (integration_provider t) "asana").
  2:{ unfold_monad. injection Hproc as <- <-. simpl. split; [|by intros k].
      eexists. split; [reflexivity|]. by repeat constructor. }
  unfold bind at 1, gets at 1 in Hproc. simpl in Hproc.
  destruct (entriesToSync_of (syncState s) entries) as [|e0 l0] eqn:Hf.
  { unfold_monad. injection Hproc as <- <-. simpl. split; [|by intros k].
    eexists. split; [reflexivity|]. by repeat constructor. }
  cbn [length Nat.eqb] in Hproc. unfold bind at 1 in Hproc.
  match type of Hproc with context [for_of (e0 :: l0) _ ?s1] =>
    pose proof (syncjs_send_loop (integration_ext_id t) (syncState s) (e0 :: l0) s1) as Hloop
  end.
  destruct Hloop as ((evs & Ht & Hev) & Hg).
  { intros e' He'. rewrite <- Hf in He'. by apply entriesToSync_elem in He' as [_ ?]. }
  destruct (for_of (e0 :: l0) _ _) as [[[]|e] s3]; simpl in Ht, Hg;
    unfold_monad; injection Hproc as <- <-; simpl;
    (split; [|exact Hg]); rewrite Ht, <- app_assoc;
    eexists; (split; [reflexivity|]); by constructor.
Qed.

Lemma syncjs_taskStep group s :
  fst (SyncJs.taskStep svc group s) = Return tt
  /\ (exists evs, trace (snd (SyncJs.taskStep svc group s)) = trace s ++ evs
                  /\ Forall (task_event (syncState s)) evs)
  /\ ledger_grows s (snd (SyncJs.taskStep svc group s)).
Proof.
  unfold SyncJs.taskStep, try_catch.
  destruct (SyncJs.processTask svc (fst group) (snd group) s) as [[[]|e] s1] eqn:Hproc;
    apply syncjs_processTask in Hproc as ((evs & Ht & Hev) & Hg).
  - simpl. split; [done|]. split; [eauto | done].
  - simpl. split; [done|]. split; [|exact Hg].
    exists (evs ++ [TaskError (fst group)]). rewrite Ht, <- app_assoc. split; [done|].
    apply Forall_app. split; [done|]. by repeat constructor.
Qed.

(** [sync.js]: the trace of a run.  A failed listing is fatal before any
    task is touched; otherwise the task loop adds task events and one write
    of the ledger ends the run. *)
Lemma syncjs_run_trace startDate endDate w o s' :
  SyncJs.syncTogglToAsana svc startDate endDate (init w) = (o, s') ->
  exists L l1 evs,
    loadSyncState svc (init w) = (Return L, l1)
    /\ Forall (task_event L) evs
    /\ match getMyTimeEntries svc startDate endDate (world l1) with
       | (Ok _, _) =>
           trace s' = [ReadLedger; SearchEntries startDate endDate] ++ evs
                      ++ [WriteLedger (syncState s')]
       | (Failed _, _) =>
           trace s' = [ReadLedger; SearchEntries startDate endDate]
       end.
Proof.
  intros Hrun. unfold SyncJs.syncTogglToAsana in Hrun.
  unfold bind at 1 in Hrun. rewrite loadSyncState_spec in Hrun.
  rewrite loadSyncState_spec.
  match goal with |- context [(Return ?L, ?l1) = _] => exists L, l1 end.
  unfold bind at 1, set_syncState at 1, modify at 1 in Hrun.
  unfold bind at 1, emit at 1, modify at 1 in Hrun.
  unfold bind at 1, request at 1 in Hrun. simpl in Hrun. simpl.
  destruct (getMyTimeEntries svc startDate endDate _) as [[timeEntries|e] w'].
  2:{ injection Hrun as <- <-. exists []. split; [reflexivity|]. by split. }
  set (taskMap := groupByTask _) in Hrun.
  unfold bind at 1 in Hrun.
  match type of Hrun with context [for_of taskMap _ ?s1] =>
    destruct (quiet_loop (SyncJs.taskStep svc) syncjs_taskStep taskMap s1)
      as (Hret & (evs & Ht & Hev) & _)
  end.
  destruct (for_of taskMap _ _) as [[[]|e] s2]; simpl in Hret, Ht; [|done].
  exists evs. split; [reflexivity|]. split; [exact Hev|].
  unfold saveSyncState in Hrun. unfold_monad. simpl in Hrun.
  destruct (writeFile svc (syncState s2) (world s2)) as [[[]|e] w0];
    injection Hrun as <- <-; simpl; by rewrite Ht.
Qed.

(** [sync.js], the first half of C1: no creation request for an entry that
    the loaded ledger keys. *)
Lemma syncjs_ledgered_entries_never_recreated startDate endDate w L l1 k :
  loadSyncState svc (init w) = (Return L, l1) ->
  is_Some (L !! k) ->
  forall taskGid minutes date,
    PostTimeEntry taskGid minutes date k
    ∉ trace (snd (SyncJs.syncTogglToAsana svc startDate endDate (init w))).
Proof.
  intros Hload Hk taskGid minutes date Hin.
  destruct (SyncJs.syncTogglToAsana svc startDate endDate (init w)) as [o s'] eqn:Hrun.
  apply syncjs_run_trace in Hrun as (L' & l1' & evs & Hload' & Hev & Ht).
  rewrite Hload in Hload'. injection Hload' as <- <-. simpl in Hin.
  assert (Hcases : PostTimeEntry taskGid minutes date k ∈ evs).
  { destruct (getMyTimeEntries svc startDate endDate (world l1)) as [[l|e] w'];
      rewrite Ht in Hin.
    - apply elem_of_cons in Hin as [? | Hin]; [done|].
      apply elem_of_cons in Hin as [? | Hin]; [done|].
      apply elem_of_app in Hin as [Hin | Hin]; [done|].
      by apply list_elem_of_singleton in Hin.
    - apply elem_of_cons in Hin as [? | Hin]; [done|].
      apply elem_of_cons in Hin as [? | Hin]; [done|]. by apply elem_of_nil in Hin. }
  rewrite Forall_forall in Hev. apply Hev in Hcases. simpl in Hcases.
  rewrite Hcases in Hk. by destruct Hk.
Qed.

Lemma syncjs_startMyRun startDate endDate s :
  SyncJs.syncTogglToAsana svc startDate endDate s
  = bind (startMyRun svc startDate endDate)
         (fun timeEntries =>
            bind (for_of (taskMap_of timeEntries) (SyncJs.taskStep svc))
                 (fun _ => bind (gets syncState) (saveSyncState svc))) s.
Proof.
  unfold SyncJs.syncTogglToAsana, startMyRun, bind.
  destruct (loadSyncState svc s) as [[L|e] s1]; [|done].
  destruct (set_syncState L s1) as [[[]|e] s2]; [|done].
  destruct (emit (SearchEntries startDate endDate) s2) as [[[]|e] s3]; [|done].
  by destruct (request (getMyTimeEntries svc startDate endDate) s3) as [[l|e] s4].
Qed.

(** [sync.js], C6 as amended, in a world that keeps a journal of the calls
    of [fs.writeFile]: a run that got its entries goes through the whole
    task loop without writing, then calls [writeFile] exactly once, with
    the ledger the loop left, and returns or throws as that call does; a
    run whose listing throws writes nothing. *)
Lemma syncjs_ledger_persisted_once (writes : World -> list Ledger) startDate endDate w :
  keeps_journal svc writes ->
  let run := SyncJs.syncTogglToAsana svc startDate endDate (init w) in
  match startMyRun svc startDate endDate (init w) with
  | (Return timeEntries, s2) =>
      let taskMap := taskMap_of timeEntries in
      let loop := snd (for_of taskMap (SyncJs.taskStep svc) s2) in
      let write := writeFile svc (syncState loop) (world loop) in
      fst (for_of taskMap (SyncJs.taskStep svc) s2) = Return tt
      /\ (forall before after,
            taskMap = before ++ after ->
            let sb := snd (for_of before (SyncJs.taskStep svc) s2) in
            for_of taskMap (SyncJs.taskStep svc) s2 = for_of after (SyncJs.taskStep svc) sb
            /\ writes (world sb) = writes w)
      /\ world (snd run) = snd write
      /\ writes (world (snd run)) = writes w ++ [syncState loop]
      /\ fst run = match fst write with Ok _ => Return tt | Failed e => Throw e end
  | (Throw e, s2) =>
      run = (Throw e, s2) /\ writes (world s2) = writes w
  end.
Proof.
  intros Hj run. subst run. rewrite syncjs_startMyRun.
  apply (run_writes_once svc writes Hj (startMyRun svc startDate endDate)
           (SyncJs.taskStep svc) (init w)).
  - by apply startMyRun_writes_nothing.
  - intros group. by apply syncjs_taskStep_writes_nothing.
  - intros group s0. apply syncjs_taskStep.
Qed.

End SyncJsFacts.

(** * Further properties of the script *)

(** ** Dates and minutes *)

(** [split("T")[0]] cuts the string at its first ["T"]: what it returns
    has no ["T"], and the rest of the string is empty or starts with one. *)
Theorem split_T_0_cuts_at_first_T (s : string) :
  exists rest,
    s = String.append (split_T_0 s) rest
    /\ (rest = EmptyString \/ exists r, rest = String "T"%char r)
    /\ forall c, In c (list_ascii_of_string (split_T_0 s)) -> c <> "T"%char.
Proof.
  induction s as [|c s (rest & Hs & Hrest & HnoT)]; simpl.
  - exists EmptyString. split; [done|]. split; [by left|]. intros c [].
  - destruct (Ascii.eqb_spec c "T"%char) as [-> | Hc].
    + exists (String "T"%char s). split; [done|]. split; [right; by eexists|].
      intros c [].
    + exists rest. split; [|split; [done|]].
      * change (String c s = String c (String.append (split_T_0 s) rest)).
        by rewrite <- Hs.
      *
      intros c' [<- | Hin]; [done | by apply HnoT].
Qed.

(** The date of an ISO timestamp: when the part before the first ["T"] is
    [date], [enteredOn] is [date], whatever follows. *)
Theorem enteredOn_is_the_date_part (entry : Entry) (date time : string) :
  start entry = String.append date (String "T"%char time) ->
  (forall c, In c (list_ascii_of_string date) -> c <> "T"%char) ->
  enteredOn entry = date.
Proof.
  unfold enteredOn. intros -> HnoT.
  induction date as [|c date IH].
  - reflexivity.
  - change (split_T_0 (String c (String.append date (String "T"%char time)))
            = String c date).
    simpl. destruct (Ascii.eqb_spec c "T"%char) as [-> | Hc].
    + exfalso. apply (HnoT "T"%char); [by left | done].
    + f_equal. apply IH. intros c' Hin. apply HnoT. by right.
Qed.

Lemma enteredOn_is_the_date_part_witness :
  enteredOn (sampleEntry 1 (number 60) undefined "2026-02-01T10:00:00Z" 501)
  = "2026-02-01"%string.
Proof.
  apply (enteredOn_is_the_date_part _ "2026-02-01" "10:00:00Z").
  - reflexivity.
  - intros c Hin. simpl in Hin.
    repeat (destruct Hin as [<- | Hin]; [discriminate|]). destruct Hin.
Defined.

(** The minutes grow with the seconds, are not negative for a duration
    that is not, and a whole number of minutes is kept as it is. *)
Theorem durationMinutes_monotone (e1 e2 : Entry) (n1 n2 : Z) :
  js_or (seconds e1) (duration e1) = number n1 ->
  js_or (seconds e2) (duration e2) = number n2 ->
  n1 <= n2 ->
  exists m1 m2,
    durationMinutes e1 = Fin (inject_Z m1)
    /\ durationMinutes e2 = Fin (inject_Z m2)
    /\ m1 <= m2
    /\ (0 <= n1 -> 0 <= m1)
    /\ (forall k, n1 = 60 * k -> m1 = k).
Proof.
  intros H1 H2 Hle. exists ((n1 + 30) / 60), ((n2 + 30) / 60).
  split; [by apply durationMinutes_number|]. split; [by apply durationMinutes_number|].
  split; [apply Z.div_le_mono; lia|]. split.
  - intros Hn. apply Z.div_pos; lia.
  - intros k ->. apply nearest_minute. lia.
Qed.

Lemma durationMinutes_monotone_witness :
  exists m1 m2,
    durationMinutes (sampleEntry 1 (number 120) undefined "2026-02-01T10:00:00Z" 501)
      = Fin (inject_Z m1)
    /\ durationMinutes (sampleEntry 2 undefined (number 200) "2026-02-01T10:00:00Z" 501)
      = Fin (inject_Z m2)
    /\ m1 <= m2
    /\ (0 <= 120 -> 0 <= m1)
    /\ (forall k, 120 = 60 * k -> m1 = k).
Proof.
  apply (durationMinutes_monotone
           (sampleEntry 1 (number 120) undefined "2026-02-01T10:00:00Z" 501)
           (sampleEntry 2 undefined (number 200) "2026-02-01T10:00:00Z" 501) 120 200);
    [reflexivity | reflexivity | lia].
Defined.

(** ** Doubles

    Where the exact quotient stands for the double that JavaScript
    computes. *)

(** [nearest_even a b] is within a half of [a / b]. *)
Lemma nearest_even_spec (a b : Z) :
  0 < b ->
  a / b <= nearest_even a b /\ 2 * b * nearest_even a b <= 2 * a + b
  /\ 2 * a - b <= 2 * b * nearest_even a b.
Proof.
  intros Hb. unfold nearest_even.
  pose proof (Z.div_mod a b ltac:(lia)) as Hdm.
  pose proof (Z.mod_pos_bound a b Hb) as Hm.
  set (f := a / b) in *. set (r := a mod b) in *.
  destruct (Z.compare_spec (2 * r) b) as [He | Hl | Hg]; [destruct (Z.even f)| |]; nia.
Qed.

(** [binade n d] is the binary exponent of [|n| / d]. *)
Lemma binade_spec (n d : Z) :
  0 < d -> n <> 0 ->
  let s := Z.log2 d + 1 in
  d * 2 ^ (binade n d + s) <= Z.abs n * 2 ^ s < d * 2 ^ (binade n d + s + 1).
Proof.
  intros Hd Hn s. unfold binade. fold s.
  pose proof (Z.log2_nonneg d) as Hlog.
  assert (Hs : d < 2 ^ s).
  { pose proof (Z.log2_spec d Hd) as [_ H]. unfold s. by rewrite <- Z.add_1_r in H. }
  set (x := Z.abs n * 2 ^ s / d).
  assert (Hx : 0 < x).
  { apply Z.div_str_pos. split; [lia|]. nia. }
  pose proof (Z.log2_spec x Hx) as [Hlo Hhi]. rewrite <- Z.add_1_r in Hhi.
  replace (Z.log2 x - s + s) with (Z.log2 x) by lia.
  pose proof (Z.mul_div_le (Z.abs n * 2 ^ s) d Hd) as Hle.
  pose proof (Z.mul_succ_div_gt (Z.abs n * 2 ^ s) d Hd) as Hgt.
  fold x in Hle, Hgt. split; nia.
Qed.

Lemma binade_60 (n : Z) : n <> 0 -> Z.abs n < 2 ^ 53 -> binade n 60 <= 47.
Proof.
  intros Hn Hb. unfold binade. change (Z.log2 60 + 1) with 6.
  assert (Hx : 0 < Z.abs n * 2 ^ 6 / 60).
  { apply Z.div_str_pos. lia. }
  assert (Hlt : Z.abs n * 2 ^ 6 / 60 < 2 ^ 54).
  { apply Z.div_lt_upper_bound; lia. }
  apply (Z.log2_lt_pow2 _ _ Hx) in Hlt. lia.
Qed.

Lemma Qfloor_plus_half (r k : Z) :
  0 < k -> Qfloor (inject_Z r / inject_Z k + (1 # 2))%Q = (2 * r + k) / (2 * k).
Proof.
  intros Hk. destruct k as [|p|p]; try lia.
  unfold Qfloor, Qplus, Qdiv, Qmult, Qinv, inject_Z. simpl. f_equal; lia.
Qed.

(** With five fractional bits or more to spare, the rounding of the
    quotient to a double does not cross a half-minute. *)
Lemma double_minutes (n k : Z) :
  5 <= k ->
  (2 * nearest_even (n * 2 ^ k) 60 + 2 ^ k) / (2 * 2 ^ k) = (n + 30) / 60.
Proof.
  intros Hk. set (m := (n + 30) / 60).
  pose proof (proj1 (nearest_minute n m) eq_refl) as Hm.
  replace k with (5 + (k - 5)) by lia. rewrite Z.pow_add_r by lia.
  set (J := 2 ^ (k - 5)). assert (HJ : 0 < J) by (apply Z.pow_pos_nonneg; lia).
  change (2 ^ 5) with 32.
  destruct (nearest_even_spec (n * (32 * J)) 60 ltac:(lia)) as (Hfloor & Hup & _).
  set (R := nearest_even (n * (32 * J)) 60) in *.
  assert (Hlow : 16 * J * (2 * m - 1) <= R).
  { etransitivity; [|exact Hfloor]. apply Z.div_le_lower_bound; nia. }
  symmetry. apply (Z.div_unique _ _ m (2 * R + 32 * J - 2 * (32 * J) * m)); nia.
Qed.

(** For a duration of [n] seconds, [n] an integer below 2^53 in size,
    [Math.round] gives the same minutes on the double [n / 60] as on the
    exact quotient, so that the minutes of the model are those of the
    script.  The bound cannot be dropped altogether: 60 * 2^49 + 28 is a
    double, its quotient by 60 rounds to the double 2^49 + 1/2, and
    [Math.round] then gives 2^49 + 1 where the exact quotient gives
    2^49. *)
Theorem double_quotient_rounds_alike (n : Z) :
  (Z.abs n < 2 ^ 53 ->
   Math_round (Fin (double_div n 60)) = Math_round (js_div (number n) 60))
  /\ Math_round (Fin (double_div (60 * 2 ^ 49 + 28) 60)) = Fin (inject_Z (2 ^ 49 + 1))
  /\ Math_round (js_div (number (60 * 2 ^ 49 + 28)) 60) = Fin (inject_Z (2 ^ 49)).
Proof.
  split; [|split; vm_compute; reflexivity].
  intros Hn. rewrite Math_round_div_60. unfold double_div.
  destruct (Z.eqb_spec n 0) as [-> | Hne]; [reflexivity|].
  pose proof (binade_60 n Hne Hn) as He.
  destruct (Z.leb_spec 0 (52 - binade n 60)) as [Hk | Hk]; [|lia].
  unfold Math_round. do 2 f_equal.
  rewrite Qfloor_plus_half by (apply Z.pow_pos_nonneg; lia).
  apply double_minutes. lia.
Qed.

Lemma double_quotient_rounds_alike_witness :
  Math_round (Fin (double_div 89 60)) = Math_round (js_div (number 89) 60).
Proof. apply (proj1 (double_quotient_rounds_alike 89)). reflexivity. Defined.

(** ** Flattening and grouping *)

(** [getWorkspaceTimeEntries] flattens the report: the flat list has one
    entry per leaf of the groups that have [time_entries], each carrying
    the leaf's own id, seconds, duration and start and the task, project,
    user, description and billable flag of its group; groups without
    [time_entries] contribute nothing. *)
Theorem flatten_one_entry_per_leaf (data : list Group) :
  length (flatten data)
  = list_sum (map (fun group => length (default [] (time_entries group))) data)
  /\ forall entry,
       entry ∈ flatten data
       <-> exists group leaves leaf,
             group ∈ data /\ time_entries group = Some leaves /\ leaf ∈ leaves
             /\ entry = mkEntry (leaf_id leaf) (leaf_seconds leaf) (leaf_duration leaf)
                                (leaf_start leaf) (g_task_id group) (g_project_id group)
                                (g_user_id group) (g_description group) (g_billable group).
Proof.
  split.
  - unfold flatten. induction data as [|g data IH]; [done|].
    simpl. rewrite length_app, IH. f_equal.
    unfold flattenGroup. destruct (time_entries g); simpl; [apply length_map | done].
  - intros entry. unfold flatten. rewrite list_elem_of_In, in_concat.
    setoid_rewrite <- list_elem_of_In. split.
    + intros (l & Hl & Hin). apply list_elem_of_fmap in Hl as (g & -> & Hg).
      unfold flattenGroup in Hin. destruct (time_entries g) as [leaves|] eqn:Hte.
      * apply list_elem_of_fmap in Hin as (leaf & -> & Hleaf). by exists g, leaves, leaf.
      * by apply elem_of_nil in Hin.
    + intros (g & leaves & leaf & Hg & Hte & Hleaf & ->).
      exists (flattenGroup g). split.
      * apply list_elem_of_fmap. by exists g.
      * unfold flattenGroup. rewrite Hte.
        apply list_elem_of_fmap. by exists leaf.
Qed.

Lemma entries_of_task_app (k : jsval) (l1 l2 : list Entry) :
  entries_of_task k (l1 ++ l2) = entries_of_task k l1 ++ entries_of_task k l2.
Proof. apply List.filter_app. Qed.

Lemma entries_of_task_nil_iff (k : jsval) (l : list Entry) :
  entries_of_task k l = [] <-> k ∉ map task_id l.
Proof.
  induction l as [|e l IH]; simpl.
  - split; [intros _ H; by apply elem_of_nil in H | done].
  - unfold entries_of_task in *. simpl. rewrite not_elem_of_cons.
    destruct (decide (task_id e = k)) as [Heq|Hne].
    + rewrite bool_decide_eq_true_2 by done. split; [done | intros [H _]; by subst].
    + rewrite bool_decide_eq_false_2 by done. rewrite IH. split; [by split; [intros -> |] | tauto].
Qed.

#[local] Set Warnings "-clear-no-such-hyp".

(** The task map after one more entry, given what it was. *)
Lemma taskMap_push_spec (l : list Entry) (acc : list (jsval * list Entry)) (entry : Entry) :
  NoDup (map fst acc) ->
  (forall k es, (k, es) ∈ acc <-> es = entries_of_task k l /\ es <> []) ->
  forall k es,
    (k, es) ∈ taskMap_push acc entry
    <-> es = entries_of_task k (l ++ [entry]) /\ es <> [].
Proof.
  intros Hnd Hacc.
  assert (Hkeys : forall k, k ∈ map fst acc <-> entries_of_task k l <> []).
  { intros k. split.
    - intros Hk. apply list_elem_of_fmap in Hk as ([k' es] & -> & Hin).
      apply Hacc in Hin as [-> Hne]. done.
    - intros Hne. apply list_elem_of_fmap. exists (k, entries_of_task k l).
      split; [done|]. by apply Hacc. }
  assert (Hpush : forall k es,
            (k, es) ∈ taskMap_push acc entry
            <-> (k <> task_id entry /\ (k, es) ∈ acc)
                \/ (k = task_id entry
                    /\ ((exists es0, (k, es0) ∈ acc /\ es = es0 ++ [entry])
                        \/ ((k ∉ map fst acc) /\ es = [entry])))).
  { clear Hacc Hkeys. induction acc as [|[k0 es0] acc IH]; intros k es.
    - simpl. rewrite list_elem_of_singleton. split.
      + intros [= -> ->]. right. split; [done|]. right. split; [|done].
        intros H. by apply elem_of_nil in H.
      + intros [[_ H] | [-> [(es0 & H & _) | [_ ->]]]]; try by apply elem_of_nil in H.
        done.
    - simpl in Hnd. apply NoDup_cons in Hnd as [Hk0 Hnd]. specialize (IH Hnd).
      assert (Hfresh : forall es', (k0, es') ∉ acc).
      { intros es' Hin. apply Hk0, list_elem_of_fmap. by exists (k0, es'). }
      simpl. destruct (decide (k0 = task_id entry)) as [-> | Hne].
      + repeat setoid_rewrite elem_of_cons.
        destruct (decide (k = task_id entry)) as [-> | Hk]; naive_solver.
      + rewrite elem_of_cons, IH. repeat setoid_rewrite elem_of_cons.
        destruct (decide (k = task_id entry)) as [-> | Hk]; naive_solver. }
  intros k es. rewrite Hpush, entries_of_task_app.
  unfold entries_of_task at 2. simpl.
  destruct (decide (task_id entry = k)) as [<- | Hne].
  - rewrite bool_decide_eq_true_2 by done. split.
    + intros [[Hk _] | [_ [(es0 & Hin & ->) | [Hnin ->]]]]; [done | |].
      * apply Hacc in Hin as [-> _]. split; [done|]. by intros [_ ?]%app_eq_nil.
      * apply (not_iff_compat (Hkeys _)) in Hnin. apply dec_stable in Hnin.
        rewrite Hnin. done.
    + intros [-> _]. right. split; [done|].
      destruct (entries_of_task (task_id entry) l) as [|e0 l0] eqn:Hl.
      * right. split; [|done]. apply (not_iff_compat (Hkeys _)). rewrite Hl. tauto.
      * left. exists (e0 :: l0). split; [|done]. apply Hacc. by rewrite Hl.
  - rewrite bool_decide_eq_false_2 by done. rewrite app_nil_r. split.
    + intros [[_ Hin] | [-> _]]; [by apply Hacc | done].
    + intros H. left. split; [by intros -> | by apply Hacc].
Qed.

(** What the task map holds, key by key. *)
Lemma groupByTask_spec (l : list Entry) :
  NoDup (map fst (groupByTask l))
  /\ (forall k es, (k, es) ∈ groupByTask l <-> es = entries_of_task k l /\ es <> [])
  /\ (forall k, k ∈ map fst (groupByTask l) <-> k ∈ map task_id l).
Proof.
  assert (Hspec : forall k es,
            (k, es) ∈ groupByTask l <-> es = entries_of_task k l /\ es <> []).
  { induction l as [|entry l IH] using rev_ind.
    - intros k es. simpl. split; [intros H; by apply elem_of_nil in H | by intros [-> ?]].
    - intros k es. unfold groupByTask. rewrite fold_left_app. simpl.
      apply taskMap_push_spec; [apply groupByTask_NoDup | exact IH]. }
  split; [apply groupByTask_NoDup|]. split; [exact Hspec|].
  intros k. split.
  - intros Hk. apply list_elem_of_fmap in Hk as ([k' es] & -> & Hin).
    apply Hspec in Hin as [-> Hne]. simpl.
    destruct (decide (k' ∈ map task_id l)) as [|Hnin]; [done|].
    by apply entries_of_task_nil_iff in Hnin.
  - intros Hk. apply list_elem_of_fmap. exists (k, entries_of_task k l).
    split; [done|]. apply Hspec. split; [done|].
    intros Hnil. by apply entries_of_task_nil_iff in Hnil.
Qed.

(** The grouping: the task map has one group per task id present among
    the entries, with distinct keys; the group of a task holds exactly the
    entries of that task, in the order they were listed, and is never
    empty; so every entry is in the group of its task and in no other. *)
Theorem groupByTask_partitions (l : list Entry) :
  NoDup (map fst (groupByTask l))
  /\ (forall k es, (k, es) ∈ groupByTask l <-> es = entries_of_task k l /\ es <> [])
  /\ (forall k, k ∈ map fst (groupByTask l) <-> k ∈ map task_id l)
  /\ (forall entry k es,
        entry ∈ l -> (k, es) ∈ groupByTask l -> (entry ∈ es <-> k = task_id entry)).
Proof.
  destruct (groupByTask_spec l) as (Hnd & Hspec & Hkeys).
  split; [done|]. split; [done|]. split; [done|].
  intros entry k es He Hin. apply Hspec in Hin as [-> _].
  unfold entries_of_task. rewrite list_elem_of_In, List.filter_In, bool_decide_eq_true.
  rewrite <- list_elem_of_In. split; [by intros [_ ->] | by intros ->].
Qed.

(** ** One iteration, event by event *)

Section IterationShape.
Context {World : Type} (svc : Services World).

Implicit Types (s : St World) (entry : Entry) (ev : Event) (group : jsval * list Entry).

Lemma errors_posts taskGid (l : list Entry) : errors (map (post_event taskGid) l) = [].
Proof. induction l as [|e l IH]; [done | exact IH]. Qed.

Lemma resolutions_app (t1 t2 : list Event) :
  resolutions (t1 ++ t2) = resolutions t1 ++ resolutions t2.
Proof. apply List.filter_app. Qed.

Lemma resolutions_posts taskGid (l : list Entry) :
  resolutions (map (post_event taskGid) l) = [].
Proof. induction l as [|e l IH]; [done | exact IH]. Qed.

Lemma fetches_app (t1 t2 : list Event) : fetches (t1 ++ t2) = fetches t1 ++ fetches t2.
Proof. apply omap_app. Qed.

Lemma fetches_posts taskGid (l : list Entry) : fetches (map (post_event taskGid) l) = [].
Proof. induction l as [|e l IH]; [done | exact IH]. Qed.

(** Resolution adds the group's lookup to the trace, or nothing on a
    cache hit and on an empty group. *)
Lemma resolveTask_events group s :
  let s1 := snd (resolveTask svc (fst group) (snd group) s) in
  exists evs1,
    trace s1 = trace s ++ evs1
    /\ (evs1 = [] \/ evs1 = [resolution_of group])
    /\ (togglTaskCache s !! fst group = None -> snd group <> [] ->
        evs1 = [resolution_of group]).
Proof.
  destruct group as [k entries]. simpl.
  destruct (togglTaskCache s !! k) as [t|] eqn:Hc.
  - rewrite (resolveTask_hit svc _ _ _ _ Hc). exists []. simpl.
    rewrite app_nil_r. split; [done|]. split; [by left | done].
  - destruct entries as [|first rest].
    + unfold resolveTask. unfold_monad. rewrite Hc. exists []. simpl.
      rewrite app_nil_r. split; [done|]. split; [by left | done].
    + rewrite (resolveTask_miss svc _ _ _ _ Hc). exists [GetTask (project_id first) k].
      destruct (getTask svc (project_id first) k (world s)) as [[t|e] w]; simpl;
        (split; [done|]); (split; [by right | done]).
Qed.

(** The detector adds its request, and its warning when the request
    fails, only when the Asana task is not in the cache yet, and puts its
    answer in the cache. *)
Lemma getAsanaTimeEntries_events taskGid s existing s2 :
  getAsanaTimeEntries svc taskGid s = (Return existing, s2) ->
  exists evs2,
    trace s2 = trace s ++ evs2
    /\ ((evs2 = [] /\ asanaTaskCache s2 = asanaTaskCache s)
        \/ (asanaTaskCache s !! taskGid = None
            /\ (evs2 = [GetTimeEntries taskGid]
                \/ evs2 = [GetTimeEntries taskGid; WarnFetch taskGid])
            /\ asanaTaskCache s2 = <[taskGid := existing]> (asanaTaskCache s)))
    /\ asanaTaskCache s2 !! taskGid = Some existing.
Proof.
  intros Hdet. destruct (asanaTaskCache s !! taskGid) as [cached|] eqn:Hc.
  - rewrite (getAsanaTimeEntries_hit svc _ _ _ Hc) in Hdet. injection Hdet as <- <-.
    exists []. rewrite app_nil_r. split; [done|]. split; [by left | done].
  - rewrite (getAsanaTimeEntries_miss svc _ _ Hc) in Hdet.
    destruct (getTimeTrackingEntries svc taskGid (world s)) as [[data|e] w];
      injection Hdet as <- <-; simpl.
    + exists [GetTimeEntries taskGid]. split; [done|]. rewrite lookup_insert_eq.
      split; [right; split; [done|]; split; [by left | done] | done].
    + exists [GetTimeEntries taskGid; WarnFetch taskGid]. rewrite <- app_assoc.
      split; [done|]. rewrite lookup_insert_eq.
      split; [right; split; [done|]; split; [by right | done] | done].
Qed.

(** Every iteration of the task loop, laid out: what resolution added to
    the trace, what the detector added, the creation requests of the
    entries that went through the send loop, and the tail left by a
    failure; with what became of the ledger, of the Asana cache and of the
    counters. *)
Lemma iteration_normal_form group s s' :
  task_outcome svc group s s' ->
  exists evs1 evs2 taskGid existing done extra,
    trace s' = trace s ++ evs1 ++ evs2
                       ++ map (post_event taskGid) (unmatched existing done) ++ extra
    /\ (evs1 = [] \/ evs1 = [resolution_of group])
    /\ (togglTaskCache s !! fst group = None -> snd group <> [] ->
        evs1 = [resolution_of group])
    /\ ((evs2 = [] /\ asanaTaskCache s' = asanaTaskCache s)
        \/ (asanaTaskCache s !! taskGid = None
            /\ (evs2 = [GetTimeEntries taskGid]
                \/ evs2 = [GetTimeEntries taskGid; WarnFetch taskGid])
            /\ asanaTaskCache s' = <[taskGid := existing]> (asanaTaskCache s)))
    /\ (forall entry, entry ∈ done -> entry ∈ entriesToSync_of (syncState s) (snd group))
    /\ (forall k, k ∉ map id done -> syncState s' !! k = syncState s !! k)
    /\ (extra = [] \/ extra = [TaskError (fst group)]
        \/ exists failed,
             failed ∈ entriesToSync_of (syncState s) (snd group)
             /\ extra = [post_event taskGid failed; TaskError (fst group)])
    /\ tasks_accounted s' = S (tasks_accounted s).
Proof.
  intros Hout.
  destruct (resolveTask_events group s) as (evs1 & Ht1 & Hshape1 & Hmiss1).
  pose proof (resolveTask_frame svc (fst group) (snd group) s) as Hres. cbv zeta in Hres.
  assert (Herr1 : errors evs1 = []) by (by destruct Hshape1 as [-> | ->]).
  destruct Hout as [e s1 Hr -> _ | t s1 Hr Hp -> _ | t s1 Hr Hp Hf -> _ |
                    t s1 existing s2 s3 Hr Hp Hf Hdet Hloop -> _ |
                    t s1 existing s2 e s3 Hr Hp Hf Hdet Hloop -> _];
    rewrite Hr in Hres, Ht1; simpl in Hres, Ht1;
    destruct Hres as (_ & Hl1 & Hc1 & Hn1 & Hn2 & Hn3).
  - exists evs1, [], EmptyString, [], [], [TaskError (fst group)]. simpl.
    rewrite Ht1, <- app_assoc. split; [done|]. split; [done|]. split; [done|].
    split; [by left|]. split; [intros ? H; by apply elem_of_nil in H|].
    split; [intros k _; by rewrite Hl1|]. split; [right; by left|].
    unfold tasks_accounted. simpl. rewrite ?Ht1, !errors_app, Herr1, !length_app. simpl. lia.
  - exists evs1, [], EmptyString, [], [], []. simpl.
    rewrite Ht1, app_nil_r. split; [done|]. split; [done|]. split; [done|].
    split; [by left|]. split; [intros ? H; by apply elem_of_nil in H|].
    split; [intros k _; by rewrite Hl1|]. split; [by left|].
    unfold tasks_accounted. simpl. rewrite ?Ht1, !errors_app, Herr1, !length_app. simpl. lia.
  - exists evs1, [], EmptyString, [], [], []. simpl.
    rewrite Ht1, app_nil_r. split; [done|]. split; [done|]. split; [done|].
    split; [by left|]. split; [intros ? H; by apply elem_of_nil in H|].
    split; [intros k _; by rewrite Hl1|]. split; [by left|].
    unfold tasks_accounted. simpl. rewrite ?Ht1, !errors_app, Herr1, !length_app. simpl. lia.
  - destruct (getAsanaTimeEntries_events _ _ _ _ Hdet) as (evs2 & Ht2 & Hshape2 & _).
    destruct (getAsanaTimeEntries_frame svc (integration_ext_id t) s1)
      as (ex' & s2' & _ & Hdet' & _ & _ & Hl2 & _ & _ & Hm1 & Hm2 & Hm3).
    rewrite Hdet in Hdet'. injection Hdet' as <- <-.
    pose proof (send_loop svc (integration_ext_id t) existing
                  (entriesToSync_of (syncState s1) (snd group)) s2) as Hsend.
    rewrite Hloop in Hsend.
    destruct Hsend as (Ht3 & Hk & _ & _ & Hc3 & Hk1 & Hk2 & Hk3).
    assert (Herr2 : errors evs2 = []).
    { destruct Hshape2 as [[-> _] | (_ & [-> | ->] & _)]; done. }
    exists evs1, evs2, (integration_ext_id t), existing,
           (entriesToSync_of (syncState s1) (snd group)), [].
    simpl. rewrite Ht3, Ht2, Ht1, <- !app_assoc. split; [done|].
    split; [done|]. split; [done|]. split.
    { rewrite Hc3, <- Hc1. destruct Hshape2 as [[-> He] | (Hn & Hs & He)]; [left | right];
        by rewrite He. }
    split; [intros entry; by rewrite Hl1|].
    split; [intros k Hk'; by rewrite Hk, Hl2, Hl1|]. split; [by left|].
    unfold tasks_accounted. simpl. rewrite ?Ht3, ?Ht2, ?Ht1, !errors_app, !length_app.
    rewrite Herr1, Herr2, errors_posts. simpl. lia.
  - destruct (getAsanaTimeEntries_events _ _ _ _ Hdet) as (evs2 & Ht2 & Hshape2 & _).
    destruct (getAsanaTimeEntries_frame svc (integration_ext_id t) s1)
      as (ex' & s2' & _ & Hdet' & _ & _ & Hl2 & _ & _ & Hm1 & Hm2 & Hm3).
    rewrite Hdet in Hdet'. injection Hdet' as <- <-.
    pose proof (send_loop svc (integration_ext_id t) existing
                  (entriesToSync_of (syncState s1) (snd group)) s2) as Hsend.
    rewrite Hloop in Hsend.
    destruct Hsend as (done & failed & rest & Hsplit & _ &
                       Ht3 & Hk & _ & _ & Hc3 & Hk1 & Hk2 & Hk3).
    assert (Herr2 : errors evs2 = []).
    { destruct Hshape2 as [[-> _] | (_ & [-> | ->] & _)]; done. }
    exists evs1, evs2, (integration_ext_id t), existing, done,
           [post_event (integration_ext_id t) failed; TaskError (fst group)].
    simpl. rewrite Ht3, Ht2, Ht1, <- !app_assoc. split; [done|].
    split; [done|]. split; [done|]. split.
    { rewrite Hc3, <- Hc1. destruct Hshape2 as [[-> He] | (Hn & Hs & He)]; [left | right];
        by rewrite He. }
    split.
    { intros entry He. rewrite <- Hl1, Hsplit. apply elem_of_app. by left. }
    split; [intros k Hk'; by rewrite Hk, Hl2, Hl1|]. split.
    { right. right. exists failed. split; [|done].
      rewrite <- Hl1, Hsplit. apply elem_of_app. right. by left. }
    unfold tasks_accounted. simpl. rewrite ?Ht3, ?Ht2, ?Ht1, !errors_app, !length_app.
    rewrite Herr1, Herr2, errors_posts. simpl. lia.
Qed.

End IterationShape.

(** ** The task loop, group after group *)

Section LoopFacts.
Context {World : Type} (svc : Services World).

Implicit Types (s : St World) (entry : Entry) (ev : Event) (group : jsval * list Entry).

(** Induction over the task loop: a relation between the groups, the state
    before and the state after holds of the loop when it holds of no group
    at all and goes through one more iteration in front. *)
Lemma task_loop_ind (P : list (jsval * list Entry) -> St World -> St World -> Prop) :
  (forall s, P [] s s) ->
  (forall group rest s s1 s',
     task_outcome svc group s s1 -> P rest s1 s' -> P (group :: rest) s s') ->
  forall taskMap s, P taskMap s (snd (for_of taskMap (taskStep svc) s)).
Proof.
  intros Hnil Hcons. induction taskMap as [|g taskMap IH]; intros s; [apply Hnil|].
  rewrite for_of_cons. destruct (taskStep_outcome svc g s) as (s1 & -> & Hout).
  eapply Hcons; [exact Hout | apply IH].
Qed.

(** The lookups of the loop: one per group, in order, when the keys are
    distinct, none of them is cached and no group is empty. *)
Lemma task_loop_resolutions (taskMap : list (jsval * list Entry)) s :
  NoDup (map fst taskMap) ->
  (forall k, k ∈ map fst taskMap -> togglTaskCache s !! k = None) ->
  (forall group, group ∈ taskMap -> snd group <> []) ->
  resolutions (trace (snd (for_of taskMap (taskStep svc) s)))
  = resolutions (trace s) ++ map resolution_of taskMap.
Proof.
  revert taskMap s.
  apply (task_loop_ind (fun taskMap s s' =>
           NoDup (map fst taskMap) ->
           (forall k, k ∈ map fst taskMap -> togglTaskCache s !! k = None) ->
           (forall group, group ∈ taskMap -> snd group <> []) ->
           resolutions (trace s') = resolutions (trace s) ++ map resolution_of taskMap)).
  - intros s _ _ _. simpl. by rewrite app_nil_r.
  - intros g rest s s1 s' Hout IH Hnd Hmiss Hne.
    simpl in Hnd. apply NoDup_cons in Hnd as [Hg Hnd].
    rewrite IH; [|done| |].
    + destruct (iteration_normal_form svc g s s1 Hout)
        as (evs1 & evs2 & gid & ex & done & extra & Ht & _ & Hres & Hdet & _ & _ & Hextra & _).
      rewrite Ht, !resolutions_app, resolutions_posts.
      rewrite (Hres (Hmiss _ ltac:(by left)) (Hne _ ltac:(by left))).
      assert (resolutions evs2 = []) as ->.
      { destruct Hdet as [[-> _] | (_ & [-> | ->] & _)]; done. }
      assert (resolutions extra = []) as ->.
      { destruct Hextra as [-> | [-> | (failed & _ & ->)]]; done. }
      simpl. by rewrite <- app_assoc.
    + intros k Hk. rewrite (task_outcome_cache svc g s s1 k Hout).
      * apply Hmiss. by right.
      * intros ->. done.
    + intros group Hin. apply Hne. by right.
Qed.

(** Every iteration is accounted for once, by a counter or by an error. *)
Lemma task_loop_accounted (taskMap : list (jsval * list Entry)) s :
  tasks_accounted (snd (for_of taskMap (taskStep svc) s))
  = (length taskMap + tasks_accounted s)%nat.
Proof.
  revert taskMap s.
  apply (task_loop_ind (fun taskMap s s' =>
           tasks_accounted s' = (length taskMap + tasks_accounted s)%nat)).
  - done.
  - intros g rest s s1 s' Hout IH.
    destruct (iteration_normal_form svc g s s1 Hout)
      as (? & ? & ? & ? & ? & ? & _ & _ & _ & _ & _ & _ & _ & Hacc).
    rewrite IH, Hacc. simpl. lia.
Qed.

(** No record that is in the ledger is removed or replaced. *)
Lemma task_loop_keeps_records (taskMap : list (jsval * list Entry)) s k r :
  syncState s !! k = Some r ->
  syncState (snd (for_of taskMap (taskStep svc) s)) !! k = Some r.
Proof.
  revert taskMap s.
  apply (task_loop_ind (fun taskMap s s' =>
           syncState s !! k = Some r -> syncState s' !! k = Some r)).
  - done.
  - intros g rest s s1 s' Hout IH Hk. apply IH.
    destruct (iteration_normal_form svc g s s1 Hout)
      as (? & ? & ? & ? & done & ? & _ & _ & _ & _ & Hdone & Hsame & _).
    rewrite Hsame; [done|]. intros Hin.
    apply list_elem_of_fmap in Hin as (e & -> & He).
    apply Hdone, entriesToSync_elem in He as [_ He]. congruence.
Qed.

(** The creation requests of the loop are made for entries of the groups. *)
Lemma task_loop_posts (taskMap : list (jsval * list Entry)) s ev :
  ev ∈ creation_calls (trace (snd (for_of taskMap (taskStep svc) s))) ->
  ev ∈ creation_calls (trace s)
  \/ exists group entry taskGid,
       group ∈ taskMap /\ entry ∈ snd group /\ ev = post_event taskGid entry.
Proof.
  revert taskMap s.
  apply (task_loop_ind (fun taskMap s s' =>
           ev ∈ creation_calls (trace s') ->
           ev ∈ creation_calls (trace s)
           \/ exists group entry taskGid,
                group ∈ taskMap /\ entry ∈ snd group /\ ev = post_event taskGid entry)).
  - intros s H. by left.
  - intros g rest s s1 s' Hout IH Hev.
    destruct (IH Hev) as [Hin | (group & entry & gid & Hg & He & ->)].
    2:{ right. exists group, entry, gid. split; [by right | done]. }
    destruct (iteration_normal_form svc g s s1 Hout)
      as (evs1 & evs2 & gid & ex & done & extra & Ht & Hs1 & _ & Hdet & Hdone & _ & Hextra & _).
    rewrite Ht, !creation_calls_app, creation_calls_posts in Hin.
    assert (creation_calls evs1 = []) as Hn1 by (by destruct Hs1 as [-> | ->]).
    assert (creation_calls evs2 = []) as Hn2.
    { destruct Hdet as [[-> _] | (_ & [-> | ->] & _)]; done. }
    rewrite Hn1, Hn2 in Hin. simpl in Hin.
    apply elem_of_app in Hin as [Hin | Hin]; [by left|]. right.
    apply elem_of_app in Hin as [Hin | Hin].
    + apply list_elem_of_fmap in Hin as (e & -> & He).
      apply unmatched_elem in He as [He _]. apply Hdone, entriesToSync_elem in He as [He _].
      exists g, e, gid. split; [by left | done].
    + destruct Hextra as [-> | [-> | (failed & Hf & ->)]];
        try (by apply elem_of_nil in Hin).
      apply entriesToSync_elem in Hf as [Hf _].
      apply list_elem_of_singleton in Hin as ->.
      exists g, failed, gid. split; [by left | done].
Qed.

(** Asana is asked for the entries of a task at most once, the answer
    staying in the cache. *)
Lemma task_loop_fetched_once (taskMap : list (jsval * list Entry)) s :
  fetched_once s -> fetched_once (snd (for_of taskMap (taskStep svc) s)).
Proof.
  revert taskMap s.
  apply (task_loop_ind (fun taskMap s s' => fetched_once s -> fetched_once s')).
  - done.
  - intros g rest s s1 s' Hout IH [Hnd Hcached]. apply IH.
    destruct (iteration_normal_form svc g s s1 Hout)
      as (evs1 & evs2 & gid & ex & done & extra & Ht & Hs1 & _ & Hdet & _ & _ & Hextra & _).
    assert (fetches evs1 = []) as Hn1 by (by destruct Hs1 as [-> | ->]).
    assert (fetches extra = []) as Hn3.
    { destruct Hextra as [-> | [-> | (failed & _ & ->)]]; done. }
    unfold fetched_once. rewrite Ht, !fetches_app, fetches_posts, Hn1, Hn3. simpl.
    rewrite app_nil_r.
    destruct Hdet as [[-> Hc] | (Hmiss & Hshape & Hc)].
    + simpl. rewrite app_nil_r, Hc. done.
    + assert (fetches evs2 = [gid]) as -> by (by destruct Hshape as [-> | ->]).
      rewrite Hc. split.
      * apply NoDup_app. split; [done|]. split; [|apply NoDup_singleton].
        intros g' Hg' Heq. apply list_elem_of_singleton in Heq as ->.
        apply Hcached in Hg'. rewrite Hmiss in Hg'. by destruct Hg'.
      * intros g' Hg'. apply elem_of_app in Hg' as [Hg' | Hg'].
        -- destruct (decide (gid = g')) as [-> | Hne];
             [rewrite lookup_insert_eq; by eexists | rewrite lookup_insert_ne by done].
           by apply Hcached.
        -- apply list_elem_of_singleton in Hg' as ->. rewrite lookup_insert_eq. by eexists.
Qed.

End LoopFacts.

(** ** Records and the requests behind them *)

Section Justified.
Context {World : Type} (svc : Services World).

Implicit Types (s : St World) (entry : Entry) (ev : Event) (group : jsval * list Entry).





End Justified.

(** ** Further properties of a whole run *)

Section RunFacts.
Context {World : Type} (svc : Services World).

Implicit Types (s : St World) (entry : Entry) (ev : Event) (group : jsval * list Entry).

(** Once the entries are listed, the run is [processEntries]. *)
Lemma run_after_listing startDate endDate w timeEntries s2 :
  startRun svc startDate endDate (init w) = (Return timeEntries, s2) ->
  syncTogglToAsana svc startDate endDate (init w) = processEntries svc timeEntries s2
  /\ trace s2 = [ReadLedger; SearchEntries startDate endDate]
  /\ togglTaskCache s2 = ∅ /\ asanaTaskCache s2 = ∅
  /\ tasks_accounted s2 = 0%nat.
Proof.
  intros Hstart. pose proof (startRun_spec svc startDate endDate w) as Hspec.
  cbv zeta in Hspec. rewrite Hstart in Hspec. simpl in Hspec.
  destruct Hspec as (Ht & _ & Hc1 & Hc2 & Hn1 & Hn2 & Hn3).
  split; [rewrite syncTogglToAsana_startRun; unfold bind; by rewrite Hstart|].
  split; [done|]. split; [done|]. split; [done|].
  unfold tasks_accounted. by rewrite Hn1, Hn2, Hn3, Ht.
Qed.

Lemma taskMap_of_groups (timeEntries : list Entry) group :
  group ∈ taskMap_of timeEntries ->
  snd group <> []
  /\ forall entry, entry ∈ snd group ->
                   entry ∈ timeEntries /\ truthy (task_id entry) = true
                   /\ task_id entry = fst group.
Proof.
  destruct group as [k es]. unfold taskMap_of. intros Hin.
  apply groupByTask_spec in Hin as [-> Hne]. split; [done|].
  intros entry He. simpl in He. unfold entries_of_task in He.
  apply list_elem_of_In, List.filter_In in He as [He Hk].
  apply List.filter_In in He as [He Ht]. apply bool_decide_eq_true in Hk.
  by rewrite <- list_elem_of_In in He.
Qed.

(** Toggl is asked for the detail of each task exactly once per run: the
    lookups of a run that got its entries are one per distinct task id
    among the entries that have one, in the order the tasks first appear,
    each under the project of the task's first entry. *)
Theorem one_lookup_per_task startDate endDate w timeEntries s2 :
  startRun svc startDate endDate (init w) = (Return timeEntries, s2) ->
  let s' := snd (syncTogglToAsana svc startDate endDate (init w)) in
  resolutions (trace s') = map resolution_of (taskMap_of timeEntries)
  /\ NoDup (map fst (taskMap_of timeEntries))
  /\ forall k, k ∈ map fst (taskMap_of timeEntries)
               <-> exists entry, entry ∈ timeEntries
                                 /\ truthy (task_id entry) = true /\ task_id entry = k.
Proof.
  intros Hstart s'. destruct (run_after_listing _ _ _ _ _ Hstart) as (Hrun & Ht2 & Hc & _).
  destruct (processEntries_spec svc timeEntries s2) as (Ht & _).
  split; [|split].
  - subst s'. rewrite Hrun, Ht, resolutions_app, task_loop_resolutions.
    + by rewrite Ht2, app_nil_r.
    + apply groupByTask_NoDup.
    + intros k _. by rewrite Hc.
    + intros group Hin. by apply taskMap_of_groups in Hin as [? _].
  - apply groupByTask_NoDup.
  - intros k. unfold taskMap_of.
    rewrite (proj2 (proj2 (groupByTask_spec _)) k). split.
    + intros Hk. apply list_elem_of_fmap in Hk as (e & -> & He).
      apply list_elem_of_In, List.filter_In in He as [He Ht'].
      exists e. by rewrite list_elem_of_In.
    + intros (e & He & Ht' & <-). apply list_elem_of_fmap. exists e. split; [done|].
      apply list_elem_of_In, List.filter_In. by rewrite <- list_elem_of_In.
Qed.

(** The summary adds up: at the end of a run that got its entries, the
    three counters and the number of logged task errors together are the
    number of task groups. *)
Theorem summary_accounts_for_every_task startDate endDate w timeEntries s2 :
  startRun svc startDate endDate (init w) = (Return timeEntries, s2) ->
  let s' := snd (syncTogglToAsana svc startDate endDate (init w)) in
  (synced s' + skipped s' + alreadySynced s' + length (errors (trace s')))%nat
  = length (taskMap_of timeEntries).
Proof.
  intros Hstart s'. destruct (run_after_listing _ _ _ _ _ Hstart) as (Hrun & _ & _ & _ & H0).
  destruct (processEntries_spec svc timeEntries s2) as (Ht & _ & Hn1 & Hn2 & Hn3).
  pose proof (task_loop_accounted svc (taskMap_of timeEntries) s2) as Hacc.
  subst s'. rewrite Hrun, Ht, Hn1, Hn2, Hn3, errors_app. simpl. rewrite app_nil_r.
  unfold tasks_accounted in Hacc at 1. rewrite Hacc, H0. lia.
Qed.

(** A run never removes or replaces a record of the ledger it loaded:
    every loaded record is in the ledger at the end of the run, and in the
    ledger the run writes, as it was. *)
Theorem loaded_records_survive startDate endDate w L l1 k r :
  loadSyncState svc (init w) = (Return L, l1) ->
  L !! k = Some r ->
  let s' := snd (syncTogglToAsana svc startDate endDate (init w)) in
  syncState s' !! k = Some r
  /\ forall L', WriteLedger L' ∈ trace s' -> L' !! k = Some r.
Proof.
  intros Hload Hk s'.
  pose proof (startRun_spec svc startDate endDate w) as Hspec. cbv zeta in Hspec.
  destruct (startRun svc startDate endDate (init w)) as [[timeEntries|e] s2] eqn:Hstart;
    simpl in Hspec; destruct Hspec as (Ht2 & Hload' & _);
    rewrite Hload in Hload'; assert (HL : L = syncState s2) by congruence.
  - destruct (run_trace svc startDate endDate w timeEntries s2 Hstart)
      as (Ht & Hl & (evs & Hevs & HF) & _).
    assert (Hfinal : syncState s' !! k = Some r).
    { subst s'. rewrite Hl. apply task_loop_keeps_records. by rewrite <- HL. }
    split; [exact Hfinal|]. intros L' Hin. subst s'. rewrite Ht in Hin.
    apply elem_of_app in Hin as [Hin | Hin].
    + exfalso. rewrite Hevs in Hin. apply elem_of_app in Hin as [Hin | Hin].
      * apply elem_of_cons in Hin as [? | Hin]; [done|].
        apply elem_of_cons in Hin as [? | Hin]; [done|]. by apply elem_of_nil in Hin.
      * rewrite Forall_forall in HF. by apply HF in Hin.
    + apply list_elem_of_singleton in Hin. injection Hin as ->. by rewrite <- Hl.
  - destruct (fatal_listing svc startDate endDate w e s2 Hstart) as (Hrun & _).
    subst s'. rewrite Hrun. simpl. split; [by rewrite <- HL|].
    intros L' Hin. rewrite Ht2 in Hin.
    apply elem_of_cons in Hin as [? | Hin]; [done|].
    apply elem_of_cons in Hin as [? | Hin]; [done|]. by apply elem_of_nil in Hin.
Qed.

(** Every creation request of a run is made for a listed entry that has a
    task, with that entry's rounded minutes and date; entries without a
    task are never sent. *)
Theorem creation_requests_are_for_listed_entries startDate endDate w timeEntries s2 ev :
  startRun svc startDate endDate (init w) = (Return timeEntries, s2) ->
  ev ∈ creation_calls (trace (snd (syncTogglToAsana svc startDate endDate (init w)))) ->
  exists entry taskGid,
    entry ∈ timeEntries
    /\ truthy (task_id entry) = true
    /\ ev = PostTimeEntry taskGid (durationMinutes entry) (enteredOn entry) (id entry).
Proof.
  intros Hstart Hev. destruct (run_after_listing _ _ _ _ _ Hstart) as (Hrun & Ht2 & _).
  destruct (processEntries_spec svc timeEntries s2) as (Ht & _).
  rewrite Hrun, Ht, creation_calls_app in Hev. simpl in Hev. rewrite app_nil_r in Hev.
  apply task_loop_posts in Hev as [Hev | (group & entry & gid & Hg & He & ->)].
  - rewrite Ht2 in Hev. by apply elem_of_nil in Hev.
  - apply taskMap_of_groups in Hg as [_ Hg]. destruct (Hg entry He) as (Hin & Htask & _).
    by exists entry, gid.
Qed.


(** In one run Asana is asked for the existing entries of a task at most
    once, however many Toggl tasks are linked to it. *)
Theorem asana_asked_once_per_task startDate endDate w :
  NoDup (fetches (trace (snd (syncTogglToAsana svc startDate endDate (init w))))).
Proof.
  pose proof (startRun_spec svc startDate endDate w) as Hspec. cbv zeta in Hspec.
  destruct (startRun svc startDate endDate (init w)) as [[timeEntries|e] s2] eqn:Hstart;
    simpl in Hspec; destruct Hspec as (Ht2 & _).
  - destruct (run_after_listing _ _ _ _ _ Hstart) as (Hrun & _).
    destruct (processEntries_spec svc timeEntries s2) as (Ht & _).
    rewrite Hrun, Ht, fetches_app. simpl. rewrite app_nil_r.
    apply (task_loop_fetched_once svc (taskMap_of timeEntries) s2).
    unfold fetched_once. rewrite Ht2. simpl. split; [constructor|].
    intros g Hg. by apply elem_of_nil in Hg.
  - destruct (fatal_listing svc startDate endDate w e s2 Hstart) as (Hrun & _).
    rewrite Hrun. simpl. rewrite Ht2. constructor.
Qed.

(** A listing that fails is fatal: the run throws the listing's error
    having made no other request, the ledger file is not written, the
    in-memory ledger is the loaded one and the counters are at zero. *)
Theorem failed_listing_aborts_the_run startDate endDate w e s2 :
  startRun svc startDate endDate (init w) = (Throw e, s2) ->
  let run := syncTogglToAsana svc startDate endDate (init w) in
  fst run = Throw e
  /\ trace (snd run) = [ReadLedger; SearchEntries startDate endDate]
  /\ persists (trace (snd run)) = []
  /\ creation_calls (trace (snd run)) = []
  /\ loadSyncState svc (init w)
     = (Return (syncState (snd run)), snd (loadSyncState svc (init w)))
  /\ tasks_accounted (snd run) = 0%nat.
Proof.
  intros Hstart run. destruct (fatal_listing svc startDate endDate w e s2 Hstart) as (Hrun & Ht).
  pose proof (startRun_spec svc startDate endDate w) as Hspec. cbv zeta in Hspec.
  rewrite Hstart in Hspec. simpl in Hspec.
  destruct Hspec as (_ & Hload & _ & _ & Hn1 & Hn2 & Hn3).
  subst run. rewrite Hrun. simpl. rewrite Ht. repeat split; try done.
  unfold tasks_accounted. by rewrite Hn1, Hn2, Hn3, Ht.
Qed.

(** The detector answers from its cache: after any call for a task, a
    second call returns the same list without a request, also when the
    first request failed; the cache entries of other tasks are not
    touched. *)
Theorem detector_answers_from_cache taskGid s existing s1 :
  getAsanaTimeEntries svc taskGid s = (Return existing, s1) ->
  getAsanaTimeEntries svc taskGid s1 = (Return existing, s1)
  /\ (forall e w, asanaTaskCache s !! taskGid = None ->
                  getTimeTrackingEntries svc taskGid (world s) = (Failed e, w) ->
                  existing = [])
  /\ forall other, other <> taskGid ->
                   asanaTaskCache s1 !! other = asanaTaskCache s !! other.
Proof.
  intros Hdet. destruct (getAsanaTimeEntries_events svc _ _ _ _ Hdet)
    as (evs2 & _ & Hshape & Hcached).
  split; [by apply getAsanaTimeEntries_hit|]. split.
  - intros e w Hmiss Hfail. rewrite (getAsanaTimeEntries_miss svc _ _ Hmiss), Hfail in Hdet.
    by injection Hdet as <- _.
  - intros other Hne. destruct Hshape as [[_ ->] | (_ & _ & ->)]; [done|].
    by rewrite lookup_insert_ne.
Qed.

End RunFacts.

Lemma one_lookup_per_task_witness :
  resolutions (trace (snd (weekRun firstWorld)))
  = [GetTask (number 9) (number 501); GetTask (number 9) (number 502)].
Proof.
  pose proof (one_lookup_per_task weekServices "2026-02-01" "2026-02-07" firstWorld
                (flatten weekGroups) weekListed ltac:(vm_compute; reflexivity)) as (H & _).
  unfold weekRun. fold weekServices. rewrite H. vm_compute. reflexivity.
Defined.

Lemma summary_accounts_for_every_task_witness :
  let s' := snd (weekRun firstWorld) in
  (synced s' + skipped s' + alreadySynced s' + length (errors (trace s')))%nat = 2%nat.
Proof.
  intros s'.
  pose proof (summary_accounts_for_every_task weekServices "2026-02-01" "2026-02-07"
                firstWorld (flatten weekGroups) weekListed ltac:(vm_compute; reflexivity)) as H.
  cbv zeta in H. unfold s', weekRun. fold weekServices. rewrite H. vm_compute. reflexivity.
Defined.

Lemma loaded_records_survive_witness :
  syncState (snd (weekRun secondWorld)) !! 1 = weekLedger !! 1.
Proof.
  pose proof (loaded_records_survive weekServices "2026-02-01" "2026-02-07" secondWorld
                weekLedger (snd (loadSyncState weekServices (init secondWorld))) 1
                (mkLedgerRecord "2026-02-02T09:00:00.000Z" "1200" (Fin (inject_Z 30))
                                "2026-02-01" false (Some (number 3)))
                ltac:(vm_compute; reflexivity) ltac:(vm_compute; reflexivity)) as (H & _).
  unfold weekRun. fold weekServices. rewrite H. vm_compute. reflexivity.
Defined.

Lemma creation_requests_are_for_listed_entries_witness :
  exists entry taskGid,
    entry ∈ flatten weekGroups
    /\ truthy (task_id entry) = true
    /\ PostTimeEntry "1200" (Fin (inject_Z 30)) "2026-02-01" 1
       = PostTimeEntry taskGid (durationMinutes entry) (enteredOn entry) (id entry).
Proof.
  apply (creation_requests_are_for_listed_entries weekServices "2026-02-01" "2026-02-07"
           firstWorld (flatten weekGroups) weekListed).
  - vm_compute. reflexivity.
  - vm_compute. left.
Defined.


Lemma failed_listing_aborts_the_run_witness :
  let run := syncTogglToAsana (mockServices downMock) "2026-02-01" "2026-02-07"
                              (init secondWorld) in
  fst run = Throw "Toggl Reports API error: 503"
  /\ trace (snd run) = [ReadLedger; SearchEntries "2026-02-01" "2026-02-07"]
  /\ persists (trace (snd run)) = []
  /\ creation_calls (trace (snd run)) = []
  /\ loadSyncState (mockServices downMock) (init secondWorld)
     = (Return (syncState (snd run)), snd (loadSyncState (mockServices downMock) (init secondWorld)))
  /\ tasks_accounted (snd run) = 0%nat.
Proof.
  apply (failed_listing_aborts_the_run (mockServices downMock) "2026-02-01" "2026-02-07"
           secondWorld "Toggl Reports API error: 503"
           (snd (startRun (mockServices downMock) "2026-02-01" "2026-02-07"
                          (init secondWorld)))).
  vm_compute. reflexivity.
Defined.

Lemma detector_answers_from_cache_witness :
  let s1 := mkSt firstWorld [GetTimeEntries "1200"; WarnFetch "1200"] ∅ ∅
                 (<["1200"%string := []]> ∅) 0 0 0 in
  getAsanaTimeEntries (mockServices (blindMock [])) "1200" s1 = (Return [], s1).
Proof.
  intros s1.
  apply (proj1 (detector_answers_from_cache (mockServices (blindMock [])) "1200"
                  mockInit [] s1 ltac:(reflexivity))).
Defined.

(** ** Further properties of the older script *)

Lemma syncjs_ledgered_entries_never_recreated_witness :
  PostTimeEntry "1200" (Fin (inject_Z 60)) "2026-02-01" 2
  ∉ trace (snd (SyncJs.syncTogglToAsana weekServices "2026-02-01" "2026-02-07"
                                        (init secondWorld))).
Proof.
  apply (syncjs_ledgered_entries_never_recreated weekServices "2026-02-01" "2026-02-07"
           secondWorld weekLedger (snd (loadSyncState weekServices (init secondWorld))) 2
           ltac:(vm_compute; reflexivity) ltac:(vm_compute; eexists; reflexivity)).
Defined.

Lemma syncjs_ledger_persisted_once_witness :
  let run := SyncJs.syncTogglToAsana weekJournal "2026-02-01" "2026-02-07"
                                     (init firstJournal) in
  fst run = Return tt
  /\ snd (world (snd run)) = [syncState (snd run)]
  /\ disk (fst (world (snd run))) = Ok "week.json"%string.
Proof.
  intros run.
  pose proof (syncjs_ledger_persisted_once weekJournal snd
                "2026-02-01" "2026-02-07" firstJournal
                (journaled_keeps_journal weekServices)) as H.
  cbv zeta in H.
  destruct (startMyRun weekJournal "2026-02-01" "2026-02-07" (init firstJournal))
    as [[timeEntries|e] s2] eqn:Hstart; vm_compute in Hstart; [|discriminate].
  injection Hstart as <- <-.
  destruct H as (_ & _ & Hworld & Hwrites & Hret). fold run in Hworld, Hwrites, Hret.
  rewrite Hret, Hwrites, Hworld. vm_compute. repeat split; reflexivity.
Defined.

Section SyncJsPosts.
Context {World : Type} (svc : Services World).

Implicit Types (s : St World) (entry : Entry).

(** [sync.js] does not look at what Asana holds: a send loop that runs to
    its end has made one creation request per entry, in order, with the
    minutes rounded from [duration] alone, has keyed every one of the
    entries in the ledger and has changed no other key. *)
Theorem syncjs_posts_every_new_entry taskGid (l : list Entry) s s3 :
  for_of l (SyncJs.sendEntry svc taskGid) s = (Return tt, s3) ->
  trace s3
  = trace s ++ map (fun entry => PostTimeEntry taskGid
                                   (Math_round (js_div (duration entry) 60))
                                   (enteredOn entry) (id entry)) l
  /\ (forall entry, entry ∈ l -> is_Some (syncState s3 !! id entry))
  /\ (forall k, k ∉ map id l -> syncState s3 !! k = syncState s !! k).
Proof.
  revert s. induction l as [|entry l IH]; intros s Hloop.
  - injection Hloop as <-. rewrite app_nil_r. split; [done|].
    split; [intros e H; by apply elem_of_nil in H | done].
  - rewrite for_of_cons, syncjs_sendEntry in Hloop. cbv zeta in Hloop.
    destruct (postTimeTrackingEntry svc taskGid _ _ (world s)) as [[[]|e] w]; [|done].
    apply IH in Hloop as (Ht & Hd & Hk). simpl in Ht, Hk. split; [|split].
    + rewrite Ht, <- app_assoc. done.
    + intros e He. apply elem_of_cons in He as [-> | He]; [|by apply Hd].
      destruct (decide (id entry ∈ map id l)) as [Hin | Hnin].
      * apply list_elem_of_fmap in Hin as (e2 & -> & Hin). by apply Hd.
      * rewrite Hk by done. rewrite lookup_insert_eq. by eexists.
    + intros k Hk'. simpl in Hk'. apply not_elem_of_cons in Hk' as [Hne Hk'].
      rewrite Hk by done. by rewrite lookup_insert_ne.
Qed.

End SyncJsPosts.

Lemma syncjs_posts_every_new_entry_witness :
  let l := [sampleEntry 31 undefined (number 1800) "2026-02-04T09:00:00Z" 501;
            sampleEntry 32 undefined (number 1800) "2026-02-04T12:00:00Z" 501] in
  trace (snd (for_of l (SyncJs.sendEntry weekServices "1200") mockInit))
  = [PostTimeEntry "1200" (Fin (inject_Z 30)) "2026-02-04" 31;
     PostTimeEntry "1200" (Fin (inject_Z 30)) "2026-02-04" 32].
Proof.
  intros l.
  pose proof (syncjs_posts_every_new_entry weekServices "1200" l mockInit
                (snd (for_of l (SyncJs.sendEntry weekServices "1200") mockInit))
                ltac:(vm_compute; reflexivity)) as (H & _).
  rewrite H. vm_compute. reflexivity.
Defined.

(** ** The script in between *)

Section SyncMeFacts.
Context {World : Type} (svc : Services World).

Implicit Types (s : St World) (entry : Entry) (ev : Event) (group : jsval * list Entry).

(** The detector without a cache, call by call. *)
Lemma syncme_detector_spec taskGid s :
  exists existing s',
    SyncMe.getAsanaTimeEntries svc taskGid s = (Return existing, s')
    /\ fetches (trace s') = fetches (trace s) ++ [taskGid]
    /\ syncState s' = syncState s
    /\ same_counters s s'
    /\ match getTimeTrackingEntries svc taskGid (world s) with
       | (Ok data, _) =>
           existing = default [] data /\ trace s' = trace s ++ [GetTimeEntries taskGid]
       | (Failed _, _) =>
           existing = []
           /\ trace s' = trace s ++ [GetTimeEntries taskGid; WarnFetch taskGid]
       end.
Proof.
  unfold SyncMe.getAsanaTimeEntries. unfold_monad. simpl.
  destruct (getTimeTrackingEntries svc taskGid (world s)) as [[data|e] w]; simpl.
  - eexists _, _. split; [reflexivity|]. simpl. rewrite fetches_app.
    unfold same_counters. done.
  - eexists _, _. split; [reflexivity|]. simpl. rewrite <- app_assoc, fetches_app.
    unfold same_counters. done.
Qed.

(** Without a cache the detector asks Asana at every call: it never
    throws, and two calls in a row for the same task make two requests,
    each answered on its own (the empty list, with a warning, when the
    request fails), the ledger and the counters being left alone. *)
Theorem syncme_detector_asks_every_time taskGid s :
  exists ex1 s1 ex2 s2,
    SyncMe.getAsanaTimeEntries svc taskGid s = (Return ex1, s1)
    /\ SyncMe.getAsanaTimeEntries svc taskGid s1 = (Return ex2, s2)
    /\ fetches (trace s2) = fetches (trace s) ++ [taskGid; taskGid]
    /\ syncState s2 = syncState s
    /\ same_counters s s2
    /\ (forall e w, getTimeTrackingEntries svc taskGid (world s) = (Failed e, w) ->
                    ex1 = [] /\ trace s1 = trace s ++ [GetTimeEntries taskGid;
                                                       WarnFetch taskGid])
    /\ (forall data w, getTimeTrackingEntries svc taskGid (world s1) = (Ok data, w) ->
                       ex2 = default [] data).
Proof.
  destruct (syncme_detector_spec taskGid s) as (ex1 & s1 & H1 & Hf1 & Hl1 & Hn1 & Hshape1).
  destruct (syncme_detector_spec taskGid s1) as (ex2 & s2 & H2 & Hf2 & Hl2 & Hn2 & Hshape2).
  exists ex1, s1, ex2, s2. split; [done|]. split; [done|].
  split; [by rewrite Hf2, Hf1, <- app_assoc|]. split; [congruence|]. split.
  { destruct Hn1 as (? & ? & ?), Hn2 as (? & ? & ?). unfold same_counters. split_and!; congruence. }
  split.
  - intros e w Hfail. by rewrite Hfail in Hshape1.
  - intros data w Hok. rewrite Hok in Hshape2. by destruct Hshape2.
Qed.

Lemma syncme_send_loop taskGid existing (L : Ledger) (l : list Entry) s :
  (forall entry, entry ∈ l -> L !! id entry = None) ->
  let s' := snd (for_of l (SyncMe.sendEntry svc taskGid existing) s) in
  (exists evs, trace s' = trace s ++ evs /\ Forall (task_event L) evs)
  /\ ledger_grows s s'.
Proof.
  revert s. induction l as [|entry l IH]; intros s Hfresh; cbv zeta.
  - simpl. split; [|apply ledger_grows_refl]. exists []. by rewrite app_nil_r.
  - rewrite for_of_cons.
    destruct (SyncMe.sendEntry svc taskGid existing entry s) as [o s1] eqn:Hsend.
    assert (Hstep : (exists evs, trace s1 = trace s ++ evs /\ Forall (task_event L) evs)
                    /\ ledger_grows s s1).
    { unfold SyncMe.sendEntry in Hsend.
      destruct (SyncMe.alreadyExists existing entry).
      - unfold_monad. injection Hsend as <- <-. simpl. split.
        + exists []. by rewrite app_nil_r.
        + intros k Hk. simpl. destruct (decide (id entry = k)) as [->|Hne].
          * rewrite lookup_insert_eq. by eexists.
          * by rewrite lookup_insert_ne.
      - unfold_monad. simpl in Hsend.
        destruct (postTimeTrackingEntry svc taskGid _ _ (world s)) as [[[]|e] w];
          injection Hsend as <- <-; simpl.
        + split.
          * eexists. split; [reflexivity|]. constructor; [|done]. simpl.
            apply Hfresh. by left.
          * intros k Hk. simpl. destruct (decide (id entry = k)) as [->|Hne].
            -- rewrite lookup_insert_eq. by eexists.
            -- by rewrite lookup_insert_ne.
        + split; [|by intros k]. eexists. split; [reflexivity|].
          constructor; [|done]. simpl. apply Hfresh. by left. }
    destruct Hstep as ((evs1 & Ht1 & Hev1) & Hg1).
    destruct o as [[]|e]; [|by split; [exists evs1|]].
    destruct (IH s1) as ((evs2 & Ht2 & Hev2) & Hg2).
    { intros e' He'. apply Hfresh. by right. }
    split; [|by eapply ledger_grows_trans].
    exists (evs1 ++ evs2). rewrite Ht2, Ht1, <- app_assoc. split; [done|].
    by apply Forall_app.
Qed.

Lemma syncme_processTask taskId (entries : list Entry) s o s' :
  SyncMe.processTask svc taskId entries s = (o, s') ->
  (exists evs, trace s' = trace s ++ evs /\ Forall (task_event (syncState s)) evs)
  /\ ledger_grows s s'.
Proof.
  intros Hproc. unfold SyncMe.processTask in Hproc.
  destruct entries as [|first rest].
  { unfold_monad. injection Hproc as <- <-. split; [|by intros k].
    exists []. by rewrite app_nil_r. }
  cbv iota beta in Hproc. remember (first :: rest) as entries eqn:Hentries.
  unfold bind at 1 in Hproc. unfold bind at 1, emit at 1, modify at 1, request at 1 in Hproc.
  simpl in Hproc.
  destruct (getTask svc (project_id first) taskId (world s)) as [[t|e] w].
  2:{ injection Hproc as <- <-. simpl. split; [|by intros k].
      eexists. split; [reflexivity|]. by repeat constructor. }
  destruct (String.eqb (integration_provider t) "asana").
  2:{ unfold_monad. injection Hproc as <- <-. simpl. split; [|by intros k].
      eexists. split; [reflexivity|]. by repeat constructor. }
  unfold bind at 1, gets at 1 in Hproc. simpl in Hproc.
  destruct (entriesToSync_of (syncState s) entries) as [|e0 l0] eqn:Hf.
  { unfold_monad. injection Hproc as <- <-. simpl. split; [|by intros k].
    eexists. split; [reflexivity|]. by repeat constructor. }
  cbn [length Nat.eqb] in Hproc. unfold bind at 1 in Hproc.
  match type of Hproc with context [SyncMe.getAsanaTimeEntries _ ?g ?s1] =>
    destruct (syncme_detector_spec g s1)
      as (existing & s2 & Hdet & _ & Hl2 & _ & Hshape)
  end.
  rewrite Hdet in Hproc. simpl in Hshape, Hl2. unfold bind at 1 in Hproc.
  pose proof (syncme_send_loop (integration_ext_id t) existing (syncState s)
                (e0 :: l0) s2) as Hloop.
  destruct Hloop as ((evs & Ht & Hev) & Hg).
  { intros e' He'. rewrite <- Hf in He'. by apply entriesToSync_elem in He' as [_ ?]. }
  assert (Hdet_ev : exists evs2, trace s2 = (trace s ++ [GetTask (project_id first) taskId])
                                           ++ evs2
                                 /\ Forall (task_event (syncState s)) evs2).
  { destruct (getTimeTrackingEntries svc (integration_ext_id t) w) as [[data|e] w'];
      destruct Hshape as [_ ->]; eexists; (split; [reflexivity|]); by repeat constructor. }
  destruct Hdet_ev as (evs2 & Ht2 & Hev2).
  assert (Hg2 : ledger_grows s s2) by (intros k Hk; by rewrite Hl2).
  destruct (for_of (e0 :: l0) _ _) as [[[]|e] s3]; simpl in Ht, Hg;
    unfold_monad; injection Hproc as <- <-; simpl;
    (split; [|by eapply ledger_grows_trans]); rewrite Ht, Ht2, <- !app_assoc;
    eexists; (split; [reflexivity|]); constructor; try done; by apply Forall_app.
Qed.

Lemma syncme_taskStep group s :
  fst (SyncMe.taskStep svc group s) = Return tt
  /\ (exists evs, trace (snd (SyncMe.taskStep svc group s)) = trace s ++ evs
                  /\ Forall (task_event (syncState s)) evs)
  /\ ledger_grows s (snd (SyncMe.taskStep svc group s)).
Proof.
  unfold SyncMe.taskStep, try_catch.
  destruct (SyncMe.processTask svc (fst group) (snd group) s) as [[[]|e] s1] eqn:Hproc;
    apply syncme_processTask in Hproc as ((evs & Ht & Hev) & Hg).
  - simpl. split; [done|]. split; [eauto | done].
  - simpl. split; [done|]. split; [|exact Hg].
    exists (evs ++ [TaskError (fst group)]). rewrite Ht, <- app_assoc. split; [done|].
    apply Forall_app. split; [done|]. by repeat constructor.
Qed.

(** The trace of a run of the script in between. *)
Lemma syncme_run_trace startDate endDate w o s' :
  SyncMe.syncTogglToAsana svc startDate endDate (init w) = (o, s') ->
  exists L l1 evs,
    loadSyncState svc (init w) = (Return L, l1)
    /\ Forall (task_event L) evs
    /\ match getMyTimeEntries svc startDate endDate (world l1) with
       | (Ok _, _) =>
           trace s' = [ReadLedger; SearchEntries startDate endDate] ++ evs
                      ++ [WriteLedger (syncState s')]
       | (Failed _, _) =>
           trace s' = [ReadLedger; SearchEntries startDate endDate]
       end.
Proof.
  intros Hrun. unfold SyncMe.syncTogglToAsana in Hrun.
  unfold bind at 1 in Hrun. rewrite loadSyncState_spec in Hrun.
  rewrite loadSyncState_spec.
  match goal with |- context [(Return ?L, ?l1) = _] => exists L, l1 end.
  unfold bind at 1, set_syncState at 1, modify at 1 in Hrun.
  unfold bind at 1, emit at 1, modify at 1 in Hrun.
  unfold bind at 1, request at 1 in Hrun. simpl in Hrun. simpl.
  destruct (getMyTimeEntries svc startDate endDate _) as [[timeEntries|e] w'].
  2:{ injection Hrun as <- <-. exists []. split; [reflexivity|]. by split. }
  set (taskMap := groupByTask _) in Hrun.
  unfold bind at 1 in Hrun.
  match type of Hrun with context [for_of taskMap _ ?s1] =>
    destruct (quiet_loop (SyncMe.taskStep svc) syncme_taskStep taskMap s1)
      as (Hret & (evs & Ht & Hev) & _)
  end.
  destruct (for_of taskMap _ _) as [[[]|e] s2]; simpl in Hret, Ht; [|done].
  exists evs. split; [reflexivity|]. split; [exact Hev|].
  unfold saveSyncState in Hrun. unfold_monad. simpl in Hrun.
  destruct (writeFile svc (syncState s2) (world s2)) as [[[]|e] w0];
    injection Hrun as <- <-; simpl; by rewrite Ht.
Qed.

(** The script in between keeps the ledger's promise as well: no creation
    request is made for an entry that the loaded ledger keys. *)
Theorem syncme_ledgered_entries_never_recreated startDate endDate w L l1 k :
  loadSyncState svc (init w) = (Return L, l1) ->
  is_Some (L !! k) ->
  forall taskGid minutes date,
    PostTimeEntry taskGid minutes date k
    ∉ trace (snd (SyncMe.syncTogglToAsana svc startDate endDate (init w))).
Proof.
  intros Hload Hk taskGid minutes date Hin.
  destruct (SyncMe.syncTogglToAsana svc startDate endDate (init w)) as [o s'] eqn:Hrun.
  apply syncme_run_trace in Hrun as (L' & l1' & evs & Hload' & Hev & Ht).
  rewrite Hload in Hload'. injection Hload' as <- <-. simpl in Hin.
  assert (Hcases : PostTimeEntry taskGid minutes date k ∈ evs).
  { destruct (getMyTimeEntries svc startDate endDate (world l1)) as [[l|e] w'];
      rewrite Ht in Hin.
    - apply elem_of_cons in Hin as [? | Hin]; [done|].
      apply elem_of_cons in Hin as [? | Hin]; [done|].
      apply elem_of_app in Hin as [Hin | Hin]; [done|].
      by apply list_elem_of_singleton in Hin.
    - apply elem_of_cons in Hin as [? | Hin]; [done|].
      apply elem_of_cons in Hin as [? | Hin]; [done|]. by apply elem_of_nil in Hin. }
  rewrite Forall_forall in Hev. apply Hev in Hcases. simpl in Hcases.
  rewrite Hcases in Hk. by destruct Hk.
Qed.

Lemma syncme_startMyRun startDate endDate s :
  SyncMe.syncTogglToAsana svc startDate endDate s
  = bind (startMyRun svc startDate endDate)
         (fun timeEntries =>
            bind (for_of (taskMap_of timeEntries) (SyncMe.taskStep svc))
                 (fun _ => bind (gets syncState) (saveSyncState svc))) s.
Proof.
  unfold SyncMe.syncTogglToAsana, startMyRun, bind.
  destruct (loadSyncState svc s) as [[L|e] s1]; [|done].
  destruct (set_syncState L s1) as [[[]|e] s2]; [|done].
  destruct (emit (SearchEntries startDate endDate) s2) as [[[]|e] s3]; [|done].
  by destruct (request (getMyTimeEntries svc startDate endDate) s3) as [[l|e] s4].
Qed.

(** The script in between, in a world that keeps a journal of the calls of
    [fs.writeFile]: a run that got its entries goes through the whole task
    loop without writing, then calls [writeFile] exactly once, with the
    ledger the loop left, and returns or throws as that call does; a run
    whose listing throws writes nothing. *)
Theorem syncme_ledger_persisted_once (writes : World -> list Ledger) startDate endDate w :
  keeps_journal svc writes ->
  let run := SyncMe.syncTogglToAsana svc startDate endDate (init w) in
  match startMyRun svc startDate endDate (init w) with
  | (Return timeEntries, s2) =>
      let taskMap := taskMap_of timeEntries in
      let loop := snd (for_of taskMap (SyncMe.taskStep svc) s2) in
      let write := writeFile svc (syncState loop) (world loop) in
      fst (for_of taskMap (SyncMe.taskStep svc) s2) = Return tt
      /\ (forall before after,
            taskMap = before ++ after ->
            let sb := snd (for_of before (SyncMe.taskStep svc) s2) in
            for_of taskMap (SyncMe.taskStep svc) s2 = for_of after (SyncMe.taskStep svc) sb
            /\ writes (world sb) = writes w)
      /\ world (snd run) = snd write
      /\ writes (world (snd run)) = writes w ++ [syncState loop]
      /\ fst run = match fst write with Ok _ => Return tt | Failed e => Throw e end
  | (Throw e, s2) =>
      run = (Throw e, s2) /\ writes (world s2) = writes w
  end.
Proof.
  intros Hj run. subst run. rewrite syncme_startMyRun.
  apply (run_writes_once svc writes Hj (startMyRun svc startDate endDate)
           (SyncMe.taskStep svc) (init w)).
  - by apply startMyRun_writes_nothing.
  - intros group. by apply syncme_taskStep_writes_nothing.
  - intros group s0. apply syncme_taskStep.
Qed.

End SyncMeFacts.

Lemma syncme_ledgered_entries_never_recreated_witness :
  PostTimeEntry "1200" (Fin (inject_Z 30)) "2026-02-01" 1
  ∉ trace (snd (SyncMe.syncTogglToAsana weekServices "2026-02-01" "2026-02-07"
                                        (init secondWorld))).
Proof.
  apply (syncme_ledgered_entries_never_recreated weekServices "2026-02-01" "2026-02-07"
           secondWorld weekLedger (snd (loadSyncState weekServices (init secondWorld))) 1
           ltac:(vm_compute; reflexivity) ltac:(vm_compute; eexists; reflexivity)).
Defined.

Lemma syncme_ledger_persisted_once_witness :
  let run := SyncMe.syncTogglToAsana weekJournal "2026-02-01" "2026-02-07"
                                     (init firstJournal) in
  fst run = Return tt
  /\ snd (world (snd run)) = [syncState (snd run)]
  /\ disk (fst (world (snd run))) = Ok "week.json"%string.
Proof.
  intros run.
  pose proof (syncme_ledger_persisted_once weekJournal snd
                "2026-02-01" "2026-02-07" firstJournal
                (journaled_keeps_journal weekServices)) as H.
  cbv zeta in H.
  destruct (startMyRun weekJournal "2026-02-01" "2026-02-07" (init firstJournal))
    as [[timeEntries|e] s2] eqn:Hstart; vm_compute in Hstart; [|discriminate].
  injection Hstart as <- <-.
  destruct H as (_ & _ & Hworld & Hwrites & Hret). fold run in Hworld, Hwrites, Hret.
  rewrite Hret, Hwrites, Hworld. vm_compute. repeat split; reflexivity.
Defined.

(** ** What a run leaves in the ledger *)

Section LedgerFacts.
Context {World : Type} (svc : Services World).

Implicit Types (s : St World) (entry : Entry) (ev : Event) (group : jsval * list Entry).

Lemma task_loop_new_keys (taskMap : list (jsval * list Entry)) s k :
  is_Some (syncState (snd (for_of taskMap (taskStep svc) s)) !! k) ->
  is_Some (syncState s !! k)
  \/ exists group entry, group ∈ taskMap /\ entry ∈ snd group /\ id entry = k.
Proof.
  revert taskMap s.
  apply (task_loop_ind svc (fun taskMap s s' =>
           is_Some (syncState s' !! k) ->
           is_Some (syncState s !! k)
           \/ exists group entry, group ∈ taskMap /\ entry ∈ snd group /\ id entry = k)).
  - intros s H. by left.
  - intros g rest s s1 s' Hout IH Hk.
    destruct (IH Hk) as [Hk1 | (group & entry & Hg & He & <-)].
    2:{ right. exists group, entry. split; [by right | done]. }
    destruct (iteration_normal_form svc g s s1 Hout)
      as (? & ? & ? & ? & done & ? & _ & _ & _ & _ & Hdone & Hsame & _).
    destruct (decide (k ∈ map id done)) as [Hin | Hnin].
    + right. apply list_elem_of_fmap in Hin as (e & -> & He).
      apply Hdone, entriesToSync_elem in He as [He _]. exists g, e. split; [by left | done].
    + left. by rewrite <- Hsame.
Qed.

(** The ledger gains keys of listed entries only: a key of the ledger at
    the end of a run was loaded, or is the id of a listed entry that has a
    task. *)
Theorem ledger_gains_only_listed_entries startDate endDate w timeEntries s2 k :
  startRun svc startDate endDate (init w) = (Return timeEntries, s2) ->
  is_Some (syncState (snd (syncTogglToAsana svc startDate endDate (init w))) !! k) ->
  is_Some (syncState s2 !! k)
  \/ exists entry, entry ∈ timeEntries /\ truthy (task_id entry) = true /\ id entry = k.
Proof.
  intros Hstart Hk. destruct (run_after_listing svc _ _ _ _ _ Hstart) as (Hrun & _).
  destruct (processEntries_spec svc timeEntries s2) as (_ & Hl & _).
  rewrite Hrun, Hl in Hk.
  apply task_loop_new_keys in Hk as [Hk | (group & entry & Hg & He & <-)]; [by left|].
  right. apply taskMap_of_groups in Hg as [_ Hg]. destruct (Hg entry He) as (Hin & Ht & _).
  by exists entry.
Qed.

(** A run that got its entries and logged no task error has resolved every
    task, and for every task linked to Asana all the entries of its group
    are keyed in the ledger that the run writes. *)
Theorem clean_run_ledgers_every_asana_entry startDate endDate w timeEntries s2 group :
  startRun svc startDate endDate (init w) = (Return timeEntries, s2) ->
  let s' := snd (syncTogglToAsana svc startDate endDate (init w)) in
  errors (trace s') = [] ->
  group ∈ taskMap_of timeEntries ->
  exists t,
    linked svc group t
    /\ (integration_provider t = "asana"%string ->
        forall entry, entry ∈ snd group ->
          is_Some (syncState s' !! id entry)
          /\ forall L', WriteLedger L' ∈ trace s' -> is_Some (L' !! id entry)).
Proof.
  intros Hstart s' Herr Hg.
  destruct (run_after_listing svc _ _ _ _ _ Hstart) as (Hrun & Ht2 & Hc & _).
  destruct (run_trace svc startDate endDate w timeEntries s2 Hstart)
    as (Ht & Hl & (evs & Hevs & HF) & _).
  fold s' in Ht, Hl.
  destruct (task_loop_clean svc (taskMap_of timeEntries) s2) with (group := group)
    as (t & Hlinked & Hkeyed).
  - apply groupByTask_NoDup.
  - intros k _. by rewrite Hc.
  - rewrite Ht, errors_app in Herr. apply app_eq_nil in Herr as [Herr _].
    by rewrite Herr, Ht2.
  - done.
  - exists t. split; [done|]. intros Hp entry He. rewrite Hl.
    split; [by apply Hkeyed|]. intros L' Hin. rewrite Ht in Hin.
    apply elem_of_app in Hin as [Hin | Hin].
    + exfalso. rewrite Hevs in Hin. apply elem_of_app in Hin as [Hin | Hin].
      * apply elem_of_cons in Hin as [? | Hin]; [done|].
        apply elem_of_cons in Hin as [? | Hin]; [done|]. by apply elem_of_nil in Hin.
      * rewrite Forall_forall in HF. by apply HF in Hin.
    + apply list_elem_of_singleton in Hin. injection Hin as ->. by apply Hkeyed.
Qed.

(** A task linked to Asana whose entries are all in the ledger already is
    left alone: the iteration asks Asana nothing, posts nothing, leaves the
    ledger and the Asana cache as they are, logs no error and counts the
    task as already synced. *)
Theorem fully_ledgered_task_is_left_alone group s t s1 :
  resolveTask svc (fst group) (snd group) s = (Return t, s1) ->
  integration_provider t = "asana"%string ->
  (forall entry, entry ∈ snd group -> is_Some (syncState s !! id entry)) ->
  exists s',
    taskStep svc group s = (Return tt, s')
    /\ (exists evs, trace s' = trace s ++ evs
                    /\ (evs = [] \/ evs = [resolution_of group]))
    /\ syncState s' = syncState s
    /\ asanaTaskCache s' = asanaTaskCache s
    /\ alreadySynced s' = S (alreadySynced s)
    /\ synced s' = synced s
    /\ skipped s' = skipped s.
Proof.
  intros Hres Hp Hkeyed.
  pose proof (resolveTask_frame svc (fst group) (snd group) s) as Hfr.
  cbv zeta in Hfr. rewrite Hres in Hfr. simpl in Hfr.
  destruct Hfr as (_ & Hl & Hc & Hn1 & Hn2 & Hn3).
  destruct (resolveTask_events svc group s) as (evs1 & Ht1 & Hshape & _).
  rewrite Hres in Ht1. simpl in Ht1.
  exists (snd (incr_alreadySynced s1)). split.
  - unfold taskStep, try_catch, processTask, bind. rewrite Hres.
    unfold syncTask. apply String.eqb_eq in Hp. rewrite Hp. unfold bind, gets.
    rewrite Hl, (entriesToSync_nil _ _ Hkeyed). reflexivity.
  - simpl. rewrite Hn3. split; [by exists evs1 | done].
Qed.

End LedgerFacts.

Lemma ledger_gains_only_listed_entries_witness :
  is_Some (syncState weekListed !! 2)
  \/ exists entry, entry ∈ flatten weekGroups /\ truthy (task_id entry) = true /\ id entry = 2.
Proof.
  apply (ledger_gains_only_listed_entries weekServices "2026-02-01" "2026-02-07"
           firstWorld (flatten weekGroups) weekListed 2).
  - vm_compute. reflexivity.
  - vm_compute. eexists. reflexivity.
Defined.

Lemma clean_run_ledgers_every_asana_entry_witness :
  exists t,
    linked weekServices (number 501, entries_of_task (number 501) (flatten weekGroups)) t
    /\ (integration_provider t = "asana"%string ->
        forall entry,
          entry ∈ entries_of_task (number 501) (flatten weekGroups) ->
          is_Some (syncState (snd (weekRun firstWorld)) !! id entry)
          /\ forall L', WriteLedger L' ∈ trace (snd (weekRun firstWorld)) ->
                        is_Some (L' !! id entry)).
Proof.
  apply (clean_run_ledgers_every_asana_entry weekServices "2026-02-01" "2026-02-07"
           firstWorld (flatten weekGroups) weekListed
           (number 501, entries_of_task (number 501) (flatten weekGroups))).
  - vm_compute. reflexivity.
  - vm_compute. reflexivity.
  - vm_compute. left.
Defined.

Lemma fully_ledgered_task_is_left_alone_witness :
  let group := (number 501, entries_of_task (number 501) (flatten weekGroups)) in
  let s := snd (startRun weekServices "2026-02-01" "2026-02-07" (init secondWorld)) in
  exists s',
    taskStep weekServices group s = (Return tt, s')
    /\ (exists evs, trace s' = trace s ++ evs
                    /\ (evs = [] \/ evs = [resolution_of group]))
    /\ syncState s' = syncState s
    /\ asanaTaskCache s' = asanaTaskCache s
    /\ alreadySynced s' = S (alreadySynced s)
    /\ synced s' = synced s
    /\ skipped s' = skipped s.
Proof.
  intros group s.
  apply (fully_ledgered_task_is_left_alone weekServices group s asanaTask
           (snd (resolveTask weekServices (fst group) (snd group) s))).
  - vm_compute. reflexivity.
  - reflexivity.
  - intros entry He. vm_compute in He.
    apply elem_of_cons in He as [-> | He]; [vm_compute; eexists; reflexivity|].
    apply elem_of_cons in He as [-> | He]; [vm_compute; eexists; reflexivity|].
    by apply elem_of_nil in He.
Defined.
